(** * Athena: confidence scoring and allocation engine

    A shallow embedding of the scoring and allocation core of the Athena
    market-intelligence aggregator:

    - package [analysis] (services/analysis): [DefaultWeights],
      [CalculateConfidence], [FetchCreatorAccuracy], [GetTechnicalSignals];
    - package [engine] (services/engine): [DefaultConfig], [NewEngine],
      [detectMarketRegime], [getTrackedTickers], [getTickerConfidenceScore],
      [calculateAllocation], [GenerateRecommendations].

    Numbers.  Go's [float64] is modelled by the rationals [Q] with exact
    arithmetic: comparisons and the four operations are the mathematical
    ones; rounding, NaN and the infinities are not modelled.  Equality of
    amounts and scores is therefore [Qeq] (written [==]).  Go's [int]
    counters are [nat], the [int64] volumes are [Z]; the conversion
    [float64(n)] is [inject_Z].

    Maps.  Go maps are stdpp [gmap]s; a [range] loop over a map visits
    [map_to_list].  Strings produced by [fmt.Sprintf] are kept as a format
    together with its arguments. *)

From Stdlib Require Import QArith Qminmax Lqa ZArith.
From stdpp Require Import gmap strings list fin_maps.

Local Open Scope Q_scope.

(** ** Numbers *)

Abbreviation float64 := Q (only parsing).

(** [float64(n)] for a Go [int] that holds a count. *)
Definition ofInt (n : nat) : float64 := inject_Z (Z.of_nat n).

(** [float64(v)] for an [int64]. *)
Definition ofInt64 (v : Z) : float64 := inject_Z v.

(** [x < y] and [x > y] on floats, as booleans. *)
Definition fltb (x y : float64) : bool := negb (Qle_bool y x).
Definition fgtb (x y : float64) : bool := fltb y x.
Definition fleb (x y : float64) : bool := Qle_bool x y.
Definition fgeb (x y : float64) : bool := Qle_bool y x.
Definition fneb (x y : float64) : bool := negb (Qeq_bool x y).

(** A string built by [fmt.Sprintf]: the format and the numeric arguments. *)
Record Formatted := Sprintf { format : string; args : list float64 }.

(** The zero value of a Go string. *)
Definition noText : Formatted := Sprintf EmptyString [].

(** ** Package analysis *)

Record ConfidenceWeights := {
  wCreatorConsensus : float64;
  wTechnicalAlignment : float64;
  wVolumeConfirmation : float64;
  wHistoricalAccuracy : float64
}.

Definition DefaultWeights : ConfidenceWeights :=
  {| wCreatorConsensus := 0.30;
     wTechnicalAlignment := 0.30;
     wVolumeConfirmation := 0.20;
     wHistoricalAccuracy := 0.20 |}.

Record ConfidenceInputs := {
  Ticker : string;
  CreatorSentiments : gmap string string;
  TechnicalSignals : list string;
  CurrentVolume : Z;
  AvgVolume : Z;
  CreatorAccuracyRates : gmap string float64
}.

Record ConfidenceScore := {
  Overall : float64;
  CreatorConsensus : float64;
  TechnicalAlignment : float64;
  VolumeConfirmation : float64;
  HistoricalAccuracy : float64;
  Direction : string;
  Breakdown : Formatted
}.

(** The body shared by the two counting loops of [CalculateConfidence]:
    [switch label { case "bullish": bullish++; case "bearish": bearish++ }]. *)
Definition countStep (acc : nat * nat) (label : string) : nat * nat :=
  if String.eqb label "bullish" then (S (fst acc), snd acc)
  else if String.eqb label "bearish" then (fst acc, S (snd acc))
  else acc.

Definition countLabels (labels : list string) : nat * nat :=
  fold_left countStep labels (0%nat, 0%nat).

(** Step 1: creator consensus and direction. *)
Definition creatorConsensus (sentiments : gmap string string) : float64 * string :=
  let '(bullishCount, bearishCount) := countLabels (map_to_list sentiments).*2 in
  let totalCreators := size sentiments in
  if (0 <? totalCreators)%nat then
    if (bearishCount <? bullishCount)%nat then
      (ofInt bullishCount / ofInt totalCreators, "bullish"%string)
    else if (bullishCount <? bearishCount)%nat then
      (ofInt bearishCount / ofInt totalCreators, "bearish"%string)
    else (0.5, "neutral"%string)
  else (0, "neutral"%string).

(** Step 2: technical alignment with the direction chosen in step 1. *)
Definition technicalAlignment (direction : string) (signals : list string) : float64 :=
  let '(bullishSignals, bearishSignals) := countLabels signals in
  let totalSignals := length signals in
  if (0 <? totalSignals)%nat then
    if String.eqb direction "bullish" then ofInt bullishSignals / ofInt totalSignals
    else if String.eqb direction "bearish" then ofInt bearishSignals / ofInt totalSignals
    else if (bearishSignals <? bullishSignals)%nat then
      ofInt bullishSignals / ofInt totalSignals
    else ofInt bearishSignals / ofInt totalSignals
  else 0.

(** Step 3: volume confirmation. *)
Definition volumeConfirmation (currentVolume avgVolume : Z) : float64 :=
  if (0 <? avgVolume)%Z then
    let ratio := ofInt64 currentVolume / ofInt64 avgVolume in
    if fgeb ratio 2.0 then 1.0
    else if fleb ratio 0.5 then 0.0
    else (ratio - 0.5) / 1.5
  else 0.5.

(** Step 4: historical accuracy. *)
Definition historicalAccuracy (rates : gmap string float64) : float64 :=
  if (0 <? size rates)%nat then
    fold_left Qplus (map_to_list rates).*2 0.0 / ofInt (size rates)
  else 0.5.

Definition CalculateConfidence (inputs : ConfidenceInputs)
    (weights : ConfidenceWeights) : ConfidenceScore :=
  let '(consensus, direction) := creatorConsensus (CreatorSentiments inputs) in
  let alignment := technicalAlignment direction (TechnicalSignals inputs) in
  let volume := volumeConfirmation (CurrentVolume inputs) (AvgVolume inputs) in
  let accuracy := historicalAccuracy (CreatorAccuracyRates inputs) in
  {| Overall :=
       (consensus * wCreatorConsensus weights) +
       (alignment * wTechnicalAlignment weights) +
       (volume * wVolumeConfirmation weights) +
       (accuracy * wHistoricalAccuracy weights);
     CreatorConsensus := consensus;
     TechnicalAlignment := alignment;
     VolumeConfirmation := volume;
     HistoricalAccuracy := accuracy;
     Direction := direction;
     Breakdown :=
       Sprintf "Creator: %.0f%% | Technical: %.0f%% | Volume: %.0f%% | History: %.0f%%"
         [consensus * 100; alignment * 100; volume * 100; accuracy * 100] |}.

(** [GetTechnicalSignals]: each rule appends at most one signal. *)
Definition GetTechnicalSignals (rsi sma50 sma200 macd macdSignal currentPrice : float64)
    : list string :=
  let signals := [] in
  let signals :=
    if fgtb rsi 0 then
      if fltb rsi 30 then signals ++ ["bullish"%string]
      else if fgtb rsi 70 then signals ++ ["bearish"%string]
      else signals ++ ["neutral"%string]
    else signals in
  let signals :=
    if fgtb sma50 0 && fgtb sma200 0 then
      if fgtb sma50 sma200 then signals ++ ["bullish"%string]
      else signals ++ ["bearish"%string]
    else signals in
  let signals :=
    if fgtb sma200 0 && fgtb currentPrice 0 then
      if fgtb currentPrice sma200 then signals ++ ["bullish"%string]
      else signals ++ ["bearish"%string]
    else signals in
  let signals :=
    if fneb macd 0 && fneb macdSignal 0 then
      if fgtb macd macdSignal then signals ++ ["bullish"%string]
      else signals ++ ["bearish"%string]
    else signals in
  signals.


(** ** The database, as the engine reads it

    The engine only reads.  Each field is the answer of one of its SQL
    queries; a [QueryRowContext(...).Scan] answers with a row or an error
    ([ErrNoRows] when there is no row), and a nullable column scanned into
    [sql.NullFloat64] or [sql.NullInt64] is an [option].

    [getTickerConfidenceScore] drops the error of three of its scans and
    goes on with whatever [Scan] left in the destinations.  For these the
    answer is the row as the database yields it, column by column
    ([Column]), or [ScanErr] when [Scan] returns before it reads a column
    (the query failed or there is no row); what the destinations hold
    afterwards is computed by [scanTechnical], [scanMarket] and
    [scanNull]. *)

Inductive error :=
  | ErrNoRows
  | ErrDB (msg : string)
  | Errorf (context : string) (cause : error).

Inductive Scanned (A : Type) :=
  | Row (a : A)
  | ScanErr (e : error).
Arguments Row {A} a.
Arguments ScanErr {A} e.

Record TechnicalRow := {
  rsi_14 : option float64;
  sma_50 : option float64;
  sma_200 : option float64;
  macd : option float64;
  macd_signal : option float64
}.

(** A column of a row before it is scanned: NULL, a value the destination
    takes, or a value that does not convert to the destination's type. *)
Inductive Column (A : Type) :=
  | Null
  | Value (v : A)
  | Unconvertible.
Arguments Null {A}.
Arguments Value {A} v.
Arguments Unconvertible {A}.

(** The columns of the technical-indicators row, in the order scanned. *)
Record TechnicalColumns := {
  col_rsi_14 : Column float64;
  col_sma_50 : Column float64;
  col_sma_200 : Column float64;
  col_macd : Column float64;
  col_macd_signal : Column float64
}.

(** [NullFloat64.Scan] and [NullInt64.Scan] on one column: the destination
    afterwards, and whether the scan may go on. NULL leaves it invalid; any
    other value sets [Valid] before it is converted, so a value that does
    not convert leaves a valid zero and stops the scan. *)
Definition scanNull {A : Type} (zero : A) (c : Column A) : option A * bool :=
  match c with
  | Null => (None, true)
  | Value v => (Some v, true)
  | Unconvertible => (Some zero, false)
  end.

(** The next column: untouched once the scan has stopped. *)
Definition scanNext {A : Type} (zero : A) (ok : bool) (c : Column A) : option A * bool :=
  if ok then scanNull zero c else (None, false).

(** [Scan(&rsi, &sma50, &sma200, &macd, &macdSignal)]: column by column,
    up to the first that fails. *)
Definition scanTechnical (cols : TechnicalColumns) : TechnicalRow :=
  let '(rsi, ok) := scanNull 0 (col_rsi_14 cols) in
  let '(sma50, ok) := scanNext 0 ok (col_sma_50 cols) in
  let '(sma200, ok) := scanNext 0 ok (col_sma_200 cols) in
  let '(macd, ok) := scanNext 0 ok (col_macd cols) in
  let '(macdSignal, _) := scanNext 0 ok (col_macd_signal cols) in
  {| rsi_14 := rsi; sma_50 := sma50; sma_200 := sma200;
     macd := macd; macd_signal := macdSignal |}.

(** [Scan(&currentPrice, &currentVolume)]: the price is a plain [float64],
    which takes neither NULL nor a value that does not convert; the volume
    is read only after the price. *)
Definition scanMarket (cols : Column float64 * Column Z) : float64 * option Z :=
  match fst cols with
  | Value price => (price, fst (scanNull 0%Z (snd cols)))
  | Null | Unconvertible => (0, None)
  end.

Record DB := {
  (* SELECT close FROM market_data WHERE ticker = 'VIX' OR ticker = '^VIX' *)
  vixClose : Scanned (option float64);
  (* SELECT rsi_14 FROM technical_indicators WHERE ticker = 'SPY' *)
  spyRSI : Scanned (option float64);
  (* SELECT value FROM config WHERE key = 'tracked_tickers' *)
  trackedTickersConfig : Scanned string;
  (* SELECT DISTINCT creator_name, sentiment FROM creator_content ...:
     the rows that scan, in the order the query yields them; None when
     the query fails *)
  creatorContent : string -> option (list (string * string));
  (* SELECT rsi_14, sma_50, sma_200, macd, macd_signal ... *)
  technicalIndicators : string -> Scanned TechnicalColumns;
  (* SELECT close, volume FROM market_data ... *)
  marketData : string -> Scanned (Column float64 * Column Z);
  (* SELECT volume_avg_20 FROM technical_indicators ... *)
  volumeAvg20 : string -> Scanned (Column Z);
  (* SELECT creator_name, COALESCE(AVG(...), 0.5) FROM creator_accuracy ... *)
  creatorAccuracy : list string -> Scanned (list (string * float64))
}.

(** What a run does besides computing: the queries it sends and the lines
    it logs, in order. *)
Inductive Query :=
  | QVix
  | QSpyRSI
  | QTrackedTickers
  | QCreatorContent (ticker : string)
  | QTechnicalIndicators (ticker : string)
  | QMarketData (ticker : string)
  | QVolumeAvg20 (ticker : string)
  | QCreatorAccuracy (creators : list string).

Inductive Event :=
  | EvQuery (q : Query)
  | EvLog (format : string).

(** A computation that appends to the trace of events. *)
Definition M (A : Type) : Type := list Event -> A * list Event.

Definition ret {A} (a : A) : M A := fun tr => (a, tr).

Definition bind {A B} (c : M A) (k : A -> M B) : M B :=
  fun tr => let '(a, tr') := c tr in k a tr'.

Definition emit (ev : Event) : M unit := fun tr => (tt, tr ++ [ev]).

Declare Scope go_scope.
Delimit Scope go_scope with go.
Notation "'let*' x ':=' c 'in' k" := (bind c (fun x => k))
  (at level 10, x pattern, c at level 100, k at level 200) : go_scope.
Notation "c ;;; k" := (bind c (fun _ => k))
  (at level 100, k at level 200, right associativity) : go_scope.

(** The events a computation adds when it starts from an empty trace. *)
Definition events {A} (c : M A) : list Event := snd (c []).
Definition result {A} (c : M A) : A := fst (c []).

(** [FetchCreatorAccuracy]: the rates of the creators, 0.5 for a creator
    without history; no query for an empty list of creators. *)
Definition FetchCreatorAccuracy (db : DB) (creators : list string)
    : M (gmap string float64 * option error) :=
  (if (length creators =? 0)%nat then ret (∅, None)
   else
     emit (EvQuery (QCreatorAccuracy creators)) ;;;
     match creatorAccuracy db creators with
     | ScanErr e => ret (∅, Some (Errorf "query accuracy" e))
     | Row rows =>
         let rates := fold_left (fun (m : gmap string float64) r => <[r.1 := r.2]> m) rows ∅ in
         let rates :=
           fold_left (fun (m : gmap string float64) creator =>
                        match m !! creator with
                        | Some _ => m
                        | None => <[creator := 0.5]> m
                        end) creators rates in
         ret (rates, None)
     end)%go.

(** ** Package engine *)

Inductive MarketRegime :=
  | RegimeCalm
  | RegimeVolatile
  | RegimeBullish
  | RegimeBearish.

Definition regime_eqb (a b : MarketRegime) : bool :=
  match a, b with
  | RegimeCalm, RegimeCalm
  | RegimeVolatile, RegimeVolatile
  | RegimeBullish, RegimeBullish
  | RegimeBearish, RegimeBearish => true
  | _, _ => false
  end.

Record Recommendation := {
  rTicker : string;
  rAction : string;
  rAmount : float64;
  rConfidenceScore : float64;
  rReasoning : Formatted;
  rMarketRegime : MarketRegime;
  rVIXLevel : float64
}.

Record Engine := {
  db : DB;
  vixHighThreshold : float64;
  rsiOverbought : float64;
  rsiOversold : float64
}.

Record Config := {
  VIXHighThreshold : float64;
  RSIOverbought : float64;
  RSIOversold : float64
}.

Definition DefaultConfig : Config :=
  {| VIXHighThreshold := 25.0;
     RSIOverbought := 70.0;
     RSIOversold := 30.0 |}.

(** [NewEngine] has no error result: it copies the thresholds. *)
Definition NewEngine (d : DB) (cfg : Config) : Engine :=
  {| db := d;
     vixHighThreshold := VIXHighThreshold cfg;
     rsiOverbought := RSIOverbought cfg;
     rsiOversold := RSIOversold cfg |}.

(** [detectMarketRegime]: the regime, the VIX level and the error. *)
Definition detectMarketRegime (e : Engine) : M (MarketRegime * float64 * option error) :=
  (emit (EvQuery QVix) ;;;
   let '(vix, err) :=
     match vixClose (db e) with
     | Row v => (v, None)
     | ScanErr err => (None, Some err)
     end in
   let failed :=   (* err != nil && err != sql.ErrNoRows *)
     match err with
     | None | Some ErrNoRows => false
     | Some _ => true
     end in
   if failed then ret (RegimeCalm, 0, Errorf "query VIX" <$> err)
   else
       let vixLevel := match vix with Some v => v | None => 0.0 end in
       if fgtb vixLevel (vixHighThreshold e) then ret (RegimeVolatile, vixLevel, None)
       else
         emit (EvQuery QSpyRSI) ;;;
         match spyRSI (db e) with
         | Row (Some rsi) =>
             if fgtb rsi (rsiOverbought e) then ret (RegimeBearish, vixLevel, None)
             else if fltb rsi (rsiOversold e) then ret (RegimeBullish, vixLevel, None)
             else ret (RegimeCalm, vixLevel, None)
         | _ => ret (RegimeCalm, vixLevel, None)
         end)%go.

(** [getTrackedTickers]: the default tickers, whatever the config row holds. *)
Definition getTrackedTickers (e : Engine) : M (list string * option error) :=
  (let defaultTickers := ["SPY"; "QQQ"; "VOO"; "VTI"]%string in
   emit (EvQuery QTrackedTickers) ;;;
   match trackedTickersConfig (db e) with
   | ScanErr ErrNoRows => ret (defaultTickers, None)
   | ScanErr err => ret ([], Some (Errorf "query config" err))
   | Row _ => ret (defaultTickers, None)
   end)%go.

(** The [Float64] (or [Int64]) field of a nullable value: zero when null. *)
Definition Float64 (v : option float64) : float64 := default 0 v.
Definition Int64 (v : option Z) : Z := default 0%Z v.

Definition noTechnicalRow : TechnicalRow :=
  {| rsi_14 := None; sma_50 := None; sma_200 := None; macd := None; macd_signal := None |}.

(** [getTickerConfidenceScore]: reads the inputs of one ticker and scores
    them with the default weights; its error is always nil. *)
Definition getTickerConfidenceScore (e : Engine) (ticker : string)
    : M (ConfidenceScore * option error) :=
  (emit (EvQuery (QCreatorContent ticker)) ;;;
   let creatorSentiments : gmap string string :=
     match creatorContent (db e) ticker with
     | Some rows => fold_left (fun (m : gmap string string) r => <[r.1 := r.2]> m) rows ∅
     | None => ∅
     end in
   emit (EvQuery (QTechnicalIndicators ticker)) ;;;
   let tech :=
     match technicalIndicators (db e) ticker with
     | Row cols => scanTechnical cols
     | ScanErr _ => noTechnicalRow
     end in
   emit (EvQuery (QMarketData ticker)) ;;;
   let '(currentPrice, currentVolume) :=
     match marketData (db e) ticker with
     | Row cols => scanMarket cols
     | ScanErr _ => (0, None)
     end in
   emit (EvQuery (QVolumeAvg20 ticker)) ;;;
   let avgVolume :=
     match volumeAvg20 (db e) ticker with
     | Row c => fst (scanNull 0%Z c)
     | ScanErr _ => None
     end in
   let technicalSignals :=
     match rsi_14 tech with
     | Some rsi =>
         GetTechnicalSignals rsi (Float64 (sma_50 tech)) (Float64 (sma_200 tech))
           (Float64 (macd tech)) (Float64 (macd_signal tech)) currentPrice
     | None => []
     end in
   let creators := (map_to_list creatorSentiments).*1 in
   let* (accuracyRates, _) := FetchCreatorAccuracy (db e) creators in
   let inputs :=
     {| Ticker := ticker;
        CreatorSentiments := creatorSentiments;
        TechnicalSignals := technicalSignals;
        CurrentVolume := Int64 currentVolume;
        AvgVolume := Int64 avgVolume;
        CreatorAccuracyRates := accuracyRates |} in
   let score := CalculateConfidence inputs DefaultWeights in
   ret (score, None))%go.

Record AllocationResult := {
  Action : string;
  Amount : float64;
  Reasoning : Formatted
}.

(** Core holdings allocation strategy. *)
Definition coreHoldings : gmap string float64 :=
  {[ "SPY"%string := 0.40;
     "QQQ"%string := 0.30;
     "VOO"%string := 0.20;
     "VTI"%string := 0.10 ]}.

Definition calculateAllocation (e : Engine) (ticker : string) (score : ConfidenceScore)
    (budget : float64) (regime : MarketRegime) : AllocationResult :=
  match coreHoldings !! ticker with
  | None =>
      if fltb (Overall score) 0.6 then
        {| Action := "wait";
           Amount := 0;
           Reasoning := Sprintf "Confidence too low (%.0f%%) for risk allocation"
                          [Overall score * 100] |}
      else
        {| Action := "buy";
           Amount := budget * 0.10;
           Reasoning := Sprintf "Risk allocation approved (%.0f%% confidence)"
                          [Overall score * 100] |}
  | Some baseAllocation =>
      let amount := budget * baseAllocation in
      if fltb (Overall score) 0.4 then
        let amount := amount * 0.25 in
        {| Action := "buy";
           Amount := amount;
           Reasoning := Sprintf "Reduced allocation due to low confidence (%.0f%%)"
                          [Overall score * 100] |}
      else if fltb (Overall score) 0.6 then
        let amount := amount * 0.5 in
        {| Action := "buy";
           Amount := amount;
           Reasoning := Sprintf "Reduced allocation due to moderate confidence (%.0f%%)"
                          [Overall score * 100] |}
      else if regime_eqb regime RegimeBearish then
        let amount := amount * 0.75 in
        {| Action := "buy";
           Amount := amount;
           Reasoning := Sprintf "Bearish regime - conservative allocation (%.0f%% confidence)"
                          [Overall score * 100] |}
      else if regime_eqb regime RegimeBullish && fgtb (Overall score) 0.8 then
        let amount := amount * 1.1 in
        let amount :=
          if fgtb amount (budget * baseAllocation * 1.2)
          then budget * baseAllocation * 1.2
          else amount in
        {| Action := "buy";
           Amount := amount;
           Reasoning := Sprintf "Bullish regime with high confidence (%.0f%%) - increased allocation"
                          [Overall score * 100] |}
      else
        {| Action := "buy";
           Amount := amount;
           Reasoning := Sprintf "Standard allocation (%.0f%% confidence)"
                          [Overall score * 100] |}
  end.

(** The per-ticker loop of [GenerateRecommendations]. *)
Fixpoint recommendTickers (e : Engine) (budget : float64) (regime : MarketRegime)
    (vix : float64) (tickers : list string) (recommendations : list Recommendation)
    : M (list Recommendation) :=
  (match tickers with
   | [] => ret recommendations
   | ticker :: rest =>
       let* (score, err) := getTickerConfidenceScore e ticker in
       match err with
       | Some _ =>
           emit (EvLog "Warning: could not get confidence score for %s: %v") ;;;
           recommendTickers e budget regime vix rest recommendations
       | None =>
           let allocation := calculateAllocation e ticker score budget regime in
           recommendTickers e budget regime vix rest
             (recommendations ++
              [{| rTicker := ticker;
                  rAction := Action allocation;
                  rAmount := Amount allocation;
                  rConfidenceScore := Overall score;
                  rReasoning := Reasoning allocation;
                  rMarketRegime := regime;
                  rVIXLevel := vix |}])
       end
   end)%go.

Definition GenerateRecommendations (e : Engine) (budget : float64)
    : M (list Recommendation * option error) :=
  (emit (EvLog "Generating recommendations for budget: $%.2f") ;;;
   let* (detected, err) := detectMarketRegime e in
   let* (regime, vix) :=
     match err with
     | Some _ =>
         emit (EvLog "Warning: could not detect market regime: %v") ;;;
         ret (RegimeCalm, 0)
     | None => ret detected
     end in
   emit (EvLog "Market regime: %s (VIX: %.2f)") ;;;
   if regime_eqb regime RegimeVolatile then
     ret ([{| rTicker := EmptyString;
              rAction := "wait";
              rAmount := 0;
              rConfidenceScore := 0;
              rReasoning :=
                Sprintf "High volatility detected (VIX: %.2f). Wait 2-3 days for market to stabilize."
                  [vix];
              rMarketRegime := regime;
              rVIXLevel := vix |}], None)
   else
     let* (tickers, err) := getTrackedTickers e in
     match err with
     | Some err => ret ([], Some (Errorf "get tracked tickers" err))
     | None =>
         let* recommendations := recommendTickers e budget regime vix tickers [] in
         ret (recommendations, None)
     end)%go.

(** ** Predicates and concrete values used in the statements *)

(** A database with no rows at all. *)
Definition emptyDB : DB :=
  {| vixClose := ScanErr ErrNoRows;
     spyRSI := ScanErr ErrNoRows;
     trackedTickersConfig := ScanErr ErrNoRows;
     creatorContent := fun _ => Some [];
     technicalIndicators := fun _ => ScanErr ErrNoRows;
     marketData := fun _ => ScanErr ErrNoRows;
     volumeAvg20 := fun _ => ScanErr ErrNoRows;
     creatorAccuracy := fun _ => Row [] |}.

Definition defaultEngine (d : DB) : Engine := NewEngine d DefaultConfig.

(** A score of which only [Overall] and [Direction] are set, as the
    allocation tests build it. *)
Definition scoreOf (overall : float64) (direction : string) : ConfidenceScore :=
  {| Overall := overall;
     CreatorConsensus := 0;
     TechnicalAlignment := 0;
     VolumeConfirmation := 0;
     HistoricalAccuracy := 0;
     Direction := direction;
     Breakdown := noText |}.

(** The number of creators whose sentiment is [label]. *)
Definition creatorsWith (label : string) (sentiments : gmap string string) : nat :=
  length (filter (fun s => s = label) (map_to_list sentiments).*2).

(** The inputs the data model allows: accuracy ratios in [0,1], volumes
    not negative. *)
Definition validInputs (inputs : ConfidenceInputs) : Prop :=
  map_Forall (fun _ r => 0 <= r <= 1) (CreatorAccuracyRates inputs) /\
  (0 <= CurrentVolume inputs)%Z /\ (0 <= AvgVolume inputs)%Z.

Definition weightSum (w : ConfidenceWeights) : float64 :=
  wCreatorConsensus w + wTechnicalAlignment w +
  wVolumeConfirmation w + wHistoricalAccuracy w.

(** Weights that are not negative and sum to 1.0 within 0.01. *)
Definition normalizedWeights (w : ConfidenceWeights) : Prop :=
  0 <= wCreatorConsensus w /\ 0 <= wTechnicalAlignment w /\
  0 <= wVolumeConfirmation w /\ 0 <= wHistoricalAccuracy w /\
  0.99 <= weightSum w <= 1.01.

(** One creator, bullish and always right, one bullish signal, twice the
    average volume: every component is 1. *)
Definition fullAgreement : ConfidenceInputs :=
  {| Ticker := "SPY";
     CreatorSentiments := {[ "creator1"%string := "bullish"%string ]};
     TechnicalSignals := ["bullish"%string];
     CurrentVolume := 100000000;
     AvgVolume := 50000000;
     CreatorAccuracyRates := {[ "creator1"%string := 1.0 ]} |}.

(** Weights that are not negative and sum to 1.005. *)
Definition heavyWeights : ConfidenceWeights :=
  {| wCreatorConsensus := 0.305;
     wTechnicalAlignment := 0.30;
     wVolumeConfirmation := 0.20;
     wHistoricalAccuracy := 0.20 |}.

(** The split vote of TestCalculateConfidence. *)
Definition splitVote : ConfidenceInputs :=
  {| Ticker := "SPY";
     CreatorSentiments := {[ "creator1"%string := "bullish"%string;
                             "creator2"%string := "bearish"%string ]};
     TechnicalSignals := ["bullish"%string; "bearish"%string];
     CurrentVolume := 30000000;
     AvgVolume := 50000000;
     CreatorAccuracyRates := {[ "creator1"%string := 0.5; "creator2"%string := 0.5 ]} |}.

Definition sameVolume : ConfidenceInputs :=
  {| Ticker := "SPY";
     CreatorSentiments := ∅;
     TechnicalSignals := [];
     CurrentVolume := 50000000;
     AvgVolume := 50000000;
     CreatorAccuracyRates := ∅ |}.

(** Volumes below zero, the current one at twice the average. *)
Definition negativeVolumes : ConfidenceInputs :=
  {| Ticker := "SPY";
     CreatorSentiments := ∅;
     TechnicalSignals := [];
     CurrentVolume := -200;
     AvgVolume := -100;
     CreatorAccuracyRates := ∅ |}.

(** The VIX query finds no row, or a row whose close is null. *)
Definition vixMissing (d : DB) : Prop :=
  vixClose d = ScanErr ErrNoRows \/ vixClose d = Row None.

(** SPY is overbought and there is no VIX row. *)
Definition overboughtNoVix : DB :=
  {| vixClose := ScanErr ErrNoRows;
     spyRSI := Row (Some 80);
     trackedTickersConfig := ScanErr ErrNoRows;
     creatorContent := fun _ => Some [];
     technicalIndicators := fun _ => ScanErr ErrNoRows;
     marketData := fun _ => ScanErr ErrNoRows;
     volumeAvg20 := fun _ => ScanErr ErrNoRows;
     creatorAccuracy := fun _ => Row [] |}.

(** A VIX close of 30 and nothing else. *)
Definition highVix : DB :=
  {| vixClose := Row (Some 30);
     spyRSI := ScanErr ErrNoRows;
     trackedTickersConfig := ScanErr ErrNoRows;
     creatorContent := fun _ => Some [];
     technicalIndicators := fun _ => ScanErr ErrNoRows;
     marketData := fun _ => ScanErr ErrNoRows;
     volumeAvg20 := fun _ => ScanErr ErrNoRows;
     creatorAccuracy := fun _ => Row [] |}.

Definition buyOrWait (action : string) : Prop :=
  action = "buy"%string \/ action = "wait"%string.

(** ** Auxiliary definitions for the further properties *)

Definition validLabel (label : string) : Prop :=
  label = "bullish"%string \/ label = "bearish"%string \/ label = "neutral"%string.

(** The signal each rule of [GetTechnicalSignals] contributes. *)
Definition rsiRule (rsi : float64) : list string :=
  if fgtb rsi 0 then
    if fltb rsi 30 then ["bullish"%string]
    else if fgtb rsi 70 then ["bearish"%string]
    else ["neutral"%string]
  else [].

Definition crossRule (sma50 sma200 : float64) : list string :=
  if fgtb sma50 0 && fgtb sma200 0 then
    if fgtb sma50 sma200 then ["bullish"%string] else ["bearish"%string]
  else [].

Definition trendRule (sma200 currentPrice : float64) : list string :=
  if fgtb sma200 0 && fgtb currentPrice 0 then
    if fgtb currentPrice sma200 then ["bullish"%string] else ["bearish"%string]
  else [].

Definition macdRule (macd macdSignal : float64) : list string :=
  if fneb macd 0 && fneb macdSignal 0 then
    if fgtb macd macdSignal then ["bullish"%string] else ["bearish"%string]
  else [].

(** The inputs [getTickerConfidenceScore] builds for a ticker, read off
    the database. *)
Definition sentimentsOf (d : DB) (ticker : string) : gmap string string :=
  match creatorContent d ticker with
  | Some rows => fold_left (fun (m : gmap string string) r => <[r.1 := r.2]> m) rows ∅
  | None => ∅
  end.

Definition technicalRowOf (d : DB) (ticker : string) : TechnicalRow :=
  match technicalIndicators d ticker with
  | Row cols => scanTechnical cols
  | ScanErr _ => noTechnicalRow
  end.

Definition marketRowOf (d : DB) (ticker : string) : float64 * option Z :=
  match marketData d ticker with
  | Row cols => scanMarket cols
  | ScanErr _ => (0, None)
  end.

Definition avgVolumeOf (d : DB) (ticker : string) : option Z :=
  match volumeAvg20 d ticker with
  | Row c => fst (scanNull 0%Z c)
  | ScanErr _ => None
  end.

Definition signalsOf (d : DB) (ticker : string) : list string :=
  let tech := technicalRowOf d ticker in
  match rsi_14 tech with
  | Some rsi =>
      GetTechnicalSignals rsi (Float64 (sma_50 tech)) (Float64 (sma_200 tech))
        (Float64 (macd tech)) (Float64 (macd_signal tech)) (fst (marketRowOf d ticker))
  | None => []
  end.

Definition creatorsOf (d : DB) (ticker : string) : list string :=
  (map_to_list (sentimentsOf d ticker)).*1.

Definition tickerInputs (d : DB) (ticker : string) : ConfidenceInputs :=
  {| Ticker := ticker;
     CreatorSentiments := sentimentsOf d ticker;
     TechnicalSignals := signalsOf d ticker;
     CurrentVolume := Int64 (snd (marketRowOf d ticker));
     AvgVolume := Int64 (avgVolumeOf d ticker);
     CreatorAccuracyRates :=
       fst (result (FetchCreatorAccuracy d (creatorsOf d ticker))) |}.

(** The four queries every scoring of a ticker starts with. *)
Definition tickerQueries (ticker : string) : list Event :=
  [EvQuery (QCreatorContent ticker);
   EvQuery (QTechnicalIndicators ticker);
   EvQuery (QMarketData ticker);
   EvQuery (QVolumeAvg20 ticker)].

(** The two loop bodies of [FetchCreatorAccuracy]: [rates[name] = accuracy]
    and the default for a creator without history. *)
Definition insertRow (m : gmap string float64) (r : string * float64)
    : gmap string float64 := <[r.1 := r.2]> m.

Definition defaultRate (m : gmap string float64) (creator : string)
    : gmap string float64 :=
  match m !! creator with
  | Some _ => m
  | None => <[creator := 0.5]> m
  end.

(** The recommendation the loop of [GenerateRecommendations] appends for
    a ticker, and the total of the amounts of a list of recommendations. *)
Definition tickerRecommendation (e : Engine) (budget : float64) (regime : MarketRegime)
    (vix : float64) (ticker : string) : Recommendation :=
  let score := CalculateConfidence (tickerInputs (db e) ticker) DefaultWeights in
  let allocation := calculateAllocation e ticker score budget regime in
  {| rTicker := ticker;
     rAction := Action allocation;
     rAmount := Amount allocation;
     rConfidenceScore := Overall score;
     rReasoning := Reasoning allocation;
     rMarketRegime := regime;
     rVIXLevel := vix |}.

Definition totalAmount (recommendations : list Recommendation) : float64 :=
  fold_right (fun rec total => rAmount rec + total) 0 recommendations.

Definition defaultTickers : list string := ["SPY"; "QQQ"; "VOO"; "VTI"]%string.

(** The regime and VIX level [GenerateRecommendations] goes on with: those
    detected, or calm and 0 when the detection failed. *)
Definition regimeInUse (e : Engine) : MarketRegime * float64 :=
  match snd (result (detectMarketRegime e)) with
  | Some _ => (RegimeCalm, 0)
  | None => fst (result (detectMarketRegime e))
  end.

(** The tracked-tickers query fails for another reason than a missing row. *)
Definition configQueryFails (d : DB) : Prop :=
  exists err, trackedTickersConfig d = ScanErr err /\ err <> ErrNoRows.

(** ** Package market: the store

    The statements the store sends are answered by the database; [exec] is
    the answer to an INSERT in a database state, a query answer is a value
    as for the engine. Log lines and the timeouts of the contexts are left
    out. *)

Record MarketData := {
  mdTicker : string;
  mdTimestamp : Z;
  mdOpen : float64;
  mdHigh : float64;
  mdLow : float64;
  mdClose : float64;
  mdVolume : Z
}.

Definition SaveMarketData {St : Type} (exec : St -> MarketData -> option error * St)
    (data : MarketData) (st : St) : option error * St :=
  match exec st data with
  | (Some err, st') => (Some (Errorf "save market data" err), st')
  | (None, st') => (None, st')
  end.

(** One round of the loop of [SaveMultiple]. *)
Definition saveOne {St : Type} (exec : St -> MarketData -> option error * St)
    (acc : nat * list error * St) (entry : string * MarketData)
    : nat * list error * St :=
  let '(saved, errors, st) := acc in
  match SaveMarketData exec entry.2 st with
  | (Some err, st') => (saved, errors ++ [Errorf entry.1 err], st')
  | (None, st') => (S saved, errors, st')
  end.

Definition SaveMultiple {St : Type} (exec : St -> MarketData -> option error * St)
    (dataMap : gmap string MarketData) (st : St) : nat * list error * St :=
  fold_left (saveOne exec) (map_to_list dataMap) (0%nat, [], st).

(** The loop of [GetHistorical] over the rows the query yields: a row that
    does not scan ends it with an error and no result. *)
Fixpoint scanHistorical (rows : list (Scanned MarketData)) (iterErr : option error)
    (results : list MarketData) : list MarketData * option error :=
  match rows with
  | [] =>
      match iterErr with
      | Some err => ([], Some (Errorf "iterate rows" err))
      | None => (results, None)
      end
  | Row data :: rest => scanHistorical rest iterErr (results ++ [data])
  | ScanErr err :: _ => ([], Some (Errorf "scan row" err))
  end.

Definition GetHistorical
    (query : string -> Z -> Scanned (list (Scanned MarketData) * option error))
    (ticker : string) (days : Z) : list MarketData * option error :=
  match query ticker days with
  | ScanErr err => ([], Some (Errorf "query historical data" err))
  | Row (rows, iterErr) => scanHistorical rows iterErr []
  end.

(** [Store.GetTrackedTickers]: the defaults in every case. *)
Definition StoreGetTrackedTickers (config : Scanned string) : list string * option error :=
  let defaultTickers := ["SPY"; "QQQ"; "VOO"; "VTI"]%string in
  match config with
  | ScanErr ErrNoRows => (defaultTickers, None)
  | ScanErr _ => (defaultTickers, None)
  | Row _ => (defaultTickers, None)
  end.

(** ** Package engine: the holdings read for the Claude engine *)

Record PortfolioHolding := {
  hTicker : string;
  Quantity : float64;
  AvgCost : float64;
  CurrentPrice : float64;
  MarketValue : float64;
  GainPercent : float64
}.

(** The columns of a row of the holdings query, in the order scanned. *)
Record HoldingRow := {
  col_ticker : string;
  col_quantity : float64;
  col_avg_cost : float64;
  col_current_price : float64;
  col_market_value : float64
}.

(** One round of the loop of [getPortfolioHoldings]: a row that does not
    scan is skipped. *)
Definition addHoldingRow (holdings : list PortfolioHolding) (row : Scanned HoldingRow)
    : list PortfolioHolding :=
  match row with
  | ScanErr _ => holdings
  | Row r =>
      let gain :=
        if fgtb (col_avg_cost r) 0
        then (col_current_price r - col_avg_cost r) / col_avg_cost r * 100
        else 0 in
      holdings ++
      [{| hTicker := col_ticker r;
          Quantity := col_quantity r;
          AvgCost := col_avg_cost r;
          CurrentPrice := col_current_price r;
          MarketValue := col_market_value r;
          GainPercent := gain |}]
  end.

Definition getPortfolioHoldings (query : Scanned (list (Scanned HoldingRow)))
    : list PortfolioHolding * option error :=
  match query with
  | ScanErr err => ([], Some err)
  | Row rows => (fold_left addHoldingRow rows [], None)
  end.

(** ** Package main: the fallback to the basic engine

    [StoreRecommendation] sends one INSERT into the signals table; [insert]
    is the answer of the database. [generateBasicRecommendations] is given
    with what it stores; its log lines are left out. *)





(** ** Package analysis: parsing the sentiment answer

    [strings.TrimSpace], [json.Valid] and [json.Unmarshal] are library
    functions: they are parameters here. [strings.TrimPrefix] and
    [strings.TrimSuffix] are written out on bytes. *)

Record SentimentResult := {
  srTicker : string;
  srSentiment : string;
  srConfidence : float64;
  srReasoning : string
}.

(** The errors of [parseSentimentResult], with the values they print. *)
Inductive ParseError :=
  | InvalidJSON (excerpt : string)
  | UnmarshalFailed (cause : error)
  | InvalidSentiment (value : string)
  | InvalidConfidence (value : float64).

(** [min] of sentiment.go. *)
Definition minInt (a b : nat) : nat := if (a <? b)%nat then a else b.

Definition TrimPrefix (s prefix : string) : string :=
  if String.prefix prefix s
  then String.substring (String.length prefix)
         (String.length s - String.length prefix) s
  else s.

Definition HasSuffix (s suffix : string) : bool :=
  (String.length suffix <=? String.length s)%nat &&
  String.eqb (String.substring (String.length s - String.length suffix)
                (String.length suffix) s) suffix.

Definition TrimSuffix (s suffix : string) : string :=
  if HasSuffix s suffix
  then String.substring 0 (String.length s - String.length suffix) s
  else s.

Definition validSentiments : gmap string bool :=
  {[ "bullish"%string := true; "bearish"%string := true; "neutral"%string := true ]}.

Definition parseSentimentResult (TrimSpace : string -> string)
    (jsonValid : string -> bool) (jsonUnmarshal : string -> Scanned SentimentResult)
    (responseText ticker : string) : ParseError + SentimentResult :=
  let responseText := TrimSpace responseText in
  let responseText := TrimPrefix responseText "```json" in
  let responseText := TrimPrefix responseText "```" in
  let responseText := TrimSuffix responseText "```" in
  let responseText := TrimSpace responseText in
  if negb (jsonValid responseText) then
    inl (InvalidJSON
           (String.substring 0 (minInt 100 (String.length responseText)) responseText))
  else
    match jsonUnmarshal responseText with
    | ScanErr err => inl (UnmarshalFailed err)
    | Row result =>
        let result :=
          if String.eqb (srTicker result) EmptyString
          then {| srTicker := ticker;
                  srSentiment := srSentiment result;
                  srConfidence := srConfidence result;
                  srReasoning := srReasoning result |}
          else result in
        if negb (default false (validSentiments !! srSentiment result)) then
          inl (InvalidSentiment (srSentiment result))
        else if fltb (srConfidence result) 0 || fgtb (srConfidence result) 1 then
          inl (InvalidConfidence (srConfidence result))
        else inr result
    end.

(** Further concrete inputs and databases. *)
Definition rsiInBand : ConfidenceInputs :=
  {| Ticker := "SPY";
     CreatorSentiments := {[ "creator1"%string := "bullish"%string ]};
     TechnicalSignals := GetTechnicalSignals 45.0 450.0 440.0 2.5 1.5 455.0;
     CurrentVolume := 100000000;
     AvgVolume := 50000000;
     CreatorAccuracyRates := {[ "creator1"%string := 1.0 ]} |}.

Definition noData : ConfidenceInputs :=
  {| Ticker := "SPY";
     CreatorSentiments := ∅;
     TechnicalSignals := [];
     CurrentVolume := 0;
     AvgVolume := 0;
     CreatorAccuracyRates := ∅ |}.

Definition vixQueryBroken : DB :=
  {| vixClose := ScanErr (ErrDB "connection reset");
     spyRSI := Row (Some 80);
     trackedTickersConfig := Row "[]";
     creatorContent := fun _ => Some [];
     technicalIndicators := fun _ => ScanErr ErrNoRows;
     marketData := fun _ => ScanErr ErrNoRows;
     volumeAvg20 := fun _ => ScanErr ErrNoRows;
     creatorAccuracy := fun _ => Row [] |}.

Definition withHistory : DB :=
  {| vixClose := Row (Some 18);
     spyRSI := Row (Some 50);
     trackedTickersConfig := ScanErr ErrNoRows;
     creatorContent := fun _ => Some [("creator1", "bullish"); ("creator2", "bullish")]%string;
     technicalIndicators := fun _ =>
       Row {| col_rsi_14 := Null; col_sma_50 := Value 450; col_sma_200 := Value 440;
              col_macd := Value 2.5; col_macd_signal := Value 1.5 |};
     marketData := fun _ => Row (Value 455, Value 100000000%Z);
     volumeAvg20 := fun _ => Row (Value 50000000%Z);
     creatorAccuracy := fun _ => Row [("creator1"%string, 0.8)] |}.

(** An indicator row without RSI, with the other columns set; no creator
    content and an average volume of zero. *)
Definition rsiMissing : DB :=
  {| vixClose := Row (Some 18);
     spyRSI := Row (Some 50);
     trackedTickersConfig := ScanErr ErrNoRows;
     creatorContent := fun _ => Some [];
     technicalIndicators := fun _ =>
       Row {| col_rsi_14 := Null; col_sma_50 := Value 450; col_sma_200 := Value 440;
              col_macd := Value 2.5; col_macd_signal := Value 1.5 |};
     marketData := fun _ => Row (Value 455, Value 100000000%Z);
     volumeAvg20 := fun _ => Row (Value 0%Z);
     creatorAccuracy := fun _ => Row [] |}.

(** An indicator row whose scan stops at [sma_50], after the RSI was
    read. *)
Definition scanStopsAfterRsi : DB :=
  {| vixClose := ScanErr ErrNoRows;
     spyRSI := ScanErr ErrNoRows;
     trackedTickersConfig := ScanErr ErrNoRows;
     creatorContent := fun _ => Some [];
     technicalIndicators := fun _ =>
       Row {| col_rsi_14 := Value 25; col_sma_50 := Unconvertible; col_sma_200 := Value 440;
              col_macd := Value 2.5; col_macd_signal := Value 1.5 |};
     marketData := fun _ => ScanErr ErrNoRows;
     volumeAvg20 := fun _ => ScanErr ErrNoRows;
     creatorAccuracy := fun _ => Row [] |}.

(** Two creators mention the ticker and the accuracy query fails. *)
Definition accuracyBroken : DB :=
  {| vixClose := Row (Some 18);
     spyRSI := Row (Some 50);
     trackedTickersConfig := ScanErr ErrNoRows;
     creatorContent := fun _ => Some [("creator1", "bullish"); ("creator2", "bearish")]%string;
     technicalIndicators := fun _ => ScanErr ErrNoRows;
     marketData := fun _ => ScanErr ErrNoRows;
     volumeAvg20 := fun _ => ScanErr ErrNoRows;
     creatorAccuracy := fun _ => ScanErr (ErrDB "connection refused") |}.

(** Two creators mention the ticker and neither has any history. *)
Definition accuracyUnknown : DB :=
  {| vixClose := Row (Some 18);
     spyRSI := Row (Some 50);
     trackedTickersConfig := ScanErr ErrNoRows;
     creatorContent := fun _ => Some [("creator1", "bullish"); ("creator2", "bearish")]%string;
     technicalIndicators := fun _ => ScanErr ErrNoRows;
     marketData := fun _ => ScanErr ErrNoRows;
     volumeAvg20 := fun _ => ScanErr ErrNoRows;
     creatorAccuracy := fun _ => Row [] |}.

(** A market_data table that records every INSERT it is sent, in order,
    and answers with the error [rejects] gives, if any. *)
Definition recordInsert (rejects : MarketData -> option error)
    (attempts : list MarketData) (data : MarketData)
    : option error * list MarketData := (rejects data, attempts ++ [data]).

(** The error [SaveMultiple] keeps for an entry the table rejects. *)
Definition saveError (rejects : MarketData -> option error)
    (entry : string * MarketData) : option error :=
  match rejects entry.2 with
  | Some cause => Some (Errorf entry.1 (Errorf "save market data" cause))
  | None => None
  end.

Definition bar (ticker : string) (close : float64) : MarketData :=
  {| mdTicker := ticker; mdTimestamp := 1700000000; mdOpen := close; mdHigh := close;
     mdLow := close; mdClose := close; mdVolume := 1000 |}.

Definition twoBars : gmap string MarketData :=
  <["SPY"%string := bar "SPY" 455]> (<["QQQ"%string := bar "QQQ" 390]> ∅).

(** The table refuses the rows of QQQ. *)
Definition rejectQQQ (data : MarketData) : option error :=
  if String.eqb (mdTicker data) "QQQ" then Some (ErrDB "duplicate key") else None.

(** The rows of a holdings query: the second one does not scan, the third
    has no average cost. *)
Definition threeHoldingRows : list (Scanned HoldingRow) :=
  [ Row {| col_ticker := "SPY"; col_quantity := 2; col_avg_cost := 400;
           col_current_price := 450; col_market_value := 900 |};
    ScanErr (ErrDB "converting NULL to float64 is unsupported");
    Row {| col_ticker := "QQQ"; col_quantity := 1; col_avg_cost := 0;
           col_current_price := 390; col_market_value := 390 |} ].

(** * Properties *)

(** ** Comparisons *)

Lemma fltb_true x y : fltb x y = true <-> x < y.
Proof.
  unfold fltb. rewrite negb_true_iff, <- not_true_iff_false, Qle_bool_iff.
  split; [apply Qnot_le_lt | apply Qlt_not_le].
Qed.

Lemma fltb_false x y : fltb x y = false <-> y <= x.
Proof. unfold fltb. rewrite negb_false_iff. apply Qle_bool_iff. Qed.

Lemma fgtb_true x y : fgtb x y = true <-> y < x.
Proof. apply fltb_true. Qed.

Lemma fgtb_false x y : fgtb x y = false <-> x <= y.
Proof. apply fltb_false. Qed.

Lemma fleb_true x y : fleb x y = true <-> x <= y.
Proof. apply Qle_bool_iff. Qed.

Lemma fleb_false x y : fleb x y = false <-> y < x.
Proof.
  unfold fleb. rewrite <- not_true_iff_false, Qle_bool_iff.
  split; [apply Qnot_le_lt | apply Qlt_not_le].
Qed.

Lemma fgeb_true x y : fgeb x y = true <-> y <= x.
Proof. apply Qle_bool_iff. Qed.

Lemma fgeb_false x y : fgeb x y = false <-> x < y.
Proof. apply fleb_false. Qed.

(** Case analysis on one comparison of the code, keeping the fact it decides. *)
Ltac cmp_case :=
  match goal with
  | |- context [fltb ?x ?y] =>
      let H := fresh "Hcmp" in
      destruct (fltb x y) eqn:H;
      [apply fltb_true in H | apply fltb_false in H]
  | |- context [fgtb ?x ?y] =>
      let H := fresh "Hcmp" in
      destruct (fgtb x y) eqn:H;
      [apply fgtb_true in H | apply fgtb_false in H]
  | |- context [fleb ?x ?y] =>
      let H := fresh "Hcmp" in
      destruct (fleb x y) eqn:H;
      [apply fleb_true in H | apply fleb_false in H]
  | |- context [fgeb ?x ?y] =>
      let H := fresh "Hcmp" in
      destruct (fgeb x y) eqn:H;
      [apply fgeb_true in H | apply fgeb_false in H]
  end.

(** ** The core holdings table *)

Lemma coreHoldings_lookup ticker base :
  coreHoldings !! ticker = Some base ->
  (ticker = "SPY"%string /\ base = 0.40) \/
  (ticker = "QQQ"%string /\ base = 0.30) \/
  (ticker = "VOO"%string /\ base = 0.20) \/
  (ticker = "VTI"%string /\ base = 0.10).
Proof.
  unfold coreHoldings.
  rewrite !lookup_insert_Some, lookup_singleton_Some.
  intuition (subst; auto).
Qed.

Lemma coreHoldings_base ticker base :
  coreHoldings !! ticker = Some base -> 0.10 <= base <= 0.40.
Proof.
  intros H. apply coreHoldings_lookup in H.
  destruct H as [[_ ->]|[[_ ->]|[[_ ->]|[_ ->]]]]; lra.
Qed.

(** The cases of TestCalculateAllocation. *)
Example allocation_tests :
  let alloc t o d r := calculateAllocation (defaultEngine emptyDB) t (scoreOf o d) 1000 r in
  Amount (alloc "SPY" 0.85 "bullish" RegimeCalm) == 400 /\
  Amount (alloc "SPY" 0.45 "bullish" RegimeCalm) == 200 /\
  Amount (alloc "SPY" 0.30 "neutral" RegimeCalm) == 100 /\
  Amount (alloc "QQQ" 0.75 "bullish" RegimeBearish) == 225 /\
  Action (alloc "PLTR" 0.50 "neutral" RegimeCalm) = "wait"%string /\
  Amount (alloc "PLTR" 0.75 "bullish" RegimeCalm) == 100 /\
  Amount (alloc "SPY" 0.85 "bullish" RegimeBullish) == 440.
Proof. vm_compute. repeat split; reflexivity. Qed.

(** ** calculateAllocation *)

Section Allocation.

Variable e : Engine.
Variable score : ConfidenceScore.
Variables (budget : float64) (regime : MarketRegime).

Lemma regime_eqb_eq a b : regime_eqb a b = true <-> a = b.
Proof. destruct a, b; simpl; split; congruence. Qed.

(** C2. A core ticker is one of SPY, QQQ, VOO, VTI with base fraction
    0.40, 0.30, 0.20, 0.10. For a budget that is not negative,
    [calculateAllocation] always answers buy, and the amount is the base
    amount (budget times fraction) under exactly one tier, the first that
    matches: overall below 0.4, a quarter; from 0.4 and below 0.6, a half;
    else in a bearish regime, three quarters; else in a bullish regime with
    overall above 0.8, 1.1 times the base capped at 1.2 times; else the base.
    At the thresholds: 0.40 is the half tier and not the quarter tier, 0.3999
    is the quarter tier; 0.6 is outside the half tier and 0.5999 inside; 0.8
    in a bullish regime is not boosted and 0.8001 is. *)
Theorem core_allocation_tiers (ticker : string) (base : float64) :
  coreHoldings !! ticker = Some base ->
  0 <= budget ->
  let r := calculateAllocation e ticker score budget regime in
  let b := budget * base in
  ((ticker = "SPY"%string /\ base = 0.40) \/ (ticker = "QQQ"%string /\ base = 0.30) \/
   (ticker = "VOO"%string /\ base = 0.20) \/ (ticker = "VTI"%string /\ base = 0.10)) /\
  Action r = "buy"%string /\
  (Overall score < 0.4 -> Amount r == b * 0.25) /\
  (0.4 <= Overall score -> Overall score < 0.6 -> Amount r == b * 0.5) /\
  (0.6 <= Overall score -> regime = RegimeBearish -> Amount r == b * 0.75) /\
  (0.6 <= Overall score -> regime = RegimeBullish -> 0.8 < Overall score ->
     Amount r == Qmin (b * 1.1) (b * 1.2) /\ Amount r == b * 1.1) /\
  (0.6 <= Overall score -> regime <> RegimeBearish ->
     (regime = RegimeBullish -> Overall score <= 0.8) -> Amount r == b) /\
  (Overall score == 0.4 ->
     Amount r == b * 0.5 /\ (0 < budget -> ~ Amount r == b * 0.25)) /\
  (Overall score == 0.3999 -> Amount r == b * 0.25) /\
  (Overall score == 0.6 ->
     (regime = RegimeBearish -> Amount r == b * 0.75) /\
     (regime <> RegimeBearish -> Amount r == b) /\
     (0 < budget -> ~ Amount r == b * 0.5)) /\
  (Overall score == 0.5999 -> Amount r == b * 0.5) /\
  (Overall score == 0.8 -> regime = RegimeBullish -> Amount r == b) /\
  (Overall score == 0.8001 -> regime = RegimeBullish -> Amount r == b * 1.1).
Proof.
  intros Hcore Hbudget r b.
  pose proof (coreHoldings_lookup _ _ Hcore) as Htable.
  pose proof (coreHoldings_base _ _ Hcore) as Hbase.
  assert (Hb : 0 <= b) by (unfold b; nra).
  assert (Hb' : 0 < budget -> 0 < b) by (unfold b; intros; nra).
  split; [exact Htable|].
  subst r. unfold calculateAllocation. rewrite Hcore. fold b.
  clearbody b. clear Htable Hcore Hbase.
  assert (Hmin : Qmin (b * 1.1) (b * 1.2) == b * 1.1) by (apply Q.min_l; lra).
  rewrite Hmin.
  destruct regime; simpl; repeat cmp_case; simpl;
    (split; [reflexivity|]);
    repeat split; intros; try discriminate; try congruence; try lra;
    try (intros Heq; specialize (Hb' ltac:(assumption)); lra);
    try (match goal with H : _ = _ -> _ <= _ |- _ => specialize (H eq_refl) end; lra).
Qed.

(** C3. A ticker outside the core holdings table waits with amount 0 when
    the overall score is below 0.6, and buys budget times 0.10 when it is
    0.6 or more, whatever the regime and however far above 0.6. *)
Theorem satellite_allocation (ticker : string) :
  coreHoldings !! ticker = None ->
  0 <= budget ->
  let r := calculateAllocation e ticker score budget regime in
  (Overall score < 0.6 -> Action r = "wait"%string /\ Amount r == 0) /\
  (0.6 <= Overall score -> Action r = "buy"%string /\ Amount r == budget * 0.10) /\
  (forall regime', calculateAllocation e ticker score budget regime' = r) /\
  (forall score', 0.6 <= Overall score -> 0.6 <= Overall score' ->
     Action (calculateAllocation e ticker score' budget regime) = Action r /\
     Amount (calculateAllocation e ticker score' budget regime) == Amount r).
Proof.
  intros Hsat _ r. subst r. unfold calculateAllocation. rewrite Hsat.
  repeat split; intros; repeat cmp_case; simpl; try reflexivity; lra.
Qed.

(** C8. For a budget that is not negative the amount lies between 0 and
    the budget, and an allocation that waits has amount 0. *)
Theorem allocation_amount_bounds (ticker : string) :
  0 <= budget ->
  let r := calculateAllocation e ticker score budget regime in
  0 <= Amount r /\ Amount r <= budget /\
  (Action r = "wait"%string -> Amount r == 0).
Proof.
  intros Hbudget r. subst r. unfold calculateAllocation.
  destruct (coreHoldings !! ticker) as [base|] eqn:Hcore.
  - pose proof (coreHoldings_base _ _ Hcore) as Hbase.
    assert (Hb : 0 <= budget * base) by nra.
    assert (Hb' : budget * base <= budget * 0.4) by nra.
    destruct (regime_eqb regime RegimeBearish),
      (regime_eqb regime RegimeBullish); simpl;
      repeat cmp_case; simpl; repeat split; intros; try discriminate; lra.
  - repeat cmp_case; simpl; repeat split; intros; try discriminate; lra.
Qed.

(** The action of an allocation is buy or wait. *)
Lemma allocation_action (ticker : string) :
  let r := calculateAllocation e ticker score budget regime in
  Action r = "buy"%string \/ Action r = "wait"%string.
Proof.
  cbv zeta. unfold calculateAllocation.
  destruct (coreHoldings !! ticker);
    repeat match goal with
           | |- context [if ?c then _ else _] => destruct c
           end; simpl; auto.
Qed.

End Allocation.

Lemma core_allocation_tiers_witness :
  coreHoldings !! "SPY"%string = Some 0.40 /\ 0 <= 1000 /\
  Amount (calculateAllocation (defaultEngine emptyDB) "SPY"
            (scoreOf 0.85 "bullish") 1000 RegimeBullish) == 440.
Proof.
  split; [reflexivity|]. split; [lra|].
  destruct (core_allocation_tiers (defaultEngine emptyDB) (scoreOf 0.85 "bullish")
              1000 RegimeBullish "SPY" 0.40 eq_refl ltac:(lra))
    as (_ & _ & _ & _ & _ & Hboost & _).
  specialize (Hboost ltac:(simpl; lra) eq_refl ltac:(simpl; lra)).
  destruct Hboost as [_ Hamount]. rewrite Hamount. reflexivity.
Defined.

Lemma satellite_allocation_witness :
  coreHoldings !! "PLTR"%string = None /\ 0 <= 1000 /\
  Action (calculateAllocation (defaultEngine emptyDB) "PLTR"
            (scoreOf 0.50 "neutral") 1000 RegimeCalm) = "wait"%string.
Proof.
  split; [reflexivity|]. split; [lra|].
  destruct (satellite_allocation (defaultEngine emptyDB) (scoreOf 0.50 "neutral")
              1000 RegimeCalm "PLTR" eq_refl ltac:(lra)) as (Hwait & _).
  apply Hwait. simpl. lra.
Defined.

Lemma allocation_amount_bounds_witness :
  0 <= 1000 /\
  Amount (calculateAllocation (defaultEngine emptyDB) "QQQ"
            (scoreOf 0.75 "bullish") 1000 RegimeBearish) <= 1000.
Proof.
  split; [lra|].
  apply (allocation_amount_bounds (defaultEngine emptyDB) (scoreOf 0.75 "bullish")
           1000 RegimeBearish "QQQ"). lra.
Defined.

(** ** CalculateConfidence *)

(** The first two cases' shape in TestCalculateConfidence: all bullish. *)
Example calc_all_bullish :
  let s := CalculateConfidence
    {| Ticker := "SPY";
       CreatorSentiments := {[ "creator1"%string := "bullish"%string;
                               "creator2"%string := "bullish"%string ]};
       TechnicalSignals := ["bullish"%string; "bullish"%string];
       CurrentVolume := 100000000; AvgVolume := 50000000;
       CreatorAccuracyRates := {[ "creator1"%string := 0.8; "creator2"%string := 0.7 ]} |}
    DefaultWeights in
  Direction s = "bullish"%string /\ Overall s == 0.95.
Proof. vm_compute. split; reflexivity. Qed.

Section Counting.

Lemma countStep_fold labels : forall acc,
  fold_left countStep labels acc =
  (fst acc + length (filter (fun s => s = "bullish"%string) labels),
   snd acc + length (filter (fun s => s = "bearish"%string) labels))%nat.
Proof.
  induction labels as [|s labels IH]; intros [bull bear]; simpl.
  - f_equal; lia.
  - rewrite IH. unfold countStep. simpl.
    rewrite !filter_cons.
    destruct (String.eqb_spec s "bullish") as [->|Hbull].
    + rewrite decide_True by reflexivity.
      rewrite decide_False by discriminate. simpl. f_equal; lia.
    + rewrite (decide_False (P := s = "bullish"%string)) by assumption.
      destruct (String.eqb_spec s "bearish") as [->|Hbear].
      * rewrite decide_True by reflexivity. simpl. f_equal; lia.
      * rewrite decide_False by assumption. simpl. reflexivity.
Qed.

Lemma countLabels_filter labels :
  countLabels labels =
  (length (filter (fun s => s = "bullish"%string) labels),
   length (filter (fun s => s = "bearish"%string) labels)).
Proof. unfold countLabels. rewrite countStep_fold. reflexivity. Qed.

(** The two counters never exceed the number of labels, together. *)
Lemma countLabels_le labels :
  (fst (countLabels labels) + snd (countLabels labels) <= length labels)%nat.
Proof.
  rewrite countLabels_filter. simpl.
  induction labels as [|s labels IH]; simpl; [lia|].
  rewrite !filter_cons.
  destruct (decide (s = "bullish"%string)) as [->|?].
  - rewrite decide_False by discriminate. simpl. lia.
  - destruct (decide (s = "bearish"%string)); simpl; lia.
Qed.

Lemma countLabels_creators (sentiments : gmap string string) :
  countLabels (map_to_list sentiments).*2 =
  (creatorsWith "bullish" sentiments, creatorsWith "bearish" sentiments).
Proof. apply countLabels_filter. Qed.

End Counting.

Section Ratios.

Lemma ofInt_nonneg n : 0 <= ofInt n.
Proof.
  unfold ofInt. change 0 with (inject_Z 0). rewrite <- Zle_Qle. lia.
Qed.

Lemma ofInt_pos n : (0 < n)%nat -> 0 < ofInt n.
Proof.
  intros H. unfold ofInt. change 0 with (inject_Z 0). rewrite <- Zlt_Qlt. lia.
Qed.

Lemma ofInt_le m n : (m <= n)%nat -> ofInt m <= ofInt n.
Proof. intros H. unfold ofInt. rewrite <- Zle_Qle. lia. Qed.

(** A quotient of a part by the whole lies in [0,1]. *)
Lemma ratio_unit (p t : float64) : 0 <= p -> p <= t -> 0 < t -> 0 <= p / t <= 1.
Proof.
  intros Hp Hpt Ht. split.
  - apply Qle_shift_div_l; lra.
  - apply Qle_shift_div_r; lra.
Qed.

Lemma count_ratio_unit m n : (m <= n)%nat -> (0 < n)%nat -> 0 <= ofInt m / ofInt n <= 1.
Proof.
  intros Hle Hpos. apply ratio_unit;
    [apply ofInt_nonneg | apply ofInt_le; assumption | apply ofInt_pos; assumption].
Qed.

(** The sum loop over ratios in [0,1] stays between the start value and
    the start value plus the number of terms. *)
Lemma sum_unit_bounds (rates : list float64) : forall acc,
  Forall (fun r => 0 <= r <= 1) rates ->
  acc <= fold_left Qplus rates acc <= acc + ofInt (length rates).
Proof.
  induction rates as [|r rates IH]; intros acc Hall; simpl.
  - change (ofInt 0) with 0. lra.
  - inversion Hall as [|? ? Hr Hrest]; subst.
    specialize (IH (acc + r) Hrest).
    assert (Hlen : ofInt (S (length rates)) == ofInt (length rates) + 1).
    { unfold ofInt. rewrite Nat2Z.inj_succ, <- Z.add_1_r, inject_Z_plus. reflexivity. }
    rewrite Hlen. lra.
Qed.

End Ratios.

Section Components.

Lemma creatorConsensus_unit (sentiments : gmap string string) :
  0 <= fst (creatorConsensus sentiments) <= 1.
Proof.
  unfold creatorConsensus.
  pose proof (countLabels_le (map_to_list sentiments).*2) as Hle.
  rewrite length_fmap, length_map_to_list in Hle.
  destruct (countLabels _) as [bull bear]. simpl in Hle.
  destruct (Nat.ltb_spec 0 (size sentiments)); [|simpl; lra].
  destruct (Nat.ltb_spec bear bull); [simpl; apply count_ratio_unit; lia|].
  destruct (Nat.ltb_spec bull bear); [simpl; apply count_ratio_unit; lia|].
  simpl. lra.
Qed.

Lemma technicalAlignment_unit direction signals :
  0 <= technicalAlignment direction signals <= 1.
Proof.
  unfold technicalAlignment.
  pose proof (countLabels_le signals) as Hle.
  destruct (countLabels _) as [bull bear]. simpl in Hle.
  destruct (Nat.ltb_spec 0 (length signals)); [|lra].
  repeat match goal with
         | |- context [if ?c then _ else _] => destruct c
         end; apply count_ratio_unit; lia.
Qed.

Lemma volumeConfirmation_unit currentVolume avgVolume :
  0 <= volumeConfirmation currentVolume avgVolume <= 1.
Proof.
  unfold volumeConfirmation.
  destruct (0 <? avgVolume)%Z; [|lra].
  cbv zeta. repeat cmp_case; try lra.
  apply ratio_unit; lra.
Qed.

Lemma historicalAccuracy_unit (rates : gmap string float64) :
  map_Forall (fun _ r => 0 <= r <= 1) rates ->
  0 <= historicalAccuracy rates <= 1.
Proof.
  intros Hall. unfold historicalAccuracy.
  destruct (Nat.ltb_spec 0 (size rates)) as [Hpos|_]; [|lra].
  assert (Hvals : Forall (fun r => 0 <= r <= 1) (map_to_list rates).*2).
  { apply map_Forall_to_list in Hall. apply Forall_fmap.
    eapply Forall_impl; [exact Hall|]. intros [k r] Hr. exact Hr. }
  pose proof (sum_unit_bounds _ 0.0 Hvals) as Hsum.
  rewrite length_fmap, length_map_to_list in Hsum.
  apply ratio_unit; [lra | lra | apply ofInt_pos; assumption].
Qed.

(** The score, field by field, in terms of the four steps. *)
Lemma CalculateConfidence_fields inputs weights :
  let s := CalculateConfidence inputs weights in
  CreatorConsensus s = fst (creatorConsensus (CreatorSentiments inputs)) /\
  Direction s = snd (creatorConsensus (CreatorSentiments inputs)) /\
  TechnicalAlignment s = technicalAlignment (Direction s) (TechnicalSignals inputs) /\
  VolumeConfirmation s = volumeConfirmation (CurrentVolume inputs) (AvgVolume inputs) /\
  HistoricalAccuracy s = historicalAccuracy (CreatorAccuracyRates inputs) /\
  Overall s =
    (CreatorConsensus s * wCreatorConsensus weights) +
    (TechnicalAlignment s * wTechnicalAlignment weights) +
    (VolumeConfirmation s * wVolumeConfirmation weights) +
    (HistoricalAccuracy s * wHistoricalAccuracy weights).
Proof.
  cbv zeta. unfold CalculateConfidence.
  destruct (creatorConsensus _) as [consensus direction]. simpl.
  repeat split; reflexivity.
Qed.

End Components.

(** C1, as amended. For inputs with accuracy ratios in [0,1] and weights
    that are not negative, each of the four components lies in [0,1], the
    overall score is exactly the weighted sum of the components (nothing is
    clamped), and it lies between 0 and the sum of the weights: at most 1.01
    for weights within the tolerance, and at most 1 when the weights sum to
    at most 1. *)
Theorem confidence_score_bounds (inputs : ConfidenceInputs) (weights : ConfidenceWeights) :
  validInputs inputs ->
  normalizedWeights weights ->
  let s := CalculateConfidence inputs weights in
  (0 <= CreatorConsensus s <= 1) /\
  (0 <= TechnicalAlignment s <= 1) /\
  (0 <= VolumeConfirmation s <= 1) /\
  (0 <= HistoricalAccuracy s <= 1) /\
  Overall s ==
    CreatorConsensus s * wCreatorConsensus weights +
    TechnicalAlignment s * wTechnicalAlignment weights +
    VolumeConfirmation s * wVolumeConfirmation weights +
    HistoricalAccuracy s * wHistoricalAccuracy weights /\
  0 <= Overall s <= weightSum weights /\
  Overall s <= 1.01 /\
  (weightSum weights <= 1 -> Overall s <= 1).
Proof.
  intros (Hrates & _ & _) (Hw1 & Hw2 & Hw3 & Hw4 & Hsum) s.
  destruct (CalculateConfidence_fields inputs weights)
    as (Hc & _ & Ht & Hv & Hh & Ho). fold s in Hc, Ht, Hv, Hh, Ho.
  assert (Hc' : 0 <= CreatorConsensus s <= 1)
    by (rewrite Hc; apply creatorConsensus_unit).
  assert (Ht' : 0 <= TechnicalAlignment s <= 1)
    by (rewrite Ht; apply technicalAlignment_unit).
  assert (Hv' : 0 <= VolumeConfirmation s <= 1)
    by (rewrite Hv; apply volumeConfirmation_unit).
  assert (Hh' : 0 <= HistoricalAccuracy s <= 1)
    by (rewrite Hh; apply historicalAccuracy_unit; assumption).
  rewrite Ho. unfold weightSum in *.
  repeat split; try tauto; try reflexivity; try nra; intros; nra.
Qed.

Lemma fullAgreement_valid : validInputs fullAgreement.
Proof.
  split; [|split; discriminate].
  apply map_Forall_singleton. lra.
Defined.

Lemma heavyWeights_normalized : normalizedWeights heavyWeights.
Proof. unfold normalizedWeights, weightSum. simpl. lra. Defined.

Lemma DefaultWeights_normalized : normalizedWeights DefaultWeights.
Proof. unfold normalizedWeights, weightSum. simpl. lra. Defined.

Lemma fullAgreement_heavy_overall :
  Overall (CalculateConfidence fullAgreement heavyWeights) == 1.005.
Proof. vm_compute. reflexivity. Qed.

(** C1 as stated fails: with weights inside the tolerance that sum to
    1.005 and every component at 1, the overall score is 1.005. *)
Lemma confidence_overall_can_exceed_one :
  ~ (forall inputs weights,
       validInputs inputs -> normalizedWeights weights ->
       0 <= Overall (CalculateConfidence inputs weights) <= 1).
Proof.
  intros Hclaim.
  destruct (Hclaim fullAgreement heavyWeights
              fullAgreement_valid heavyWeights_normalized) as [_ Hle].
  rewrite fullAgreement_heavy_overall in Hle. lra.
Qed.

Lemma confidence_score_bounds_witness :
  validInputs fullAgreement /\ normalizedWeights DefaultWeights /\
  Overall (CalculateConfidence fullAgreement DefaultWeights) <= 1.
Proof.
  split; [exact fullAgreement_valid|].
  split; [exact DefaultWeights_normalized|].
  apply (confidence_score_bounds fullAgreement DefaultWeights
           fullAgreement_valid DefaultWeights_normalized).
  unfold weightSum. simpl. lra.
Defined.

(** C6. With at least one creator sentiment and as many bullish as bearish
    creators (none of either included), the direction is neutral and the
    creator consensus is 0.5. *)
Theorem consensus_tie_neutral (inputs : ConfidenceInputs) (weights : ConfidenceWeights) :
  (0 < size (CreatorSentiments inputs))%nat ->
  creatorsWith "bullish" (CreatorSentiments inputs) =
    creatorsWith "bearish" (CreatorSentiments inputs) ->
  let s := CalculateConfidence inputs weights in
  Direction s = "neutral"%string /\ CreatorConsensus s == 0.5.
Proof.
  intros Hsome Htie s.
  destruct (CalculateConfidence_fields inputs weights) as (Hc & Hd & _).
  fold s in Hc, Hd. rewrite Hc, Hd. clear Hc Hd s.
  unfold creatorConsensus. rewrite countLabels_creators, Htie.
  apply Nat.ltb_lt in Hsome. rewrite Hsome, Nat.ltb_irrefl.
  simpl. split; reflexivity.
Qed.

Lemma consensus_tie_neutral_witness :
  (0 < size (CreatorSentiments splitVote))%nat /\
  creatorsWith "bullish" (CreatorSentiments splitVote) =
    creatorsWith "bearish" (CreatorSentiments splitVote) /\
  Direction (CalculateConfidence splitVote DefaultWeights) = "neutral"%string.
Proof.
  split; [vm_compute; lia|]. split; [vm_compute; reflexivity|].
  apply (consensus_tie_neutral splitVote DefaultWeights);
    [vm_compute; lia | vm_compute; reflexivity].
Defined.

(** The guard of step 3 is [AvgVolume > 0]: a negative average volume
    also leaves the default. *)
Lemma volumeConfirmation_negative_avg currentVolume avgVolume :
  (avgVolume < 0)%Z -> volumeConfirmation currentVolume avgVolume = 0.5.
Proof.
  intros H. unfold volumeConfirmation.
  destruct (Z.ltb_spec 0 avgVolume); [lia | reflexivity].
Qed.

(** C7 as stated fails: it gives 0.5 to a zero average volume only and the
    ratio map to every other one. With current volume -200 and average
    volume -100 the ratio is 2.0, for which the map gives 1.0; the guard
    [AvgVolume > 0] leaves the default 0.5. *)
Lemma volume_map_fails_below_zero :
  ~ (forall inputs weights,
       let v := VolumeConfirmation (CalculateConfidence inputs weights) in
       let ratio := inject_Z (CurrentVolume inputs) / inject_Z (AvgVolume inputs) in
       (AvgVolume inputs = 0%Z -> v == 0.5) /\
       (AvgVolume inputs <> 0%Z ->
          (2.0 <= ratio -> v == 1.0) /\
          (ratio <= 0.5 -> v == 0.0) /\
          (0.5 < ratio -> ratio < 2.0 -> v == (ratio - 0.5) / 1.5))).
Proof.
  intros Hclaim.
  destruct (Hclaim negativeVolumes DefaultWeights) as [_ Hmap].
  destruct (Hmap ltac:(discriminate)) as (Hhigh & _).
  assert (Hv : VolumeConfirmation (CalculateConfidence negativeVolumes DefaultWeights)
               == 0.5) by (vm_compute; reflexivity).
  rewrite Hv in Hhigh.
  assert (Hratio : 2.0 <= inject_Z (CurrentVolume negativeVolumes) /
                          inject_Z (AvgVolume negativeVolumes))
    by (vm_compute; discriminate).
  specialize (Hhigh Hratio). lra.
Qed.

(** C7. The volume confirmation is 0.5 whenever the average volume is zero
    or negative. For a positive average volume, with ratio = current /
    average (the quotient of the two integers), it is 1.0 when ratio >= 2.0,
    0.0 when ratio <= 0.5 and (ratio - 0.5) / 1.5 in between. On the
    volumes themselves: current = average gives exactly 1/3, current at
    least twice the average gives 1.0, current at most half the average
    gives 0.0, and strictly in between the value is
    (2 * current - average) / (3 * average). *)
Theorem volume_confirmation_map (inputs : ConfidenceInputs) (weights : ConfidenceWeights) :
  let v := VolumeConfirmation (CalculateConfidence inputs weights) in
  let cur := CurrentVolume inputs in
  let avg := AvgVolume inputs in
  let ratio := inject_Z cur / inject_Z avg in
  ((avg <= 0)%Z -> v == 0.5) /\
  ((0 < avg)%Z ->
     (2.0 <= ratio -> v == 1.0) /\
     (ratio <= 0.5 -> v == 0.0) /\
     (0.5 < ratio -> ratio < 2.0 -> v == (ratio - 0.5) / 1.5) /\
     (cur = avg -> ratio == 1.0 /\ v == 1 / 3) /\
     (cur = (2 * avg)%Z -> ratio == 2.0 /\ v == 1.0) /\
     ((2 * cur)%Z = avg -> ratio == 0.5 /\ v == 0.0) /\
     ((2 * avg <= cur)%Z -> v == 1.0) /\
     ((2 * cur <= avg)%Z -> v == 0.0) /\
     ((avg < 2 * cur)%Z -> (cur < 2 * avg)%Z ->
        v == (2 * inject_Z cur - inject_Z avg) / (3 * inject_Z avg))).
Proof.
  intros v cur avg ratio.
  destruct (CalculateConfidence_fields inputs weights) as (_ & _ & _ & Hv & _).
  subst v. rewrite Hv. fold cur avg. unfold volumeConfirmation, ofInt64. fold ratio.
  split.
  - intros Hle. destruct (Z.ltb_spec 0 avg); [lia | reflexivity].
  - intros Hpos.
    assert (Hb : 0 < inject_Z avg) by (change 0 with (inject_Z 0); rewrite <- Zlt_Qlt; exact Hpos).
    assert (Hr : ratio * inject_Z avg == inject_Z cur).
    { unfold ratio. field. apply Qnot_eq_sym, Qlt_not_eq, Hb. }
    assert (Hge : (2 * avg <= cur)%Z -> 2.0 <= ratio).
    { intros H. rewrite Zle_Qle, inject_Z_mult in H.
      change (inject_Z 2) with 2 in H.
      unfold ratio. apply Qle_shift_div_l; [exact Hb | lra]. }
    assert (Hle : (2 * cur <= avg)%Z -> ratio <= 0.5).
    { intros H. rewrite Zle_Qle, inject_Z_mult in H.
      change (inject_Z 2) with 2 in H.
      unfold ratio. apply Qle_shift_div_r; [exact Hb | lra]. }
    assert (Hgt : (avg < 2 * cur)%Z -> 0.5 < ratio).
    { intros H. rewrite Zlt_Qlt, inject_Z_mult in H.
      change (inject_Z 2) with 2 in H.
      unfold ratio. apply Qlt_shift_div_l; [exact Hb | lra]. }
    assert (Hlt : (cur < 2 * avg)%Z -> ratio < 2.0).
    { intros H. rewrite Zlt_Qlt, inject_Z_mult in H.
      change (inject_Z 2) with 2 in H.
      unfold ratio. apply Qlt_shift_div_r; [exact Hb | lra]. }
    assert (Hmid : (ratio - 0.5) / 1.5 ==
                   (2 * inject_Z cur - inject_Z avg) / (3 * inject_Z avg)).
    { unfold ratio. field. apply Qnot_eq_sym, Qlt_not_eq, Hb. }
    assert (Hone : cur = avg -> ratio == 1.0).
    { intros Heq. unfold ratio. rewrite Heq.
      transitivity 1; [|reflexivity]. apply Qmult_inv_r.
      apply Qnot_eq_sym, Qlt_not_eq, Hb. }
    assert (Htwo : cur = (2 * avg)%Z -> ratio == 2.0).
    { intros Heq. apply Qle_antisym; [|apply Hge; lia].
      assert (E : inject_Z cur == 2 * inject_Z avg).
      { rewrite Heq, inject_Z_mult. reflexivity. }
      apply Qle_shift_div_r; [exact Hb | lra]. }
    assert (Hhalf : (2 * cur)%Z = avg -> ratio == 0.5).
    { intros Heq. apply Qle_antisym; [apply Hle; lia|].
      assert (E : inject_Z avg == 2 * inject_Z cur).
      { rewrite <- Heq, inject_Z_mult. reflexivity. }
      apply Qle_shift_div_l; [exact Hb | lra]. }
    apply Z.ltb_lt in Hpos. rewrite Hpos.
    rewrite <- Hmid.
    clearbody ratio.
    repeat split; intros;
      try (apply Hone; assumption); try (apply Htwo; assumption);
      try (apply Hhalf; assumption);
      repeat match goal with
      | H : cur = avg |- _ => apply Hone in H
      | H : cur = (2 * avg)%Z |- _ => apply Htwo in H
      | H : (2 * cur)%Z = avg |- _ => apply Hhalf in H
      | H : (2 * avg <= cur)%Z |- _ => apply Hge in H
      | H : (2 * cur <= avg)%Z |- _ => apply Hle in H
      | H : (avg < 2 * cur)%Z |- _ => apply Hgt in H
      | H : (cur < 2 * avg)%Z |- _ => apply Hlt in H
      end;
      repeat cmp_case; try lra;
      match goal with
      | Heq : ratio == _ |- _ => rewrite Heq; reflexivity
      end.
Qed.

Lemma volume_confirmation_map_witness :
  (0 < AvgVolume sameVolume)%Z /\
  CurrentVolume sameVolume = AvgVolume sameVolume /\
  VolumeConfirmation (CalculateConfidence sameVolume DefaultWeights) == 1 / 3 /\
  (AvgVolume negativeVolumes <= 0)%Z /\
  VolumeConfirmation (CalculateConfidence negativeVolumes DefaultWeights) == 0.5.
Proof.
  split; [reflexivity|]. split; [reflexivity|]. split.
  - destruct (volume_confirmation_map sameVolume DefaultWeights) as [_ Hmap].
    destruct (Hmap ltac:(reflexivity)) as (_ & _ & _ & Hsame & _).
    apply Hsame. reflexivity.
  - split; [discriminate|].
    destruct (volume_confirmation_map negativeVolumes DefaultWeights) as [Hdefault _].
    apply Hdefault. discriminate.
Defined.

(** The empty inputs of TestCalculateConfidence: only the two 0.5 defaults
    contribute. *)
Example calc_empty_inputs :
  let s := CalculateConfidence
    {| Ticker := "SPY"; CreatorSentiments := ∅; TechnicalSignals := [];
       CurrentVolume := 0; AvgVolume := 0; CreatorAccuracyRates := ∅ |}
    DefaultWeights in
  Direction s = "neutral"%string /\ Overall s == 0.2.
Proof. vm_compute. split; reflexivity. Qed.

(** The cases of TestGetTechnicalSignals. *)
Example technical_signals_tests :
  GetTechnicalSignals 45.0 450.0 440.0 2.5 1.5 455.0 =
    ["neutral"; "bullish"; "bullish"; "bullish"]%string /\
  GetTechnicalSignals 25.0 0 0 0 0 0 = ["bullish"%string] /\
  GetTechnicalSignals 75.0 0 0 0 0 0 = ["bearish"%string].
Proof. vm_compute. repeat split; reflexivity. Qed.

(** ** NewEngine *)

(** C9 as stated fails: [NewEngine] has no error result and checks
    nothing, so an engine with a negative VIX threshold exists. *)
Lemma new_engine_accepts_negative_threshold :
  ~ (forall (d : DB) (cfg : Config),
       let e := NewEngine d cfg in
       0 <= vixHighThreshold e /\ 0 <= rsiOverbought e /\ 0 <= rsiOversold e).
Proof.
  intros Hclaim.
  destruct (Hclaim emptyDB
              {| VIXHighThreshold := -1; RSIOverbought := 70.0; RSIOversold := 30.0 |})
    as [Hvix _].
  simpl in Hvix. lra.
Qed.

(** Every score of the engine is computed with the default weights. *)
Lemma getTickerConfidenceScore_default_weights e ticker tr :
  exists inputs,
    fst (getTickerConfidenceScore e ticker tr) =
      (CalculateConfidence inputs DefaultWeights, None) /\
    Ticker inputs = ticker.
Proof.
  unfold getTickerConfidenceScore, bind, emit, ret.
  destruct (marketData (db e) ticker) as [cols|err];
    [destruct (scanMarket cols) as [price volume]|];
    destruct (FetchCreatorAccuracy _ _ _) as [[rates err'] tr'];
    simpl; eexists; split; reflexivity.
Qed.

(** C9, as amended. Engine construction never fails and validates
    nothing: for every configuration, negative thresholds included,
    [NewEngine] returns an engine that carries exactly the configured
    thresholds. The configuration has no confidence weights: every score is
    computed with the default weights, which are not negative and sum to
    1.0; the default thresholds are 25, 70 and 30. *)
Theorem new_engine_carries_config (d : DB) (cfg : Config) :
  let e := NewEngine d cfg in
  db e = d /\
  vixHighThreshold e = VIXHighThreshold cfg /\
  rsiOverbought e = RSIOverbought cfg /\
  rsiOversold e = RSIOversold cfg /\
  (forall ticker tr, exists inputs,
     fst (getTickerConfidenceScore e ticker tr) =
       (CalculateConfidence inputs DefaultWeights, None)) /\
  normalizedWeights DefaultWeights /\ weightSum DefaultWeights == 1 /\
  VIXHighThreshold DefaultConfig == 25 /\
  RSIOverbought DefaultConfig == 70 /\
  RSIOversold DefaultConfig == 30.
Proof.
  cbv zeta. repeat split; try reflexivity; try (simpl; lra).
  - intros ticker tr.
    destruct (getTickerConfidenceScore_default_weights (NewEngine d cfg) ticker tr)
      as (inputs & Hscore & _).
    exists inputs. exact Hscore.
  - unfold weightSum. simpl. lra.
  - unfold weightSum. simpl. lra.
Qed.

(** ** detectMarketRegime *)

Section Regime.

Variable e : Engine.

(** The answer does not depend on the trace, and the events are appended. *)
Lemma detectMarketRegime_trace tr :
  detectMarketRegime e tr =
  (result (detectMarketRegime e), tr ++ events (detectMarketRegime e)).
Proof.
  unfold result, events, detectMarketRegime, bind, emit, ret.
  destruct (vixClose (db e)) as [[v|]|[]]; simpl;
    repeat match goal with
           | |- context [if ?c then _ else _] => destruct c; simpl
           | |- context [match spyRSI ?d with _ => _ end] =>
               destruct (spyRSI d) as [[r|]|]; simpl
           end;
    rewrite <- ?app_assoc; reflexivity.
Qed.

(** C5 as stated fails: with no VIX row and an SPY RSI of 80 the default
    engine detects a bearish regime, not a calm one. *)
Lemma vix_missing_not_always_calm :
  ~ (forall e', vixMissing (db e') ->
       fst (fst (result (detectMarketRegime e'))) = RegimeCalm).
Proof.
  intros Hclaim.
  specialize (Hclaim (defaultEngine overboughtNoVix) (or_introl eq_refl)).
  vm_compute in Hclaim. discriminate.
Qed.

(** C5, as amended. A missing VIX gives the level 0 and no error, and the
    decision goes on with that level; from there the first match wins:
    level above the high threshold, volatile whatever the RSI; else SPY
    RSI above the overbought threshold, bearish; else SPY RSI below the
    oversold threshold, bullish; otherwise, and when the RSI is missing,
    calm. So with a missing VIX and a threshold that is not negative the
    regime is never volatile, and it is calm only if the RSI rules do not
    match. *)
Theorem regime_decision_order (level : float64) :
  (vixMissing (db e) /\ level == 0) \/ vixClose (db e) = Row (Some level) ->
  let out := result (detectMarketRegime e) in
  let regime := fst (fst out) in
  snd out = None /\
  snd (fst out) == level /\
  (vixHighThreshold e < level -> regime = RegimeVolatile) /\
  (level <= vixHighThreshold e ->
     (forall rsi, spyRSI (db e) = Row (Some rsi) ->
        (rsiOverbought e < rsi -> regime = RegimeBearish) /\
        (rsi <= rsiOverbought e -> rsi < rsiOversold e -> regime = RegimeBullish) /\
        (rsi <= rsiOverbought e -> rsiOversold e <= rsi -> regime = RegimeCalm)) /\
     ((forall rsi, spyRSI (db e) <> Row (Some rsi)) -> regime = RegimeCalm)) /\
  (vixMissing (db e) -> 0 <= vixHighThreshold e -> regime <> RegimeVolatile).
Proof.
  intros Hvix out regime. subst regime out.
  unfold result, detectMarketRegime, bind, emit, ret.
  assert (Hshape : exists vix err,
             (match vixClose (db e) with
              | Row v => (v, None)
              | ScanErr err => (None, Some err)
              end) = (vix, err) /\
             match err with None | Some ErrNoRows => True | Some _ => False end /\
             match vix with Some v => v | None => 0.0 end == level /\
             (vixMissing (db e) -> level == 0)).
  { destruct Hvix as [[[Hrow|Hrow] Hzero]|Hrow]; rewrite Hrow;
      do 2 eexists; (split; [reflexivity|]); simpl; repeat split; auto;
      try (rewrite Hzero; reflexivity); try reflexivity.
    unfold vixMissing. rewrite Hrow. intros [H|H]; discriminate. }
  destruct Hshape as (vix & err & -> & Herr & Hlevel & Hmiss).
  assert (Hfailed : match err with None | Some ErrNoRows => false | Some _ => true end
                    = false) by (destruct err as [[]|]; tauto).
  rewrite Hfailed.
  set (vixLevel := match vix with Some v => v | None => 0.0 end) in *.
  clearbody vixLevel. clear Hvix Herr Hfailed.
  cmp_case; simpl.
  - repeat split; intros; try assumption; try lra.
    specialize (Hmiss ltac:(assumption)). lra.
  - destruct (spyRSI (db e)) as [[rsi|]|] eqn:Hrsi; simpl;
      [repeat cmp_case; simpl|..];
      repeat split; intros; try assumption; try lra; try discriminate;
      try reflexivity;
      try (match goal with Heq : Row (Some _) = Row (Some _) |- _ =>
             injection Heq as <- end; lra);
      try (match goal with Hno : forall r, Row (Some _) <> Row (Some r) |- _ =>
             exfalso; exact (Hno _ eq_refl) end);
      try (specialize (Hmiss ltac:(assumption)); lra).
Qed.

End Regime.

Lemma regime_decision_order_witness :
  ((vixMissing (db (defaultEngine overboughtNoVix)) /\ 0 == 0) \/
   vixClose (db (defaultEngine overboughtNoVix)) = Row (Some 0)) /\
  fst (fst (result (detectMarketRegime (defaultEngine overboughtNoVix)))) = RegimeBearish.
Proof.
  assert (Hvix : (vixMissing (db (defaultEngine overboughtNoVix)) /\ 0 == 0) \/
                 vixClose (db (defaultEngine overboughtNoVix)) = Row (Some 0)).
  { left. split; [left; reflexivity | reflexivity]. }
  split; [exact Hvix|].
  destruct (regime_decision_order (defaultEngine overboughtNoVix) 0 Hvix)
    as (_ & _ & _ & Hrsi & _).
  destruct (Hrsi ltac:(simpl; lra)) as [Hrow _].
  destruct (Hrow 80 eq_refl) as [Hbearish _].
  apply Hbearish. simpl. lra.
Defined.

(** A VIX query that fails for another reason than a missing row makes
    the detection fail: calm, level 0 and an error. *)
Lemma detectMarketRegime_query_error (e : Engine) msg :
  vixClose (db e) = ScanErr (ErrDB msg) ->
  result (detectMarketRegime e) = (RegimeCalm, 0, Some (Errorf "query VIX" (ErrDB msg))).
Proof.
  intros H. unfold result, detectMarketRegime, bind, emit, ret. rewrite H. reflexivity.
Qed.

(** ** GenerateRecommendations *)

Section Orchestrator.

Variable e : Engine.
Variable budget : float64.

(** A volatile detection comes without error, after the VIX query alone. *)
Lemma detect_volatile :
  fst (fst (result (detectMarketRegime e))) = RegimeVolatile ->
  snd (result (detectMarketRegime e)) = None /\
  events (detectMarketRegime e) = [EvQuery QVix].
Proof.
  unfold result, events, detectMarketRegime, bind, emit, ret.
  destruct (vixClose (db e)) as [[v|]|[]]; simpl;
    repeat match goal with
           | |- context [if ?c then _ else _] => destruct c; simpl
           | |- context [match spyRSI ?d with _ => _ end] =>
               destruct (spyRSI d) as [[r|]|]; simpl
           end;
    intros H; try discriminate H; split; reflexivity.
Qed.

(** The detection is volatile exactly when the VIX level, 0 when the VIX
    is missing, is above the high threshold. *)
Lemma detect_volatile_iff :
  fst (fst (result (detectMarketRegime e))) = RegimeVolatile <->
  (exists v, vixClose (db e) = Row (Some v) /\ vixHighThreshold e < v) \/
  (vixMissing (db e) /\ vixHighThreshold e < 0).
Proof.
  unfold result, detectMarketRegime, bind, emit, ret, vixMissing.
  destruct (vixClose (db e)) as [[v|]|[]]; simpl;
    try (split; [discriminate | intros [(v' & Hv & _)|[[Hv|Hv] _]]; discriminate]).
  - cmp_case; simpl.
    + split; [intros _; left; eauto | reflexivity].
    + split.
      * destruct (spyRSI (db e)) as [[r|]|]; simpl;
          repeat match goal with
                 | |- context [if ?c then _ else _] => destruct c; simpl
                 end; discriminate.
      * intros [(v' & Hv & Hlt)|[[Hv|Hv] _]]; try discriminate.
        injection Hv as <-. lra.
  - cmp_case; simpl.
    + split; [intros _; right; split; [auto | lra] | reflexivity].
    + split.
      * destruct (spyRSI (db e)) as [[r|]|]; simpl;
          repeat match goal with
                 | |- context [if ?c then _ else _] => destruct c; simpl
                 end; discriminate.
      * intros [(v' & Hv & _)|[_ Hlt]]; [discriminate | lra].
  - cmp_case; simpl.
    + split; [intros _; right; split; [auto | lra] | reflexivity].
    + split.
      * destruct (spyRSI (db e)) as [[r|]|]; simpl;
          repeat match goal with
                 | |- context [if ?c then _ else _] => destruct c; simpl
                 end; discriminate.
      * intros [(v' & Hv & _)|[_ Hlt]]; [discriminate | lra].
Qed.

(** Scoring a ticker always queries the creator content of that ticker. *)
Lemma getTickerConfidenceScore_queries ticker tr :
  EvQuery (QCreatorContent ticker) ∈ snd (getTickerConfidenceScore e ticker tr).
Proof.
  assert (Hmono : forall creators tr0 ev,
             ev ∈ tr0 -> ev ∈ snd (FetchCreatorAccuracy (db e) creators tr0)).
  { intros creators tr0 ev Hin. unfold FetchCreatorAccuracy, bind, emit, ret.
    destruct (length creators =? 0)%nat; simpl; [assumption|].
    destruct (creatorAccuracy (db e) creators); simpl; set_solver. }
  unfold getTickerConfidenceScore, bind, emit, ret.
  destruct (marketData (db e) ticker) as [cols|err];
    [destruct (scanMarket cols) as [price volume]|];
    match goal with
    | |- context [FetchCreatorAccuracy ?d ?c ?t] =>
        specialize (Hmono c t (EvQuery (QCreatorContent ticker)));
        destruct (FetchCreatorAccuracy d c t) as [[rates err'] tr']
    end; simpl in *; apply Hmono; set_solver.
Qed.

(** C4. When the detected regime is volatile, [GenerateRecommendations]
    returns exactly one recommendation and no error; its action is wait,
    its amount 0, and it records the VIX level and the volatile regime.
    The run sends the VIX query and nothing else: no query for the tracked
    tickers and none of the per-ticker queries that scoring starts with, so
    no confidence score is computed, whatever the database holds. *)
Theorem volatile_short_circuit (tr : list Event) :
  fst (fst (result (detectMarketRegime e))) = RegimeVolatile ->
  let vix := snd (fst (result (detectMarketRegime e))) in
  let run := GenerateRecommendations e budget tr in
  (exists rec,
     fst run = ([rec], None) /\
     rAction rec = "wait"%string /\
     rAmount rec == 0 /\
     rVIXLevel rec = vix /\
     rMarketRegime rec = RegimeVolatile /\
     rConfidenceScore rec == 0 /\
     args (rReasoning rec) = [vix]) /\
  snd run = tr ++ [EvLog "Generating recommendations for budget: $%.2f";
                   EvQuery QVix;
                   EvLog "Market regime: %s (VIX: %.2f)"] /\
  (forall q, EvQuery q ∈ snd run -> EvQuery q ∈ tr \/ q = QVix).
Proof.
  intros Hvolatile vix run.
  destruct (detect_volatile Hvolatile) as [Herr Hevents].
  assert (Hrun : run =
    (([{| rTicker := EmptyString; rAction := "wait"; rAmount := 0;
          rConfidenceScore := 0;
          rReasoning :=
            Sprintf "High volatility detected (VIX: %.2f). Wait 2-3 days for market to stabilize."
              [vix];
          rMarketRegime := RegimeVolatile; rVIXLevel := vix |}], None),
     tr ++ [EvLog "Generating recommendations for budget: $%.2f";
            EvQuery QVix;
            EvLog "Market regime: %s (VIX: %.2f)"])).
  { subst run vix. unfold GenerateRecommendations, bind, emit, ret.
    rewrite detectMarketRegime_trace, Hevents.
    destruct (result (detectMarketRegime e)) as [[regime level] err].
    simpl in Hvolatile, Herr. subst regime err. simpl.
    rewrite <- !app_assoc. reflexivity. }
  rewrite Hrun. simpl. split; [|split].
  - eexists. split; [reflexivity|]. simpl. repeat split; reflexivity.
  - reflexivity.
  - intros q Hin. rewrite !elem_of_app, !elem_of_cons in Hin.
    destruct Hin as [Hin|[Hin|[Hin|[Hin|Hin]]]];
      [left; assumption | discriminate | right; congruence | discriminate |].
    apply elem_of_nil in Hin. contradiction.
Qed.

End Orchestrator.

Lemma volatile_short_circuit_witness :
  fst (fst (result (detectMarketRegime (defaultEngine highVix)))) = RegimeVolatile /\
  length (fst (result (GenerateRecommendations (defaultEngine highVix) 1000))) = 1%nat.
Proof.
  split; [reflexivity|].
  destruct (volatile_short_circuit (defaultEngine highVix) 1000 [] eq_refl)
    as [(rec & Hrun & _) _].
  unfold result. rewrite Hrun. reflexivity.
Defined.

(** With an empty database the regime is calm and the four default
    tickers are scored on the defaults alone (overall 0.2): each is bought
    at a quarter of its base amount. *)
Example empty_database_run :
  let recs := fst (result (GenerateRecommendations (defaultEngine emptyDB) 1000)) in
  map rTicker recs = ["SPY"; "QQQ"; "VOO"; "VTI"]%string /\
  map rAction recs = ["buy"; "buy"; "buy"; "buy"]%string /\
  Forall2 Qeq (map rAmount recs) [100; 75; 50; 25].
Proof.
  vm_compute. repeat split; repeat constructor.
Qed.

Section Actions.

Variable e : Engine.
Variable budget : float64.

Lemma buyOrWait_not_hold action : buyOrWait action -> action <> "hold"%string.
Proof. intros [->| ->]; discriminate. Qed.

(** The loop only appends recommendations built from allocations. *)
Lemma recommendTickers_actions regime vix tickers : forall recommendations tr,
  Forall (fun rec => buyOrWait (rAction rec)) recommendations ->
  Forall (fun rec => buyOrWait (rAction rec))
    (fst (recommendTickers e budget regime vix tickers recommendations tr)).
Proof.
  induction tickers as [|ticker rest IH]; intros recommendations tr Hall; simpl.
  - exact Hall.
  - unfold bind at 1.
    destruct (getTickerConfidenceScore e ticker tr) as [[score err] tr'].
    destruct err as [err|].
    + unfold bind, emit. apply IH. exact Hall.
    + apply IH. apply Forall_app. split; [exact Hall|].
      constructor; [|constructor]. simpl. apply allocation_action.
Qed.

(** C10. The allocator never answers hold: the action of
    [calculateAllocation] is buy or wait, the recommendation of the volatile
    short-circuit waits, and so every recommendation that
    [GenerateRecommendations] returns has action buy or wait. *)
Theorem engine_never_holds :
  (forall ticker score regime,
     let r := calculateAllocation e ticker score budget regime in
     buyOrWait (Action r) /\ Action r <> "hold"%string) /\
  (forall tr rec,
     rec ∈ fst (fst (GenerateRecommendations e budget tr)) ->
     buyOrWait (rAction rec) /\ rAction rec <> "hold"%string) /\
  (forall tr rec,
     rec ∈ fst (fst (GenerateRecommendations e budget tr)) ->
     rMarketRegime rec = RegimeVolatile -> rAction rec = "wait"%string).
Proof.
  assert (Hall : forall tr,
    Forall (fun rec => buyOrWait (rAction rec) /\
                       (rMarketRegime rec = RegimeVolatile -> rAction rec = "wait"%string))
      (fst (fst (GenerateRecommendations e budget tr)))).
  { intros tr. unfold GenerateRecommendations, bind at 1 2. unfold emit at 1.
    destruct (detectMarketRegime e _) as [[[detected level] err] tr1].
    set (chosen := match err with Some _ => _ | None => _ end).
    unfold bind at 1. destruct (chosen tr1) as [[regime vix] tr2].
    unfold bind at 1. unfold emit at 1.
    destruct (regime_eqb regime RegimeVolatile) eqn:Hregime.
    - simpl. constructor; [|constructor]. simpl. split; [right|]; reflexivity.
    - unfold bind at 1.
      destruct (getTrackedTickers e _) as [[tickers terr] tr3].
      destruct terr as [terr|]; [simpl; constructor|].
      unfold bind at 1. 
      pose proof (recommendTickers_actions regime vix tickers [] tr3 ltac:(constructor))
        as Hloop.
      assert (Hsame : Forall (fun rec => rMarketRegime rec <> RegimeVolatile)
                (fst (recommendTickers e budget regime vix tickers [] tr3))).
      { assert (Hgen : forall ts recs tr0,
                  Forall (fun rec => rMarketRegime rec <> RegimeVolatile) recs ->
                  Forall (fun rec => rMarketRegime rec <> RegimeVolatile)
                    (fst (recommendTickers e budget regime vix ts recs tr0))).
        { induction ts as [|t ts IH]; intros recs tr0 Hrecs; simpl; [exact Hrecs|].
          unfold bind at 1.
          destruct (getTickerConfidenceScore e t tr0) as [[score err'] tr'].
          destruct err'; [unfold bind, emit; apply IH; exact Hrecs|].
          apply IH. apply Forall_app. split; [exact Hrecs|].
          constructor; [|constructor]. simpl. intros ->. discriminate. }
        apply Hgen. constructor. }
      destruct (recommendTickers e budget regime vix tickers [] tr3) as [recs tr4].
      simpl in *. rewrite Forall_forall in *. intros rec Hin.
      split; [apply Hloop; exact Hin|].
      intros Hvol. exfalso. exact (Hsame rec Hin Hvol). }
  split; [|split].
  - intros ticker score regime r. subst r.
    pose proof (allocation_action e score budget regime ticker) as Haction.
    split; [exact Haction | apply buyOrWait_not_hold; exact Haction].
  - intros tr rec Hin. specialize (Hall tr). rewrite Forall_forall in Hall.
    destruct (Hall rec Hin) as [Haction _].
    split; [exact Haction | apply buyOrWait_not_hold; exact Haction].
  - intros tr rec Hin. specialize (Hall tr). rewrite Forall_forall in Hall.
    destruct (Hall rec Hin) as [_ Hvol]. exact Hvol.
Qed.

End Actions.

Lemma engine_never_holds_witness :
  let recs := fst (result (GenerateRecommendations (defaultEngine emptyDB) 1000)) in
  Forall (fun rec => rAction rec <> "hold"%string) recs /\ length recs = 4%nat.
Proof.
  split; [|reflexivity].
  apply Forall_forall. intros rec Hin.
  destruct (engine_never_holds (defaultEngine emptyDB) 1000) as (_ & Hrun & _).
  apply (Hrun [] rec). exact Hin.
Defined.

(** * Further properties of the scoring and allocation code *)

(** ** GetTechnicalSignals *)

Lemma fneb_true x y : fneb x y = true <-> ~ x == y.
Proof.
  unfold fneb. rewrite negb_true_iff, <- not_true_iff_false, Qeq_bool_iff. tauto.
Qed.

Lemma fneb_false x y : fneb x y = false <-> x == y.
Proof. unfold fneb. rewrite negb_false_iff. apply Qeq_bool_iff. Qed.

(** Case analysis on one [!=] of the code. *)
Ltac neq_case :=
  match goal with
  | |- context [fneb ?x ?y] =>
      let H := fresh "Hneq" in
      destruct (fneb x y) eqn:H;
      [apply fneb_true in H | apply fneb_false in H]
  end.

Section TechnicalSignals.

Variables rsi sma50 sma200 macd macdSignal currentPrice : float64.

(** The signals are the contributions of the four rules, in order. *)
Lemma GetTechnicalSignals_rules :
  GetTechnicalSignals rsi sma50 sma200 macd macdSignal currentPrice =
  rsiRule rsi ++ crossRule sma50 sma200 ++ trendRule sma200 currentPrice ++
  macdRule macd macdSignal.
Proof.
  unfold GetTechnicalSignals, rsiRule, crossRule, trendRule, macdRule.
  repeat match goal with
         | |- context [if ?c then _ else _] => destruct c
         end; reflexivity.
Qed.

Lemma rsiRule_spec :
  (length (rsiRule rsi) <= 1)%nat /\ Forall validLabel (rsiRule rsi) /\
  (rsiRule rsi = [] <-> rsi <= 0) /\
  (rsiRule rsi = ["neutral"%string] <-> 0 < rsi /\ 30 <= rsi /\ rsi <= 70) /\
  (rsiRule rsi = ["bullish"%string] <-> 0 < rsi /\ rsi < 30) /\
  (rsiRule rsi = ["bearish"%string] <-> 70 < rsi).
Proof.
  unfold rsiRule, validLabel. repeat cmp_case; simpl;
    (split; [lia|]); (split; [repeat constructor; auto|]);
    (split; [|split; [|split]]);
    (split; [intros H; try discriminate H; try lra; repeat split; lra
            | intros H; try reflexivity; exfalso; intuition lra]).
Qed.

Lemma crossRule_spec :
  (length (crossRule sma50 sma200) <= 1)%nat /\
  Forall (fun l => l = "bullish"%string \/ l = "bearish"%string) (crossRule sma50 sma200) /\
  (crossRule sma50 sma200 = [] <-> sma50 <= 0 \/ sma200 <= 0).
Proof.
  unfold crossRule. repeat cmp_case; simpl;
    (split; [lia|]); (split; [repeat constructor; auto|]);
    split; intros H; try discriminate; try reflexivity; try tauto;
    destruct H; exfalso; lra.
Qed.

Lemma trendRule_spec :
  (length (trendRule sma200 currentPrice) <= 1)%nat /\
  Forall (fun l => l = "bullish"%string \/ l = "bearish"%string)
    (trendRule sma200 currentPrice) /\
  (trendRule sma200 currentPrice = [] <-> sma200 <= 0 \/ currentPrice <= 0).
Proof.
  unfold trendRule. repeat cmp_case; simpl;
    (split; [lia|]); (split; [repeat constructor; auto|]);
    split; intros H; try discriminate; try reflexivity; try tauto;
    destruct H; exfalso; lra.
Qed.

Lemma macdRule_spec :
  (length (macdRule macd macdSignal) <= 1)%nat /\
  Forall (fun l => l = "bullish"%string \/ l = "bearish"%string)
    (macdRule macd macdSignal) /\
  (macdRule macd macdSignal = [] <-> macd == 0 \/ macdSignal == 0).
Proof.
  unfold macdRule. repeat neq_case; simpl; try cmp_case; simpl;
    (split; [lia|]); (split; [repeat constructor; auto|]);
    split; intros H; try discriminate; try reflexivity; try tauto;
    destruct H; exfalso; tauto.
Qed.

Lemma length_le_1_nil {A} (l : list A) :
  (length l <= 1)%nat -> (length l = 1%nat <-> l <> []).
Proof. destruct l as [|x [|y l]]; simpl; intros; split; intros; try congruence; lia. Qed.

(** X1. [GetTechnicalSignals] returns at most four signals, each of them
    bullish, bearish or neutral. It returns none exactly when no rule has
    its inputs (RSI, SMA and price count as absent when zero or negative,
    MACD and its signal line only when zero), and four exactly when every
    rule has them. *)
Theorem technical_signals_count :
  let signals := GetTechnicalSignals rsi sma50 sma200 macd macdSignal currentPrice in
  (length signals <= 4)%nat /\
  Forall validLabel signals /\
  (signals = [] <->
     rsi <= 0 /\ (sma50 <= 0 \/ sma200 <= 0) /\ (sma200 <= 0 \/ currentPrice <= 0) /\
     (macd == 0 \/ macdSignal == 0)) /\
  (length signals = 4%nat <->
     0 < rsi /\ 0 < sma50 /\ 0 < sma200 /\ 0 < currentPrice /\
     ~ macd == 0 /\ ~ macdSignal == 0).
Proof.
  cbv zeta. rewrite GetTechnicalSignals_rules.
  destruct rsiRule_spec as (Hr1 & Hr2 & Hr3 & _).
  destruct crossRule_spec as (Hc1 & Hc2 & Hc3).
  destruct trendRule_spec as (Ht1 & Ht2 & Ht3).
  destruct macdRule_spec as (Hm1 & Hm2 & Hm3).
  assert (Hweak : forall l,
            Forall (fun s => s = "bullish"%string \/ s = "bearish"%string) l ->
            Forall validLabel l).
  { intros l Hl. eapply Forall_impl; [exact Hl|].
    intros x [Hx|Hx]; unfold validLabel; auto. }
  split; [rewrite !length_app; lia|].
  split; [repeat (apply Forall_app; split); auto|].
  split.
  - rewrite !app_nil, Hr3, Hc3, Ht3, Hm3. tauto.
  - rewrite !length_app.
    pose proof (length_le_1_nil _ Hr1) as Hr.
    pose proof (length_le_1_nil _ Hc1) as Hc.
    pose proof (length_le_1_nil _ Ht1) as Ht.
    pose proof (length_le_1_nil _ Hm1) as Hm.
    rewrite Hr3 in Hr. rewrite Hc3 in Hc. rewrite Ht3 in Ht. rewrite Hm3 in Hm.
    split.
    + intros Hlen.
      assert (H1 : length (rsiRule rsi) = 1%nat) by lia.
      assert (H2 : length (crossRule sma50 sma200) = 1%nat) by lia.
      assert (H3 : length (trendRule sma200 currentPrice) = 1%nat) by lia.
      assert (H4 : length (macdRule macd macdSignal) = 1%nat) by lia.
      apply Hr in H1. apply Hc in H2. apply Ht in H3. apply Hm in H4.
      repeat split; try (apply Qnot_le_lt; tauto); tauto.
    + intros (Hp1 & Hp2 & Hp3 & Hp4 & Hp5 & Hp6).
      assert (H1 : length (rsiRule rsi) = 1%nat) by (apply Hr; lra).
      assert (H2 : length (crossRule sma50 sma200) = 1%nat)
        by (apply Hc; intros [|]; lra).
      assert (H3 : length (trendRule sma200 currentPrice) = 1%nat)
        by (apply Ht; intros [|]; lra).
      assert (H4 : length (macdRule macd macdSignal) = 1%nat) by (apply Hm; tauto).
      lia.
Qed.

(** X2. The neutral label comes from the RSI rule alone: it is among the
    signals exactly when the RSI is present and inside the band from 30 to
    70, and then it is the first signal. *)
Theorem technical_signals_neutral :
  let signals := GetTechnicalSignals rsi sma50 sma200 macd macdSignal currentPrice in
  ("neutral"%string ∈ signals <-> 0 < rsi /\ 30 <= rsi /\ rsi <= 70) /\
  ("neutral"%string ∈ signals -> head signals = Some "neutral"%string).
Proof.
  cbv zeta. rewrite GetTechnicalSignals_rules.
  destruct rsiRule_spec as (_ & _ & _ & Hn & _).
  destruct crossRule_spec as (_ & Hc & _).
  destruct trendRule_spec as (_ & Ht & _).
  destruct macdRule_spec as (_ & Hm & _).
  assert (Hno : forall l,
            Forall (fun s => s = "bullish"%string \/ s = "bearish"%string) l ->
            ~ "neutral"%string ∈ l).
  { intros l Hall Hin. rewrite Forall_forall in Hall.
    destruct (Hall _ Hin); discriminate. }
  assert (Hin : "neutral"%string ∈ rsiRule rsi ++ crossRule sma50 sma200 ++
                  trendRule sma200 currentPrice ++ macdRule macd macdSignal ->
                rsiRule rsi = ["neutral"%string]).
  { rewrite !elem_of_app. intros [H|[H|[H|H]]];
      [| exfalso; exact (Hno _ Hc H) | exfalso; exact (Hno _ Ht H)
       | exfalso; exact (Hno _ Hm H)].
    unfold rsiRule in *.
    repeat match goal with
           | H : context [if ?c then _ else _] |- _ => destruct c
           end;
      rewrite ?elem_of_cons, ?elem_of_nil in H;
      try reflexivity; try contradiction;
      destruct H as [H|H]; try discriminate H; contradiction. }
  split; [split|].
  - intros H. apply Hn, Hin, H.
  - intros H. apply Hn in H. rewrite H. apply elem_of_app. left. constructor.
  - intros H. rewrite (Hin H). reflexivity.
Qed.

End TechnicalSignals.

(** ** CalculateConfidence, further *)

Section ConfidenceFurther.

Lemma ofInt_ratio_le (m t : nat) (p q : Z) :
  (0 < t)%nat -> (0 < q)%Z -> (Z.of_nat m * q <= p * Z.of_nat t)%Z ->
  ofInt m / ofInt t <= inject_Z p / inject_Z q.
Proof.
  intros Ht Hq Hle.
  assert (Ht' : 0 < ofInt t) by (apply ofInt_pos; assumption).
  assert (Hq' : 0 < inject_Z q)
    by (change 0 with (inject_Z 0); rewrite <- Zlt_Qlt; assumption).
  assert (Hle' : ofInt m * inject_Z q <= inject_Z p * ofInt t).
  { unfold ofInt. rewrite <- !inject_Z_mult, <- Zle_Qle. assumption. }
  apply Qle_shift_div_r; [assumption|].
  apply Qle_shift_div_l in Hle'; [|assumption].
  unfold Qdiv in *.
  assert (E : inject_Z p * / inject_Z q * ofInt t ==
              inject_Z p * ofInt t * / inject_Z q) by ring.
  rewrite E. exact Hle'.
Qed.


Lemma countLabels_neutral_cons labels :
  countLabels ("neutral"%string :: labels) = countLabels labels.
Proof. reflexivity. Qed.

(** X3. When the signals come from [GetTechnicalSignals] and the RSI is
    inside the band from 30 to 70, its neutral signal counts in the total
    and on neither side: the technical alignment of the score is at most
    3/4, whatever the other indicators and the creators say. *)
Theorem neutral_rsi_caps_alignment (inputs : ConfidenceInputs)
    (weights : ConfidenceWeights)
    (rsi sma50 sma200 macd macdSignal currentPrice : float64) :
  TechnicalSignals inputs =
    GetTechnicalSignals rsi sma50 sma200 macd macdSignal currentPrice ->
  30 <= rsi -> rsi <= 70 ->
  TechnicalAlignment (CalculateConfidence inputs weights) <= 3 / 4.
Proof.
  intros Hsignals Hlow Hhigh.
  destruct (CalculateConfidence_fields inputs weights) as (_ & _ & Ht & _).
  rewrite Ht, Hsignals, GetTechnicalSignals_rules. clear Ht Hsignals.
  generalize (Direction (CalculateConfidence inputs weights)). intros direction.
  destruct (rsiRule_spec rsi) as (_ & _ & _ & Hn & _).
  rewrite (proj2 Hn) by (repeat split; lra).
  destruct (crossRule_spec sma50 sma200) as (Hc & _).
  destruct (trendRule_spec sma200 currentPrice) as (Htr & _).
  destruct (macdRule_spec macd macdSignal) as (Hm & _).
  set (rest := crossRule sma50 sma200 ++ trendRule sma200 currentPrice ++
               macdRule macd macdSignal).
  assert (Hrest : (length rest <= 3)%nat)
    by (unfold rest; rewrite !length_app; lia).
  change (["neutral"%string] ++ rest) with ("neutral"%string :: rest).
  unfold technicalAlignment. rewrite countLabels_neutral_cons.
  pose proof (countLabels_le rest) as Hle.
  destruct (countLabels rest) as [bull bear]. simpl in Hle. simpl length.
  change (0 <? S (length rest))%nat with true. cbv iota.
  change (3 / 4) with (inject_Z 3 / inject_Z 4).
  repeat match goal with
         | |- context [if ?c then _ else _] => destruct c
         end; apply ofInt_ratio_le; lia.
Qed.

(** X4. The direction follows the strict majority between bullish and
    bearish creators, other labels set aside: bullish exactly when the
    bullish creators outnumber the bearish ones, bearish in the converse
    case, neutral exactly on a tie. The consensus of a winning side is its
    share of all creators, whatever their label. *)
Theorem direction_majority (inputs : ConfidenceInputs) (weights : ConfidenceWeights) :
  let s := CalculateConfidence inputs weights in
  let bull := creatorsWith "bullish" (CreatorSentiments inputs) in
  let bear := creatorsWith "bearish" (CreatorSentiments inputs) in
  let total := size (CreatorSentiments inputs) in
  (Direction s = "bullish"%string <-> (bear < bull)%nat) /\
  (Direction s = "bearish"%string <-> (bull < bear)%nat) /\
  (Direction s = "neutral"%string <-> bull = bear) /\
  ((bear < bull)%nat -> CreatorConsensus s == ofInt bull / ofInt total) /\
  ((bull < bear)%nat -> CreatorConsensus s == ofInt bear / ofInt total).
Proof.
  intros s bull bear total.
  destruct (CalculateConfidence_fields inputs weights) as (Hc & Hd & _).
  fold s in Hc, Hd. rewrite Hc, Hd. clear Hc Hd s.
  pose proof (countLabels_le (map_to_list (CreatorSentiments inputs)).*2) as Hle.
  rewrite length_fmap, length_map_to_list in Hle.
  unfold creatorConsensus. rewrite countLabels_creators in *.
  fold bull bear total in Hle |- *. simpl in Hle.
  destruct (Nat.ltb_spec 0 total) as [Hpos|Hzero];
    [destruct (Nat.ltb_spec bear bull); [|destruct (Nat.ltb_spec bull bear)]|];
    simpl; repeat split; intros; try discriminate; try reflexivity; try lia.
Qed.

Lemma filter_length_all {A} (P : A -> Prop) `{forall x, Decision (P x)} (l : list A) :
  length (filter P l) = length l <-> Forall P l.
Proof.
  induction l as [|x l IH]; simpl.
  - split; [constructor | reflexivity].
  - rewrite filter_cons. destruct (decide (P x)) as [Hx|Hx]; simpl.
    + rewrite Forall_cons. split.
      * intros Hlen. split; [assumption|]. apply IH. lia.
      * intros [_ Hall]. f_equal. apply IH. assumption.
    + pose proof (length_filter P l). split; [lia|].
      intros Hall. apply Forall_cons in Hall. tauto.
Qed.

Lemma ofInt_ratio_one (m t : nat) :
  (0 < t)%nat -> (ofInt m / ofInt t == 1 <-> m = t).
Proof.
  intros Ht. pose proof (ofInt_pos _ Ht) as Hpos. split.
  - intros Heq.
    assert (Hne : ~ ofInt t == 0)
      by (apply Qnot_eq_sym, Qlt_not_eq; exact Hpos).
    assert (Hm : ofInt m == ofInt m / ofInt t * ofInt t) by (field; exact Hne).
    rewrite Heq, Qmult_1_l in Hm.
    unfold ofInt in Hm. rewrite inject_Z_injective in Hm. lia.
  - intros ->. assert (Hne : ~ ofInt t == 0)
      by (apply Qnot_eq_sym, Qlt_not_eq; exact Hpos). field. exact Hne.
Qed.

(** X5. The creator consensus is 1 exactly for a unanimous vote: there
    is at least one creator and all are bullish, or all are bearish. A
    single neutral or unknown label keeps it below 1. *)
Theorem consensus_unanimous (inputs : ConfidenceInputs) (weights : ConfidenceWeights) :
  let m := CreatorSentiments inputs in
  CreatorConsensus (CalculateConfidence inputs weights) == 1 <->
  m <> ∅ /\
  (map_Forall (fun _ v => v = "bullish"%string) m \/
   map_Forall (fun _ v => v = "bearish"%string) m).
Proof.
  intros m.
  destruct (CalculateConfidence_fields inputs weights) as (Hc & _).
  rewrite Hc. clear Hc. fold m.
  pose proof (countLabels_le (map_to_list m).*2) as Hle.
  rewrite length_fmap, length_map_to_list in Hle.
  assert (Hall : forall label,
            creatorsWith label m = size m <-> map_Forall (fun _ v => v = label) m).
  { intros label. unfold creatorsWith.
    rewrite <- (length_map_to_list m), <- (length_fmap snd (map_to_list m)).
    rewrite filter_length_all, map_Forall_to_list, Forall_fmap.
    apply Forall_proper; [|reflexivity]. intros [k v]. reflexivity. }
  rewrite <- map_size_non_empty_iff, <- !Hall.
  unfold creatorConsensus. rewrite countLabels_creators in *. simpl in Hle.
  set (bull := creatorsWith "bullish" m) in *.
  set (bear := creatorsWith "bearish" m) in *.
  destruct (Nat.ltb_spec 0 (size m)) as [Hpos|Hzero];
    [destruct (Nat.ltb_spec bear bull); [|destruct (Nat.ltb_spec bull bear)]|];
    simpl.
  - rewrite ofInt_ratio_one by assumption. lia.
  - rewrite ofInt_ratio_one by assumption. lia.
  - split; [intros Hhalf; exfalso; lra | lia].
  - split; [intros Hzero'; exfalso; lra | lia].
Qed.

(** The components when nothing is known. *)
Lemma no_data_fields (inputs : ConfidenceInputs) (weights : ConfidenceWeights) :
  CreatorSentiments inputs = ∅ ->
  TechnicalSignals inputs = [] ->
  (AvgVolume inputs <= 0)%Z ->
  CreatorAccuracyRates inputs = ∅ ->
  let s := CalculateConfidence inputs weights in
  Direction s = "neutral"%string /\
  CreatorConsensus s = 0 /\ TechnicalAlignment s = 0 /\
  VolumeConfirmation s = 0.5 /\ HistoricalAccuracy s = 0.5.
Proof.
  intros Hm Hs Hv Hr s.
  destruct (CalculateConfidence_fields inputs weights)
    as (Hc & Hd & Ht & Hvol & Hh & _). fold s in Hc, Hd, Ht, Hvol, Hh.
  assert (Hd' : Direction s = "neutral"%string) by (rewrite Hd, Hm; reflexivity).
  split; [exact Hd'|].
  split; [rewrite Hc, Hm; reflexivity|].
  split; [rewrite Ht, Hs, Hd'; reflexivity|].
  split; [|rewrite Hh, Hr; reflexivity].
  rewrite Hvol. unfold volumeConfirmation.
  destruct (Z.ltb_spec 0 (AvgVolume inputs)); [lia | reflexivity].
Qed.

(** X6. With no creator sentiment, no signal, no average volume and no
    accuracy rate, the consensus and the alignment are 0, the direction is
    neutral, and the overall score comes from the two 0.5 defaults alone:
    half the volume weight plus half the accuracy weight. *)
Theorem confidence_without_data (inputs : ConfidenceInputs) (weights : ConfidenceWeights) :
  CreatorSentiments inputs = ∅ ->
  TechnicalSignals inputs = [] ->
  (AvgVolume inputs <= 0)%Z ->
  CreatorAccuracyRates inputs = ∅ ->
  let s := CalculateConfidence inputs weights in
  Direction s = "neutral"%string /\
  CreatorConsensus s == 0 /\ TechnicalAlignment s == 0 /\
  VolumeConfirmation s == 0.5 /\ HistoricalAccuracy s == 0.5 /\
  Overall s == 0.5 * wVolumeConfirmation weights + 0.5 * wHistoricalAccuracy weights.
Proof.
  intros Hm Hs Hv Hr s.
  destruct (no_data_fields inputs weights Hm Hs Hv Hr) as (Hd & Hc & Ht & Hvol & Hh).
  destruct (CalculateConfidence_fields inputs weights) as (_ & _ & _ & _ & _ & Ho).
  fold s in Hd, Hc, Ht, Hvol, Hh, Ho.
  split; [exact Hd|].
  rewrite Ho, Hc, Ht, Hvol, Hh.
  repeat split; try reflexivity. ring.
Qed.


(** X8. For a fixed average volume the volume confirmation never
    decreases when the current volume grows. *)
Theorem volume_confirmation_monotone (current1 current2 avgVolume : Z) :
  (current1 <= current2)%Z ->
  volumeConfirmation current1 avgVolume <= volumeConfirmation current2 avgVolume.
Proof.
  intros Hle. unfold volumeConfirmation.
  destruct (Z.ltb_spec 0 avgVolume) as [Hpos|_]; [|lra].
  cbv zeta.
  assert (Hratio : ofInt64 current1 / ofInt64 avgVolume <=
                   ofInt64 current2 / ofInt64 avgVolume).
  { unfold ofInt64, Qdiv. apply Qmult_le_compat_r.
    - rewrite <- Zle_Qle. assumption.
    - apply Qinv_le_0_compat. change 0 with (inject_Z 0).
      rewrite <- Zle_Qle. lia. }
  set (r1 := ofInt64 current1 / ofInt64 avgVolume) in *.
  set (r2 := ofInt64 current2 / ofInt64 avgVolume) in *.
  clearbody r1 r2.
  assert (Hdiv : forall x y, x <= y -> x / 1.5 <= y / 1.5).
  { intros x y Hxy. unfold Qdiv. apply Qmult_le_compat_r; [assumption|].
    apply Qinv_le_0_compat. lra. }
  assert (Hunit : forall x, 0.5 < x -> x < 2.0 -> 0 <= (x - 0.5) / 1.5 <= 1).
  { intros x Hx1 Hx2. apply ratio_unit; lra. }
  pose proof (Hunit r1) as H1. pose proof (Hunit r2) as H2.
  pose proof (Hdiv (r1 - 0.5) (r2 - 0.5)) as H3.
  repeat cmp_case; try lra;
    try (specialize (H1 ltac:(lra) ltac:(lra)); lra);
    try (specialize (H2 ltac:(lra) ltac:(lra)); lra);
    try (specialize (H3 ltac:(lra)); lra).
Qed.

End ConfidenceFurther.

Lemma neutral_rsi_caps_alignment_witness :
  TechnicalAlignment (CalculateConfidence rsiInBand DefaultWeights) <= 3 / 4.
Proof.
  apply (neutral_rsi_caps_alignment rsiInBand DefaultWeights
           45.0 450.0 440.0 2.5 1.5 455.0 eq_refl); lra.
Defined.

Lemma confidence_without_data_witness :
  Overall (CalculateConfidence noData DefaultWeights) == 0.2.
Proof.
  destruct (confidence_without_data noData DefaultWeights
              eq_refl eq_refl ltac:(simpl; lia) eq_refl)
    as (_ & _ & _ & _ & _ & Hoverall).
  rewrite Hoverall. reflexivity.
Defined.

Lemma volume_confirmation_monotone_witness :
  volumeConfirmation 30000000 50000000 <= volumeConfirmation 60000000 50000000.
Proof. apply volume_confirmation_monotone. lia. Defined.

(** ** calculateAllocation, further *)

Section AllocationFurther.

Variable e : Engine.
Variable ticker : string.
Variable budget : float64.
Hypothesis budget_nonneg : 0 <= budget.

Ltac alloc_cases :=
  unfold calculateAllocation;
  destruct (coreHoldings !! ticker) as [base|] eqn:Hcore;
  [ pose proof (coreHoldings_base _ _ Hcore) as Hbase;
    assert (Hb : 0 <= budget * base) by nra;
    generalize dependent (budget * base); intros b Hb
  | ].

(** X9. A higher overall score never lowers the amount: for the same
    ticker, regime and budget (not negative), the amount is monotone in the
    overall score, for core and for other tickers. *)
Theorem allocation_monotone_in_score (score1 score2 : ConfidenceScore)
    (regime : MarketRegime) :
  Overall score1 <= Overall score2 ->
  Amount (calculateAllocation e ticker score1 budget regime) <=
  Amount (calculateAllocation e ticker score2 budget regime).
Proof.
  intros Hle. alloc_cases.
  - destruct regime; simpl; repeat cmp_case; simpl; lra.
  - repeat cmp_case; simpl; lra.
Qed.

(** X10. For the same ticker, score and budget (not negative) the regimes
    are ordered: a bearish regime never allocates more than a calm one, a
    bullish regime never less, and at most 1.1 times as much. A volatile
    regime, if it ever reaches the allocator, is treated like a calm one. *)
Theorem allocation_regime_order (score : ConfidenceScore) :
  let amount regime := Amount (calculateAllocation e ticker score budget regime) in
  amount RegimeBearish <= amount RegimeCalm /\
  amount RegimeCalm <= amount RegimeBullish /\
  amount RegimeBullish <= 1.1 * amount RegimeCalm /\
  amount RegimeVolatile == amount RegimeCalm /\
  0.75 * amount RegimeCalm <= amount RegimeBearish.
Proof.
  cbv zeta. alloc_cases.
  - simpl; repeat cmp_case; simpl; repeat split; lra.
  - repeat cmp_case; simpl; repeat split; lra.
Qed.

(** X11. A core ticker is always bought for a positive amount when the
    budget is positive: at least a quarter of its base amount, which is at
    least 2.5% of the budget. *)
Theorem core_allocation_floor (base : float64) (score : ConfidenceScore)
    (regime : MarketRegime) :
  coreHoldings !! ticker = Some base ->
  let r := calculateAllocation e ticker score budget regime in
  budget * base * 0.25 <= Amount r /\
  budget * 0.025 <= Amount r /\
  (0 < budget -> 0 < Amount r).
Proof.
  intros Hcore r. subst r. unfold calculateAllocation. rewrite Hcore.
  pose proof (coreHoldings_base _ _ Hcore) as Hbase.
  assert (Hb : budget * 0.10 <= budget * base) by nra.
  generalize dependent (budget * base). intros b Hb.
  destruct regime; simpl; repeat cmp_case; simpl; repeat split; intros; lra.
Qed.

End AllocationFurther.

Lemma allocation_monotone_in_score_witness :
  Amount (calculateAllocation (defaultEngine emptyDB) "SPY"
            (scoreOf 0.45 "bullish") 1000 RegimeCalm) <=
  Amount (calculateAllocation (defaultEngine emptyDB) "SPY"
            (scoreOf 0.85 "bullish") 1000 RegimeCalm).
Proof.
  apply (allocation_monotone_in_score (defaultEngine emptyDB) "SPY" 1000);
    simpl; lra.
Defined.

Lemma allocation_regime_order_witness :
  Amount (calculateAllocation (defaultEngine emptyDB) "QQQ"
            (scoreOf 0.75 "bullish") 1000 RegimeBearish) <=
  Amount (calculateAllocation (defaultEngine emptyDB) "QQQ"
            (scoreOf 0.75 "bullish") 1000 RegimeCalm).
Proof.
  apply (allocation_regime_order (defaultEngine emptyDB) "QQQ" 1000 ltac:(lra)
           (scoreOf 0.75 "bullish")).
Defined.

Lemma core_allocation_floor_witness :
  0 < Amount (calculateAllocation (defaultEngine emptyDB) "VTI"
                (scoreOf 0.30 "neutral") 1000 RegimeCalm).
Proof.
  apply (core_allocation_floor (defaultEngine emptyDB) "VTI" 1000 ltac:(lra)
           0.10 (scoreOf 0.30 "neutral") RegimeCalm eq_refl). lra.
Defined.

(** ** FetchCreatorAccuracy *)

Section CreatorAccuracy.

Lemma insert_rows_lookup_other (rows : list (string * float64)) : forall m c,
  c ∉ rows.*1 -> fold_left insertRow rows m !! c = m !! c.
Proof.
  induction rows as [|[k a] rows IH]; intros m c Hnotin; simpl; [reflexivity|].
  rewrite fmap_cons, not_elem_of_cons in Hnotin. destruct Hnotin as [Hne Hnotin].
  rewrite IH by assumption. unfold insertRow. simpl in *.
  apply lookup_insert_ne. congruence.
Qed.

Lemma insert_rows_lookup_row (rows : list (string * float64)) : forall m c a,
  NoDup rows.*1 -> (c, a) ∈ rows -> fold_left insertRow rows m !! c = Some a.
Proof.
  induction rows as [|[k b] rows IH]; intros m c a Hnodup Hin; simpl.
  - apply elem_of_nil in Hin. contradiction.
  - rewrite fmap_cons in Hnodup. apply NoDup_cons in Hnodup.
    destruct Hnodup as [Hfresh Hnodup].
    apply elem_of_cons in Hin. destruct Hin as [Heq|Hin].
    + injection Heq as -> ->.
      rewrite insert_rows_lookup_other by assumption.
      unfold insertRow. simpl. apply lookup_insert_eq.
    + apply IH; assumption.
Qed.

Lemma default_rates_lookup (creators : list string) : forall m c,
  fold_left defaultRate creators m !! c =
  match m !! c with
  | Some a => Some a
  | None => if decide (c ∈ creators) then Some 0.5 else None
  end.
Proof.
  induction creators as [|k creators IH]; intros m c; cbn [fold_left].
  - destruct (m !! c); [reflexivity|].
    destruct (decide (c ∈ [])) as [Hin|_]; [|reflexivity].
    apply elem_of_nil in Hin. contradiction.
  - rewrite IH. unfold defaultRate.
    assert (Hcons : forall P : Prop, (c = k \/ c ∈ creators -> P) -> c ∈ k :: creators -> P).
    { intros P HP Hin. apply HP. apply elem_of_cons. exact Hin. }
    destruct (m !! k) as [b|] eqn:Hk.
    + destruct (m !! c) as [a|] eqn:Hc; [reflexivity|].
      assert (Hne : c <> k) by congruence.
      destruct (decide (c ∈ creators)) as [Hin|Hnotin];
        destruct (decide (c ∈ k :: creators)) as [Hin'|Hnotin'];
        try reflexivity; exfalso.
      * apply Hnotin'. apply elem_of_cons. auto.
      * revert Hin'. apply Hcons. tauto.
    + destruct (decide (c = k)) as [->|Hne].
      * rewrite lookup_insert_eq, Hk.
        destruct (decide (k ∈ k :: creators)) as [_|Hnotin']; [reflexivity|].
        exfalso. apply Hnotin'. apply elem_of_cons. auto.
      * rewrite lookup_insert_ne by congruence.
        destruct (m !! c) as [a|]; [reflexivity|].
        destruct (decide (c ∈ creators)) as [Hin|Hnotin];
          destruct (decide (c ∈ k :: creators)) as [Hin'|Hnotin'];
          try reflexivity; exfalso.
        -- apply Hnotin'. apply elem_of_cons. auto.
        -- revert Hin'. apply Hcons. tauto.
Qed.

(** What a successful query leaves in the map. *)
Lemma FetchCreatorAccuracy_rows (d : DB) (creators : list string)
    (rows : list (string * float64)) (tr : list Event) :
  creators <> [] ->
  creatorAccuracy d creators = Row rows ->
  FetchCreatorAccuracy d creators tr =
  ((fold_left defaultRate creators (fold_left insertRow rows ∅), None),
   tr ++ [EvQuery (QCreatorAccuracy creators)]).
Proof.
  intros Hne Hrows. unfold FetchCreatorAccuracy, bind, emit, ret.
  destruct creators as [|c creators]; [congruence|]. simpl.
  rewrite Hrows. reflexivity.
Qed.

(** X12. When the accuracy query succeeds (one row per creator with
    history, as its GROUP BY yields), [FetchCreatorAccuracy] returns no
    error and a map in which every creator with a row has the rate of that
    row, every requested creator without a row has the default 0.5, and no
    other name appears. *)
Theorem fetch_creator_accuracy_rates (d : DB) (creators : list string)
    (rows : list (string * float64)) (tr : list Event) :
  creators <> [] ->
  creatorAccuracy d creators = Row rows ->
  NoDup rows.*1 ->
  let rates := fst (fst (FetchCreatorAccuracy d creators tr)) in
  snd (fst (FetchCreatorAccuracy d creators tr)) = None /\
  (forall c a, (c, a) ∈ rows -> rates !! c = Some a) /\
  (forall c, c ∈ creators -> c ∉ rows.*1 -> rates !! c = Some 0.5) /\
  (forall c, is_Some (rates !! c) <-> c ∈ creators \/ c ∈ rows.*1).
Proof.
  intros Hne Hrows Hnodup rates. subst rates.
  rewrite (FetchCreatorAccuracy_rows d creators rows tr Hne Hrows). simpl.
  split; [reflexivity|]. split; [|split].
  - intros c a Hin. rewrite default_rates_lookup.
    rewrite (insert_rows_lookup_row rows ∅ c a Hnodup Hin). reflexivity.
  - intros c Hin Hnotin. rewrite default_rates_lookup.
    rewrite insert_rows_lookup_other, lookup_empty by assumption.
    rewrite decide_True by assumption. reflexivity.
  - intros c. rewrite default_rates_lookup.
    destruct (decide (c ∈ rows.*1)) as [Hin|Hnotin].
    + apply list_elem_of_fmap in Hin. destruct Hin as ([k a] & -> & Hin).
      rewrite (insert_rows_lookup_row rows ∅ k a Hnodup Hin). simpl.
      split; [intros _; right; apply list_elem_of_fmap; exists (k, a); auto | eauto].
    + rewrite insert_rows_lookup_other, lookup_empty by assumption.
      destruct (decide (c ∈ creators)) as [Hin|Hnotin'].
      * split; [auto | eauto].
      * split; [intros [x Hx]; discriminate | tauto].
Qed.

End CreatorAccuracy.

(** ** getTickerConfidenceScore *)

Section TickerScore.

Variable e : Engine.
Variable ticker : string.

Lemma FetchCreatorAccuracy_trace (d : DB) (creators : list string) (tr : list Event) :
  FetchCreatorAccuracy d creators tr =
  (result (FetchCreatorAccuracy d creators),
   tr ++ events (FetchCreatorAccuracy d creators)).
Proof.
  unfold result, events, FetchCreatorAccuracy, bind, emit, ret.
  destruct (length creators =? 0)%nat; simpl; [rewrite app_nil_r; reflexivity|].
  destruct (creatorAccuracy d creators); reflexivity.
Qed.

(** The score is that of [tickerInputs] under the default weights, the
    error is nil, and the trace grows by the four queries and by what
    [FetchCreatorAccuracy] sends. *)
Lemma getTickerConfidenceScore_run (tr : list Event) :
  getTickerConfidenceScore e ticker tr =
  ((CalculateConfidence (tickerInputs (db e) ticker) DefaultWeights, None),
   tr ++ tickerQueries ticker ++
     events (FetchCreatorAccuracy (db e) (creatorsOf (db e) ticker))).
Proof.
  unfold getTickerConfidenceScore, bind at 1 2 3 4 5. unfold emit.
  unfold tickerInputs, signalsOf, creatorsOf, sentimentsOf, technicalRowOf,
    marketRowOf, avgVolumeOf.
  destruct (marketData (db e) ticker) as [cols|err];
    [destruct (scanMarket cols) as [price volume]|]; simpl;
    unfold bind; rewrite FetchCreatorAccuracy_trace;
    destruct (result (FetchCreatorAccuracy _ _)) as [rates err'];
    unfold ret, tickerQueries; simpl; rewrite <- !app_assoc; reflexivity.
Qed.

Lemma sentiment_rows_keys (rows : list (string * string)) : forall (m : gmap string string) c,
  is_Some (fold_left (fun (m : gmap string string) r => <[r.1 := r.2]> m) rows m !! c) <->
  c ∈ rows.*1 \/ is_Some (m !! c).
Proof.
  induction rows as [|[k v] rows IH]; intros m c; simpl.
  - rewrite elem_of_nil. tauto.
  - rewrite IH, elem_of_cons. simpl.
    destruct (decide (c = k)) as [->|Hne].
    + rewrite lookup_insert_eq. split; [auto | intros _; right; eauto].
    + rewrite lookup_insert_ne by congruence. tauto.
Qed.

Lemma creatorsOf_spec :
  NoDup (creatorsOf (db e) ticker) /\
  (forall c, c ∈ creatorsOf (db e) ticker <->
             c ∈ (default [] (creatorContent (db e) ticker)).*1) /\
  (creatorsOf (db e) ticker = [] <-> default [] (creatorContent (db e) ticker) = []).
Proof.
  unfold creatorsOf.
  assert (Hkeys : forall c, c ∈ (map_to_list (sentimentsOf (db e) ticker)).*1 <->
                            c ∈ (default [] (creatorContent (db e) ticker)).*1).
  { intros c. rewrite list_elem_of_fmap. split.
    - intros ([k v] & -> & Hin). apply elem_of_map_to_list in Hin. simpl.
      unfold sentimentsOf in Hin.
      destruct (creatorContent (db e) ticker) as [rows|]; simpl.
      + assert (Hsome : is_Some (fold_left
                  (fun (m : gmap string string) r => <[r.1 := r.2]> m) rows ∅ !! k))
          by eauto.
        apply sentiment_rows_keys in Hsome. destruct Hsome as [Hrow|[x Hx]];
          [exact Hrow | rewrite lookup_empty in Hx; discriminate].
      + rewrite lookup_empty in Hin. discriminate.
    - intros Hin. unfold sentimentsOf.
      destruct (creatorContent (db e) ticker) as [rows|]; simpl in Hin;
        [|apply elem_of_nil in Hin; contradiction].
      assert (Hsome : is_Some (fold_left
                (fun (m : gmap string string) r => <[r.1 := r.2]> m) rows ∅ !! c))
        by (apply sentiment_rows_keys; auto).
      destruct Hsome as [v Hv]. exists (c, v). split; [reflexivity|].
      apply elem_of_map_to_list. exact Hv. }
  split; [apply NoDup_fst_map_to_list|]. split; [exact Hkeys|].
  split.
  - intros Hnil.
    destruct (default [] (creatorContent (db e) ticker)) as [|[k v] rows] eqn:Hrows;
      [reflexivity|].
    assert (Hin : k ∈ (map_to_list (sentimentsOf (db e) ticker)).*1)
      by (apply Hkeys; simpl; apply elem_of_cons; auto).
    rewrite Hnil in Hin. apply elem_of_nil in Hin. contradiction.
  - intros Hnil.
    destruct ((map_to_list (sentimentsOf (db e) ticker)).*1) as [|k ks] eqn:Hks;
      [reflexivity|].
    assert (Hin : k ∈ (default [] (creatorContent (db e) ticker)).*1)
      by (apply Hkeys; apply elem_of_cons; auto).
    rewrite Hnil in Hin. apply elem_of_nil in Hin. contradiction.
Qed.

(** X13. Scoring a ticker never fails and sends, in this order, the four
    per-ticker queries (creator content, technical indicators, market data,
    average volume); the accuracy query follows exactly when at least one
    creator row was read, and it asks for each of those creators once. *)
Theorem ticker_score_queries (tr : list Event) :
  let run := getTickerConfidenceScore e ticker tr in
  let rows := default [] (creatorContent (db e) ticker) in
  snd (fst run) = None /\
  (rows = [] -> snd run = tr ++ tickerQueries ticker) /\
  (rows <> [] ->
     exists creators,
       snd run = tr ++ tickerQueries ticker ++ [EvQuery (QCreatorAccuracy creators)] /\
       creators <> [] /\ NoDup creators /\
       (forall c, c ∈ creators <-> c ∈ rows.*1)).
Proof.
  cbv zeta. rewrite getTickerConfidenceScore_run. cbn [fst snd].
  destruct creatorsOf_spec as (Hnodup & Hkeys & Hnil).
  split; [reflexivity|]. split.
  - intros Hrows. apply Hnil in Hrows. rewrite Hrows.
    change (events (FetchCreatorAccuracy (db e) [])) with (@nil Event).
    rewrite app_nil_r. reflexivity.
  - intros Hrows. exists (creatorsOf (db e) ticker).
    assert (Hne : creatorsOf (db e) ticker <> []) by (rewrite Hnil; exact Hrows).
    repeat split; try assumption; try apply Hkeys.
    f_equal. f_equal. unfold events, FetchCreatorAccuracy, bind, emit, ret.
    destruct (creatorsOf (db e) ticker) as [|c cs]; [congruence|]. simpl.
    destruct (creatorAccuracy (db e) (c :: cs)); reflexivity.
Qed.

Lemma sentimentsOf_empty :
  default [] (creatorContent (db e) ticker) = [] -> sentimentsOf (db e) ticker = ∅.
Proof.
  unfold sentimentsOf. destruct (creatorContent (db e) ticker) as [rows|]; simpl;
    [intros ->|]; reflexivity.
Qed.

(** A NULL in the first column leaves [rsi] invalid, whatever the scan
    does with the columns after it. *)
Lemma scanTechnical_null_rsi (cols : TechnicalColumns) :
  col_rsi_14 cols = Null -> rsi_14 (scanTechnical cols) = None.
Proof.
  intros Hnull. unfold scanTechnical. rewrite Hnull. simpl.
  destruct (scanNull 0 (col_sma_50 cols)) as [sma50 ok1].
  destruct (scanNext 0 ok1 (col_sma_200 cols)) as [sma200 ok2].
  destruct (scanNext 0 ok2 (col_macd cols)) as [macd ok3].
  destruct (scanNext 0 ok3 (col_macd_signal cols)) as [macdSignal ok4].
  reflexivity.
Qed.

(** The RSI is read first: what the later columns hold does not change
    it. *)
Lemma scanTechnical_rsi (cols : TechnicalColumns) :
  rsi_14 (scanTechnical cols) = fst (scanNull 0 (col_rsi_14 cols)).
Proof.
  unfold scanTechnical.
  destruct (scanNull 0 (col_rsi_14 cols)) as [rsi ok0].
  destruct (scanNext 0 ok0 (col_sma_50 cols)) as [sma50 ok1].
  destruct (scanNext 0 ok1 (col_sma_200 cols)) as [sma200 ok2].
  destruct (scanNext 0 ok2 (col_macd cols)) as [macd ok3].
  destruct (scanNext 0 ok3 (col_macd_signal cols)) as [macdSignal ok4].
  reflexivity.
Qed.

(** A scan that fails at [sma_50] keeps the RSI it has read, leaves
    [sma50] valid at zero and does not touch the columns after it. *)
Lemma scanTechnical_stops_at_sma50 (cols : TechnicalColumns) (rsi : float64) :
  col_rsi_14 cols = Value rsi -> col_sma_50 cols = Unconvertible ->
  scanTechnical cols =
    {| rsi_14 := Some rsi; sma_50 := Some 0; sma_200 := None;
       macd := None; macd_signal := None |}.
Proof. intros Hrsi Hsma. unfold scanTechnical. rewrite Hrsi, Hsma. reflexivity. Qed.

Lemma signalsOf_null_rsi :
  (forall cols, technicalIndicators (db e) ticker = Row cols -> col_rsi_14 cols = Null) ->
  signalsOf (db e) ticker = [].
Proof.
  intros Hnull. unfold signalsOf, technicalRowOf.
  destruct (technicalIndicators (db e) ticker) as [cols|err].
  - rewrite (scanTechnical_null_rsi cols (Hnull cols eq_refl)). reflexivity.
  - reflexivity.
Qed.

Lemma avgVolumeOf_nonpos :
  (forall v, volumeAvg20 (db e) ticker = Row (Value v) -> (v <= 0)%Z) ->
  (Int64 (avgVolumeOf (db e) ticker) <= 0)%Z.
Proof.
  intros Hv. unfold avgVolumeOf.
  destruct (volumeAvg20 (db e) ticker) as [[|v|]|err]; simpl; try lia.
  apply Hv. reflexivity.
Qed.

(** X14. A ticker with nothing behind it is still scored, without
    error: when no creator row is read, the indicator query yields no row
    or a row whose RSI column is NULL, and the average-volume query yields
    no row or a value that is not positive (a value that does not convert
    leaves 0), the overall score is 0.2 and the direction neutral. The
    allocator then buys a core ticker at a quarter of its base amount and
    lets any other ticker wait. A row whose scan fails after the RSI was
    read is not such a ticker: its RSI column is a value. *)
Theorem ticker_without_data (tr : list Event) (budget : float64) (regime : MarketRegime) :
  default [] (creatorContent (db e) ticker) = [] ->
  (forall cols, technicalIndicators (db e) ticker = Row cols -> col_rsi_14 cols = Null) ->
  (forall v, volumeAvg20 (db e) ticker = Row (Value v) -> (v <= 0)%Z) ->
  let run := fst (getTickerConfidenceScore e ticker tr) in
  let allocation := calculateAllocation e ticker (fst run) budget regime in
  snd run = None /\
  Overall (fst run) == 0.2 /\
  Direction (fst run) = "neutral"%string /\
  (forall base, coreHoldings !! ticker = Some base ->
     Action allocation = "buy"%string /\ Amount allocation == budget * base * 0.25) /\
  (coreHoldings !! ticker = None ->
     Action allocation = "wait"%string /\ Amount allocation == 0).
Proof.
  intros Hrows Hrsi Hvol. cbv zeta.
  rewrite getTickerConfidenceScore_run. cbn [fst snd].
  set (inputs := tickerInputs (db e) ticker).
  assert (Hm : CreatorSentiments inputs = ∅) by (apply sentimentsOf_empty; exact Hrows).
  assert (Hs : TechnicalSignals inputs = []) by (apply signalsOf_null_rsi; exact Hrsi).
  assert (Hv : (AvgVolume inputs <= 0)%Z) by (apply avgVolumeOf_nonpos; exact Hvol).
  assert (Hr : CreatorAccuracyRates inputs = ∅).
  { unfold inputs, tickerInputs, creatorsOf. simpl.
    change (sentimentsOf (db e) ticker) with (CreatorSentiments inputs).
    rewrite Hm, map_to_list_empty. reflexivity. }
  destruct (no_data_fields inputs DefaultWeights Hm Hs Hv Hr) as (Hd & Hc & Ht & Hvc & Hh).
  destruct (CalculateConfidence_fields inputs DefaultWeights) as (_ & _ & _ & _ & _ & Ho).
  set (score := CalculateConfidence inputs DefaultWeights) in *.
  assert (Hoverall : Overall score == 0.2).
  { rewrite Ho, Hc, Ht, Hvc, Hh. reflexivity. }
  split; [reflexivity|]. split; [exact Hoverall|]. split; [exact Hd|].
  unfold calculateAllocation. split.
  - intros base Hcore. rewrite Hcore.
    cmp_case; [simpl; split; [reflexivity | reflexivity] | lra].
  - intros Hsat. rewrite Hsat.
    cmp_case; [simpl; split; reflexivity | lra].
Qed.

(** X15. Technical signals are derived only when the RSI column is not
    null: when the indicator query yields no row, or a row whose RSI column
    is NULL, the technical alignment of the score is 0, whatever the SMA
    and MACD columns and the price hold and whether or not the rest of the
    row scans. *)
Theorem null_rsi_no_alignment (tr : list Event) :
  (forall cols, technicalIndicators (db e) ticker = Row cols -> col_rsi_14 cols = Null) ->
  TechnicalAlignment (fst (fst (getTickerConfidenceScore e ticker tr))) == 0.
Proof.
  intros Hrsi. rewrite getTickerConfidenceScore_run. cbn [fst].
  destruct (CalculateConfidence_fields (tickerInputs (db e) ticker) DefaultWeights)
    as (_ & _ & Ht & _).
  rewrite Ht. simpl TechnicalSignals. rewrite (signalsOf_null_rsi Hrsi).
  unfold technicalAlignment. destruct (countLabels []). reflexivity.
Qed.

Lemma sum_const (r : float64) (rates : list float64) : forall acc,
  Forall (fun v => v == r) rates ->
  fold_left Qplus rates acc == acc + r * ofInt (length rates).
Proof.
  induction rates as [|v rates IH]; intros acc Hall; simpl.
  - change (ofInt 0) with 0. ring.
  - inversion Hall as [|? ? Hv Hrest]; subst.
    rewrite (IH _ Hrest), Hv.
    assert (Hlen : ofInt (S (length rates)) == ofInt (length rates) + 1).
    { unfold ofInt. rewrite Nat2Z.inj_succ, <- Z.add_1_r, inject_Z_plus. reflexivity. }
    rewrite Hlen. ring.
Qed.

(** The mean of rates that are all [r] is [r]; so is the default when
    there is no rate and [r] is 0.5. *)
Lemma historicalAccuracy_const (rates : gmap string float64) :
  map_Forall (fun _ v => v == 0.5) rates -> historicalAccuracy rates == 0.5.
Proof.
  intros Hall. unfold historicalAccuracy.
  destruct (Nat.ltb_spec 0 (size rates)) as [Hpos|_]; [|reflexivity].
  assert (Hvals : Forall (fun v => v == 0.5) (map_to_list rates).*2).
  { apply map_Forall_to_list in Hall. apply Forall_fmap.
    eapply Forall_impl; [exact Hall|]. intros [k v] Hv. exact Hv. }
  rewrite (sum_const 0.5 _ 0.0 Hvals), length_fmap, length_map_to_list.
  pose proof (ofInt_pos _ Hpos) as Hn.
  assert (Hne : ~ ofInt (size rates) == 0)
    by (apply Qnot_eq_sym, Qlt_not_eq; exact Hn).
  field. exact Hne.
Qed.

Lemma insert_rows_lookup_inv (rows : list (string * float64)) : forall m c a,
  fold_left insertRow rows m !! c = Some a -> (c, a) ∈ rows \/ m !! c = Some a.
Proof.
  induction rows as [|[k b] rows IH]; intros m c a Hlook; simpl in *; [auto|].
  apply IH in Hlook. destruct Hlook as [Hin|Hlook].
  - left. apply elem_of_cons. auto.
  - unfold insertRow in Hlook. simpl in Hlook.
    destruct (decide (c = k)) as [->|Hne].
    + rewrite lookup_insert_eq in Hlook. injection Hlook as ->.
      left. apply elem_of_cons. auto.
    + rewrite lookup_insert_ne in Hlook by congruence. auto.
Qed.

(** Every rate [FetchCreatorAccuracy] returns is a rate of a row or the
    default. *)
Lemma FetchCreatorAccuracy_values (d : DB) (creators : list string) (P : float64 -> Prop) :
  P 0.5 ->
  (forall rows, creatorAccuracy d creators = Row rows -> Forall (fun r => P r.2) rows) ->
  map_Forall (fun _ v => P v) (fst (result (FetchCreatorAccuracy d creators))).
Proof.
  intros Hdefault Hrows.
  destruct creators as [|c0 cs] eqn:Hcs; [apply map_Forall_empty|]. rewrite <- Hcs in *.
  assert (Hne : creators <> []) by (rewrite Hcs; discriminate).
  destruct (creatorAccuracy d creators) as [rows|err] eqn:Hq.
  - unfold result. rewrite (FetchCreatorAccuracy_rows d creators rows [] Hne Hq).
    cbn [fst]. intros c a Hlook. rewrite default_rates_lookup in Hlook.
    destruct (fold_left insertRow rows ∅ !! c) as [b|] eqn:Hrow.
    + injection Hlook as <-. apply insert_rows_lookup_inv in Hrow.
      destruct Hrow as [Hin|Hempty]; [|rewrite lookup_empty in Hempty; discriminate].
      specialize (Hrows rows eq_refl). rewrite Forall_forall in Hrows.
      exact (Hrows (c, b) Hin).
    + destruct (decide (c ∈ creators)); [|discriminate].
      injection Hlook as <-. exact Hdefault.
  - unfold result, FetchCreatorAccuracy, bind, emit, ret. rewrite Hcs. simpl.
    rewrite <- Hcs, Hq. apply map_Forall_empty.
Qed.

(** X16. When the accuracy query fails, or finds no history for any of
    the creators, scoring goes on without error and the historical accuracy
    of the score is the default 0.5. *)
Theorem accuracy_default_half (tr : list Event) :
  (forall creators rows, creatorAccuracy (db e) creators = Row rows -> rows = []) ->
  let run := fst (getTickerConfidenceScore e ticker tr) in
  snd run = None /\ HistoricalAccuracy (fst run) == 0.5.
Proof.
  intros Hnone. cbv zeta. rewrite getTickerConfidenceScore_run. cbn [fst snd].
  split; [reflexivity|].
  destruct (CalculateConfidence_fields (tickerInputs (db e) ticker) DefaultWeights)
    as (_ & _ & _ & _ & Hh & _).
  rewrite Hh. apply historicalAccuracy_const. simpl CreatorAccuracyRates.
  apply (FetchCreatorAccuracy_values (db e) _ (fun v => v == 0.5)); [reflexivity|].
  intros rows Hq. rewrite (Hnone _ _ Hq). constructor.
Qed.

(** X17. If every rate the accuracy query yields lies in [0,1], every
    score the engine computes has its four components and its overall
    value in [0,1]. *)
Theorem engine_score_unit (tr : list Event) :
  (forall creators rows, creatorAccuracy (db e) creators = Row rows ->
     Forall (fun r => 0 <= r.2 <= 1) rows) ->
  let s := fst (fst (getTickerConfidenceScore e ticker tr)) in
  0 <= Overall s <= 1 /\
  0 <= CreatorConsensus s <= 1 /\ 0 <= TechnicalAlignment s <= 1 /\
  0 <= VolumeConfirmation s <= 1 /\ 0 <= HistoricalAccuracy s <= 1.
Proof.
  intros Hrates. cbv zeta. rewrite getTickerConfidenceScore_run. cbn [fst].
  set (inputs := tickerInputs (db e) ticker).
  destruct (CalculateConfidence_fields inputs DefaultWeights)
    as (Hc & _ & Ht & Hv & Hh & Ho).
  set (s := CalculateConfidence inputs DefaultWeights) in *.
  assert (Hc' : 0 <= CreatorConsensus s <= 1)
    by (rewrite Hc; apply creatorConsensus_unit).
  assert (Ht' : 0 <= TechnicalAlignment s <= 1)
    by (rewrite Ht; apply technicalAlignment_unit).
  assert (Hv' : 0 <= VolumeConfirmation s <= 1)
    by (rewrite Hv; apply volumeConfirmation_unit).
  assert (Hh' : 0 <= HistoricalAccuracy s <= 1).
  { rewrite Hh. apply historicalAccuracy_unit. simpl CreatorAccuracyRates.
    apply (FetchCreatorAccuracy_values (db e) _ (fun v => 0 <= v <= 1)); [lra|].
    intros rows Hq. exact (Hrates _ _ Hq). }
  rewrite Ho. simpl wCreatorConsensus. simpl wTechnicalAlignment.
  simpl wVolumeConfirmation. simpl wHistoricalAccuracy.
  repeat split; lra.
Qed.

End TickerScore.

(** ** GenerateRecommendations, further *)

Section Batch.

Variable e : Engine.
Variable budget : float64.

Lemma recommendTickers_run regime vix (tickers : list string) :
  forall recommendations tr,
  fst (recommendTickers e budget regime vix tickers recommendations tr) =
  recommendations ++ map (tickerRecommendation e budget regime vix) tickers.
Proof.
  induction tickers as [|ticker rest IH]; intros recommendations tr; simpl.
  - rewrite app_nil_r. reflexivity.
  - unfold bind at 1. rewrite getTickerConfidenceScore_run.
    rewrite IH, <- app_assoc. reflexivity.
Qed.

Lemma getTrackedTickers_run tr :
  fst (getTrackedTickers e tr) =
  match trackedTickersConfig (db e) with
  | ScanErr ErrNoRows | Row _ => (defaultTickers, None)
  | ScanErr err => ([], Some (Errorf "query config" err))
  end.
Proof.
  unfold getTrackedTickers, bind, emit, ret.
  destruct (trackedTickersConfig (db e)) as [v|[]]; reflexivity.
Qed.

(** The three outcomes of a run. *)
Lemma GenerateRecommendations_run tr :
  fst (GenerateRecommendations e budget tr) =
  let '(regime, vix) := regimeInUse e in
  if regime_eqb regime RegimeVolatile then
    ([{| rTicker := EmptyString; rAction := "wait"; rAmount := 0;
         rConfidenceScore := 0;
         rReasoning :=
           Sprintf "High volatility detected (VIX: %.2f). Wait 2-3 days for market to stabilize."
             [vix];
         rMarketRegime := regime; rVIXLevel := vix |}], None)
  else
    match trackedTickersConfig (db e) with
    | ScanErr ErrNoRows | Row _ =>
        (map (tickerRecommendation e budget regime vix) defaultTickers, None)
    | ScanErr err =>
        ([], Some (Errorf "get tracked tickers" (Errorf "query config" err)))
    end.
Proof.
  unfold GenerateRecommendations, regimeInUse.
  unfold bind at 1 2. unfold emit at 1.
  rewrite detectMarketRegime_trace.
  destruct (result (detectMarketRegime e)) as [[detected level] err]. cbn [fst snd].
  destruct err as [err|].
  - unfold bind at 1 2. unfold emit at 1. unfold ret at 1.
    change (regime_eqb RegimeCalm RegimeVolatile) with false. cbv iota.
    unfold bind at 1. unfold emit at 1. unfold bind at 1.
    match goal with
    | |- context [getTrackedTickers e ?t] =>
        pose proof (getTrackedTickers_run t) as Htracked;
        destruct (getTrackedTickers e t) as [[tickers terr] tr3]
    end. cbn [fst] in Htracked.
    destruct (trackedTickersConfig (db e)) as [v|[]]; injection Htracked as -> ->;
      try reflexivity;
      unfold bind, ret;
      pose proof (recommendTickers_run RegimeCalm 0 defaultTickers [] tr3) as Hloop;
      destruct (recommendTickers e budget RegimeCalm 0 defaultTickers [] tr3)
        as [recs tr4]; cbn [fst] in Hloop; rewrite Hloop; reflexivity.
  - unfold bind at 1. unfold ret at 1. unfold bind at 1. unfold emit at 1.
    destruct (regime_eqb detected RegimeVolatile); [reflexivity|].
    unfold bind at 1.
    match goal with
    | |- context [getTrackedTickers e ?t] =>
        pose proof (getTrackedTickers_run t) as Htracked;
        destruct (getTrackedTickers e t) as [[tickers terr] tr3]
    end. cbn [fst] in Htracked.
    destruct (trackedTickersConfig (db e)) as [v|[]]; injection Htracked as -> ->;
      try reflexivity;
      unfold bind, ret;
      pose proof (recommendTickers_run detected level defaultTickers [] tr3) as Hloop;
      destruct (recommendTickers e budget detected level defaultTickers [] tr3)
        as [recs tr4]; cbn [fst] in Hloop; rewrite Hloop; reflexivity.
Qed.

(** The amount of a core ticker, between a quarter of the base amount
    and 1.1 times it. *)
Lemma core_amount_range (ticker : string) (base : float64) (score : ConfidenceScore)
    (regime : MarketRegime) :
  0 <= budget ->
  coreHoldings !! ticker = Some base ->
  let r := calculateAllocation e ticker score budget regime in
  Action r = "buy"%string /\
  budget * base * 0.25 <= Amount r /\ Amount r <= budget * base * 1.1 /\
  (regime <> RegimeBullish -> Amount r <= budget * base).
Proof.
  intros Hbudget Hcore r. subst r. unfold calculateAllocation. rewrite Hcore.
  pose proof (coreHoldings_base _ _ Hcore) as Hbase.
  assert (Hb : 0 <= budget * base) by nra.
  generalize dependent (budget * base). intros b Hb.
  destruct regime; simpl; repeat cmp_case; simpl;
    repeat split; intros; try congruence; lra.
Qed.

Lemma config_query_cases :
  (configQueryFails (db e) /\
   exists err, trackedTickersConfig (db e) = ScanErr err /\ err <> ErrNoRows) \/
  (~ configQueryFails (db e) /\
   (trackedTickersConfig (db e) = ScanErr ErrNoRows \/
    exists v, trackedTickersConfig (db e) = Row v)).
Proof.
  unfold configQueryFails.
  destruct (trackedTickersConfig (db e)) as [v|[| msg | ctx cause]] eqn:Hq.
  - right. split; [intros (err & Herr & _); discriminate | eauto].
  - right. split; [intros (err & Herr & Hne); injection Herr as <-; congruence | auto].
  - left. split; exists (ErrDB msg); split; congruence.
  - left. split; exists (Errorf ctx cause); split; congruence.
Qed.

(** X18. A run of [GenerateRecommendations] ends in one of three ways.
    In a volatile regime: one recommendation, which waits. Otherwise, when
    the tracked-tickers query fails for another reason than a missing row:
    an error and no recommendation. Otherwise: no error and one
    recommendation for each of SPY, QQQ, VOO and VTI, in this order and
    whatever the stored list of tickers says; each of them buys and carries
    the regime and the VIX level of the run. *)
Theorem recommendations_outcomes (tr : list Event) :
  let out := fst (GenerateRecommendations e budget tr) in
  let regime := fst (regimeInUse e) in
  let vix := snd (regimeInUse e) in
  (regime = RegimeVolatile ->
     exists rec, out = ([rec], None) /\ rAction rec = "wait"%string /\
                 rMarketRegime rec = RegimeVolatile /\ rVIXLevel rec = vix) /\
  (regime <> RegimeVolatile -> configQueryFails (db e) ->
     exists err, out = ([], Some err)) /\
  (regime <> RegimeVolatile -> ~ configQueryFails (db e) ->
     snd out = None /\
     map rTicker (fst out) = ["SPY"; "QQQ"; "VOO"; "VTI"]%string /\
     Forall (fun rec => rAction rec = "buy"%string /\ rMarketRegime rec = regime /\
                        rVIXLevel rec = vix) (fst out)).
Proof.
  cbv zeta. rewrite GenerateRecommendations_run.
  destruct (regimeInUse e) as [regime vix]. cbn [fst snd].
  split; [|split].
  - intros ->. simpl. eexists. split; [reflexivity|]. simpl. auto.
  - intros Hcalm (err & Hq & Hne).
    assert (Heqb : regime_eqb regime RegimeVolatile = false)
      by (destruct regime; try reflexivity; congruence).
    rewrite Heqb, Hq. destruct err; [congruence | eauto..].
  - intros Hcalm Hconfig.
    assert (Heqb : regime_eqb regime RegimeVolatile = false)
      by (destruct regime; try reflexivity; congruence).
    rewrite Heqb.
    assert (Hdefault :
      match trackedTickersConfig (db e) with
      | ScanErr ErrNoRows | Row _ =>
          (map (tickerRecommendation e budget regime vix) defaultTickers, None)
      | ScanErr err =>
          ([], Some (Errorf "get tracked tickers" (Errorf "query config" err)))
      end = (map (tickerRecommendation e budget regime vix) defaultTickers, @None error)).
    { destruct config_query_cases as [[Hfail _]|[_ [Hq|[v Hq]]]];
        [contradiction | rewrite Hq; reflexivity..]. }
    rewrite Hdefault. cbn [fst snd].
    split; [reflexivity|]. split; [reflexivity|].
    unfold defaultTickers. simpl map.
    repeat constructor; simpl;
      match goal with
      | |- Action (calculateAllocation e ?t ?s budget regime) = _ =>
          unfold calculateAllocation;
          change (coreHoldings !! t) with (Some 0.40) ||
          change (coreHoldings !! t) with (Some 0.30) ||
          change (coreHoldings !! t) with (Some 0.20) ||
          change (coreHoldings !! t) with (Some 0.10);
          repeat match goal with
                 | |- context [if ?c then _ else _] => destruct c
                 end; reflexivity
      end.
Qed.

(** The total over the four default tickers. *)
Lemma default_tickers_total regime vix :
  0 <= budget ->
  let total := totalAmount (map (tickerRecommendation e budget regime vix) defaultTickers) in
  0.25 * budget <= total /\ total <= 1.1 * budget /\
  (regime <> RegimeBullish -> total <= budget).
Proof.
  intros Hbudget. cbv zeta. unfold defaultTickers, totalAmount. simpl.
  set (s1 := CalculateConfidence (tickerInputs (db e) "SPY") DefaultWeights).
  set (s2 := CalculateConfidence (tickerInputs (db e) "QQQ") DefaultWeights).
  set (s3 := CalculateConfidence (tickerInputs (db e) "VOO") DefaultWeights).
  set (s4 := CalculateConfidence (tickerInputs (db e) "VTI") DefaultWeights).
  destruct (core_amount_range "SPY" 0.40 s1 regime Hbudget eq_refl) as (_ & L1 & U1 & B1).
  destruct (core_amount_range "QQQ" 0.30 s2 regime Hbudget eq_refl) as (_ & L2 & U2 & B2).
  destruct (core_amount_range "VOO" 0.20 s3 regime Hbudget eq_refl) as (_ & L3 & U3 & B3).
  destruct (core_amount_range "VTI" 0.10 s4 regime Hbudget eq_refl) as (_ & L4 & U4 & B4).
  repeat split; intros; try lra.
  specialize (B1 ltac:(assumption)). specialize (B2 ltac:(assumption)).
  specialize (B3 ltac:(assumption)). specialize (B4 ltac:(assumption)). lra.
Qed.

(** X19. For a budget that is not negative, the amounts of a run add up
    to at most 1.1 times the budget, and to at most the budget unless the
    regime is bullish; they add up to at least a quarter of the budget
    whenever the run returns the per-ticker recommendations. *)
Theorem recommendations_total (tr : list Event) :
  0 <= budget ->
  let out := fst (GenerateRecommendations e budget tr) in
  let regime := fst (regimeInUse e) in
  0 <= totalAmount (fst out) /\
  totalAmount (fst out) <= 1.1 * budget /\
  (regime <> RegimeBullish -> totalAmount (fst out) <= budget) /\
  (regime <> RegimeVolatile -> snd out = None ->
     0.25 * budget <= totalAmount (fst out)).
Proof.
  intros Hbudget. cbv zeta. rewrite GenerateRecommendations_run.
  destruct (regimeInUse e) as [regime vix]. cbn [fst snd].
  destruct (default_tickers_total regime vix Hbudget) as (Hlow & Hhigh & Hcalm).
  destruct (regime_eqb regime RegimeVolatile) eqn:Hvol.
  - apply regime_eqb_eq in Hvol. subst regime. unfold totalAmount. simpl.
    repeat split; intros; try congruence; lra.
  - set (total := totalAmount
                     (map (tickerRecommendation e budget regime vix) defaultTickers)) in *.
    change (totalAmount []) with 0.
    destruct (trackedTickersConfig (db e)) as [v|[]]; cbn [fst snd];
      fold total; clearbody total; change (totalAmount []) with 0;
      repeat split; intros; try discriminate; try lra;
      try (specialize (Hcalm ltac:(assumption)); lra).
Qed.

(** X20. When the VIX query fails for another reason than a missing
    row, the run does not stop: it goes on with a calm regime and a VIX
    level of 0, whatever the SPY RSI is, and every recommendation it returns
    carries them. *)
Theorem detection_failure_falls_back (tr : list Event) :
  (exists err, vixClose (db e) = ScanErr err /\ err <> ErrNoRows) ->
  regimeInUse e = (RegimeCalm, 0) /\
  Forall (fun rec => rMarketRegime rec = RegimeCalm /\ rVIXLevel rec = 0)
    (fst (fst (GenerateRecommendations e budget tr))) /\
  (~ configQueryFails (db e) ->
     snd (fst (GenerateRecommendations e budget tr)) = None /\
     length (fst (fst (GenerateRecommendations e budget tr))) = 4%nat).
Proof.
  intros (err & Hq & Hne).
  assert (Hregime : regimeInUse e = (RegimeCalm, 0)).
  { unfold regimeInUse, result, detectMarketRegime, bind, emit, ret. rewrite Hq.
    destruct err; [congruence | reflexivity..]. }
  split; [exact Hregime|].
  rewrite GenerateRecommendations_run, Hregime.
  change (regime_eqb RegimeCalm RegimeVolatile) with false. cbv iota.
  split.
  - destruct (trackedTickersConfig (db e)) as [v|[]]; cbn [fst];
      try constructor; unfold defaultTickers; simpl map;
      repeat constructor.
  - intros Hconfig.
    destruct config_query_cases as [[Hfail _]|[_ [Hrow|[v Hrow]]]];
      [contradiction | rewrite Hrow; split; reflexivity..].
Qed.

End Batch.

Lemma recommendations_outcomes_witness :
  map rTicker (fst (fst (GenerateRecommendations (defaultEngine emptyDB) 1000 []))) =
  ["SPY"; "QQQ"; "VOO"; "VTI"]%string.
Proof.
  destruct (recommendations_outcomes (defaultEngine emptyDB) 1000 [])
    as (_ & _ & Hok).
  apply Hok.
  - vm_compute. discriminate.
  - intros (err & Hq & Hne). vm_compute in Hq. injection Hq as <-. congruence.
Defined.

Lemma recommendations_total_witness :
  totalAmount (fst (fst (GenerateRecommendations (defaultEngine emptyDB) 1000 []))) <=
  1.1 * 1000.
Proof.
  destruct (recommendations_total (defaultEngine emptyDB) 1000 [] ltac:(lra))
    as (_ & Hhigh & _).
  exact Hhigh.
Defined.

Lemma detection_failure_falls_back_witness :
  regimeInUse (defaultEngine vixQueryBroken) = (RegimeCalm, 0).
Proof.
  apply (detection_failure_falls_back (defaultEngine vixQueryBroken) 1000 []).
  exists (ErrDB "connection reset"). split; [reflexivity | discriminate].
Defined.

(** ** The market store *)

Section MarketStore.

Context {St : Type}.
Variable exec : St -> MarketData -> option error * St.

Lemma saveOne_fold (entries : list (string * MarketData)) :
  forall saved errors st,
  let out := fold_left (saveOne exec) entries (saved, errors, st) in
  (fst (fst out) + length (snd (fst out)) =
     saved + length errors + length entries)%nat.
Proof.
  induction entries as [|[ticker data] entries IH]; intros saved errors st;
    cbv zeta; cbn [fold_left].
  - simpl. lia.
  - assert (Hstep : saveOne exec (saved, errors, st) (ticker, data) =
                    match exec st data with
                    | (Some cause, st') =>
                        (saved, errors ++ [Errorf ticker (Errorf "save market data" cause)], st')
                    | (None, st') => (S saved, errors, st')
                    end).
    { unfold saveOne, SaveMarketData. simpl.
      destruct (exec st data) as [[cause|] st']; reflexivity. }
    rewrite Hstep. clear Hstep.
    destruct (exec st data) as [[cause|] st'].
    + pose proof (IH saved (errors ++ [Errorf ticker (Errorf "save market data" cause)]) st')
        as H. cbv zeta in H. rewrite H, length_app. simpl. lia.
    + pose proof (IH (S saved) errors st') as H. cbv zeta in H. rewrite H. simpl. lia.
Qed.

(** Whatever the database answers, every entry is counted once. *)
Lemma SaveMultiple_total (dataMap : gmap string MarketData) (st : St) :
  let out := SaveMultiple exec dataMap st in
  (fst (fst out) + length (snd (fst out)) = size dataMap)%nat.
Proof.
  cbv zeta. unfold SaveMultiple.
  pose proof (saveOne_fold (map_to_list dataMap) 0%nat [] st) as H. cbv zeta in H.
  rewrite H, length_map_to_list. simpl. lia.
Qed.

End MarketStore.

Section RecordedInserts.

Variable rejects : MarketData -> option error.

Lemma saveOne_recorded (entries : list (string * MarketData)) :
  forall saved errors attempts,
  fold_left (saveOne (recordInsert rejects)) entries (saved, errors, attempts) =
    ((saved + length (filter (fun entry => rejects entry.2 = None) entries))%nat,
     errors ++ omap (saveError rejects) entries,
     attempts ++ entries.*2).
Proof.
  induction entries as [|[ticker data] entries IH]; intros saved errors attempts.
  - simpl. rewrite Nat.add_0_r, !app_nil_r. reflexivity.
  - cbn [fold_left].
    assert (Hstep : saveOne (recordInsert rejects) (saved, errors, attempts) (ticker, data) =
                    match rejects data with
                    | Some cause =>
                        (saved, errors ++ [Errorf ticker (Errorf "save market data" cause)],
                         attempts ++ [data])
                    | None => (S saved, errors, attempts ++ [data])
                    end).
    { unfold saveOne, SaveMarketData, recordInsert. simpl.
      destruct (rejects data) as [cause|]; reflexivity. }
    rewrite Hstep. clear Hstep.
    rewrite filter_cons. cbn [fmap list_fmap fst snd].
    change (omap (saveError rejects) ((ticker, data) :: entries))
      with (match saveError rejects (ticker, data) with
            | Some err => err :: omap (saveError rejects) entries
            | None => omap (saveError rejects) entries
            end).
    unfold saveError at 1. cbn [fst snd].
    destruct (rejects data) as [cause|] eqn:Hanswer.
    + rewrite IH. rewrite decide_False by discriminate.
      rewrite <- !app_assoc. reflexivity.
    + rewrite IH. rewrite decide_True by reflexivity.
      rewrite <- !app_assoc. simpl. rewrite Nat.add_succ_r. reflexivity.
Qed.

Lemma kept_none (entries : list (string * MarketData)) :
  omap (saveError rejects) entries = [] <-> Forall (fun entry => rejects entry.2 = None) entries.
Proof.
  induction entries as [|entry entries IH]; simpl.
  - split; [constructor | reflexivity].
  - unfold saveError at 1. destruct (rejects entry.2) as [cause|] eqn:Hanswer.
    + split; [discriminate|]. intros H. inversion H; subst. congruence.
    + rewrite IH. split.
      * intros H. constructor; assumption.
      * intros H. inversion H; subst. assumption.
Qed.

(** X21. [SaveMultiple] sends one INSERT for every entry of the map, in the
    order the loop visits them, whatever the table answers: a failure does
    not stop the loop. The number saved is the number of entries whose
    INSERT the table accepts; the errors are, in the same order, one for
    each entry whose INSERT it rejects, made of the ticker of the entry and
    of the answer of the table wrapped by [SaveMarketData]. So saved plus
    the number of errors is the size of the map, and there is no error
    exactly when the table accepts every entry. *)
Theorem save_multiple_counts (dataMap : gmap string MarketData)
    (attempts : list MarketData) :
  let out := SaveMultiple (recordInsert rejects) dataMap attempts in
  let saved := fst (fst out) in
  let errors := snd (fst out) in
  let entries := map_to_list dataMap in
  snd out = attempts ++ entries.*2 /\
  saved = length (filter (fun entry => rejects entry.2 = None) entries) /\
  errors =
    omap (fun entry : string * MarketData =>
            match rejects entry.2 with
            | Some cause => Some (Errorf entry.1 (Errorf "save market data" cause))
            | None => None
            end) entries /\
  (saved + length errors = size dataMap)%nat /\
  (errors = [] <->
   forall ticker data, dataMap !! ticker = Some data -> rejects data = None).
Proof.
  cbv zeta.
  pose proof (SaveMultiple_total (recordInsert rejects) dataMap attempts) as Htotal.
  cbv zeta in Htotal. revert Htotal.
  unfold SaveMultiple. rewrite saveOne_recorded. cbn [fst snd app]. intros Htotal.
  split; [reflexivity|]. split; [reflexivity|]. split; [reflexivity|].
  split; [exact Htotal|].
  change (omap _ (map_to_list dataMap)) with (omap (saveError rejects) (map_to_list dataMap)).
  rewrite kept_none, Forall_forall. split.
  - intros Hall ticker data Hlook.
    apply (Hall (ticker, data)). apply elem_of_map_to_list. exact Hlook.
  - intros Hall [ticker data] Hin. apply (Hall ticker data).
    apply elem_of_map_to_list. exact Hin.
Qed.

End RecordedInserts.


Section Historical.

Variable query : string -> Z -> Scanned (list (Scanned MarketData) * option error).

Lemma scanHistorical_all (datas : list MarketData) : forall results,
  scanHistorical (Row <$> datas) None results = (results ++ datas, None).
Proof.
  induction datas as [|d datas IH]; intros results; simpl.
  - rewrite app_nil_r. reflexivity.
  - rewrite IH, <- app_assoc. reflexivity.
Qed.

Lemma scanHistorical_inv (rows : list (Scanned MarketData)) (iterErr : option error) :
  forall results,
  (snd (scanHistorical rows iterErr results) = None ->
     iterErr = None /\
     exists datas, rows = Row <$> datas /\
                   fst (scanHistorical rows iterErr results) = results ++ datas) /\
  (snd (scanHistorical rows iterErr results) <> None ->
     fst (scanHistorical rows iterErr results) = []).
Proof.
  induction rows as [|[d|err] rows IH]; intros results; simpl.
  - destruct iterErr as [err|]; simpl; split; intros H; try congruence.
    split; [reflexivity|]. exists []. rewrite app_nil_r. split; reflexivity.
  - destruct (IH (results ++ [d])) as [Hok Herr]. split; [|exact Herr].
    intros Hnone. destruct (Hok Hnone) as (Hiter & datas & -> & Hres).
    split; [exact Hiter|]. exists (d :: datas).
    split; [reflexivity|]. rewrite Hres, <- app_assoc. reflexivity.
  - split; [discriminate | reflexivity].
Qed.

(** X22. [GetHistorical] is all or nothing: it returns the rows, all of
    them and in the order of the query, exactly when the query succeeds,
    every row scans and the iteration reports no error; in every other case
    it returns an error and no row at all. *)
Theorem get_historical_all_or_nothing (ticker : string) (days : Z) :
  let out := GetHistorical query ticker days in
  (snd out = None <-> query ticker days = Row (Row <$> fst out, None)) /\
  (snd out <> None -> fst out = []) /\
  (forall datas, query ticker days = Row (Row <$> datas, None) -> out = (datas, None)).
Proof.
  cbv zeta. unfold GetHistorical.
  destruct (query ticker days) as [[rows iterErr]|err] eqn:Hq.
  - destruct (scanHistorical_inv rows iterErr []) as [Hok Herr].
    split; [split|split].
    + intros Hnone. destruct (Hok Hnone) as (-> & datas & -> & Hres).
      rewrite Hres. reflexivity.
    + intros Heq. injection Heq as -> ->. rewrite scanHistorical_all. reflexivity.
    + exact Herr.
    + intros datas Heq. injection Heq as -> ->. apply scanHistorical_all.
  - simpl. split; [split; discriminate|]. split; [reflexivity | discriminate].
Qed.

End Historical.

(** X23. The stored list of tracked tickers is never used: whenever
    [Engine.getTrackedTickers] or [Store.GetTrackedTickers] returns without
    error, the result is SPY, QQQ, VOO, VTI. The store's version never
    reports an error; the engine's reports one exactly when its query fails
    for another reason than a missing row, and then returns no ticker. *)
Theorem tracked_tickers_are_defaults (e : Engine) (config : Scanned string)
    (tr : list Event) :
  StoreGetTrackedTickers config = (["SPY"; "QQQ"; "VOO"; "VTI"]%string, None) /\
  (snd (fst (getTrackedTickers e tr)) = None ->
     fst (fst (getTrackedTickers e tr)) = ["SPY"; "QQQ"; "VOO"; "VTI"]%string) /\
  (snd (fst (getTrackedTickers e tr)) <> None <-> configQueryFails (db e)) /\
  (snd (fst (getTrackedTickers e tr)) <> None -> fst (fst (getTrackedTickers e tr)) = []) /\
  snd (getTrackedTickers e tr) = tr ++ [EvQuery QTrackedTickers].
Proof.
  split; [destruct config as [v|[]]; reflexivity|].
  unfold getTrackedTickers, configQueryFails, bind, emit, ret.
  destruct (trackedTickersConfig (db e)) as [v|[| msg | ctx cause]]; simpl;
    repeat split; intros; try congruence; try reflexivity;
    try (match goal with H : exists _, _ |- _ =>
           destruct H as (err & Herr & Hne); try discriminate Herr;
           injection Herr as <-; congruence end);
    try (eexists; split; [reflexivity | discriminate]).
Qed.

(** ** getPortfolioHoldings *)

(** The gain of the holding made of one row. *)
Lemma holding_gain (r : HoldingRow) (h : PortfolioHolding) :
  addHoldingRow [] (Row r) = [h] ->
  (0 < AvgCost h ->
     GainPercent h == (CurrentPrice h - AvgCost h) / AvgCost h * 100 /\
     (0 < GainPercent h <-> AvgCost h < CurrentPrice h) /\
     (0 <= CurrentPrice h -> -100 <= GainPercent h)) /\
  (AvgCost h <= 0 -> GainPercent h == 0).
Proof.
  intros Hh. simpl in Hh. injection Hh as <-. simpl.
  set (ac := col_avg_cost r). set (cp := col_current_price r).
  cmp_case.
  - assert (Hne : ~ ac == 0) by (apply Qnot_eq_sym, Qlt_not_eq; exact Hcmp).
    assert (Hgain : (cp - ac) / ac * 100 == (cp / ac - 1) * 100)
      by (field; exact Hne).
    assert (Hratio : forall x, (x <= cp -> x / ac <= cp / ac) /\
                               (cp <= x -> cp / ac <= x / ac)).
    { intros x. unfold Qdiv.
      split; intros Hle; apply Qmult_le_compat_r; try assumption;
        apply Qinv_le_0_compat; lra. }
    assert (Hone : ac / ac == 1) by (field; exact Hne).
    assert (Hzero : 0 / ac == 0) by (field; exact Hne).
    pose proof (Hratio ac) as [Hup Hdown]. pose proof (Hratio 0) as [Hup0 _].
    rewrite Hone in Hup, Hdown. rewrite Hzero in Hup0.
    split; [|intros; lra]. intros _.
    split; [reflexivity|]. rewrite Hgain. split.
    + split.
      * intros Hpos. apply Qnot_le_lt. intros Hle.
        specialize (Hdown Hle). lra.
      * intros Hlt.
        assert (Hstrict : ~ cp / ac == 1).
        { intros Heq.
          assert (Hcp : cp == cp / ac * ac) by (field; exact Hne).
          rewrite Heq in Hcp. lra. }
        specialize (Hup ltac:(lra)). lra.
    + intros Hcp. specialize (Hup0 Hcp). lra.
  - split; [intros; lra | intros; reflexivity].
Qed.

(** The loop appends one holding for each row that scans, in order, and
    nothing for the others. *)
Lemma addHoldingRow_fold (rows : list (Scanned HoldingRow)) :
  forall holdings,
  exists more,
    fold_left addHoldingRow rows holdings = holdings ++ more /\
    Forall2 (fun r h => addHoldingRow [] (Row r) = [h])
      (omap (fun row => match row with Row r => Some r | ScanErr _ => None end) rows)
      more.
Proof.
  induction rows as [|row rows IH]; intros holdings; cbn [fold_left].
  - exists []. rewrite app_nil_r. split; [reflexivity | constructor].
  - destruct row as [r|err].
    + destruct (IH (addHoldingRow holdings (Row r))) as (more & Hfold & Hmore).
      exists (addHoldingRow [] (Row r) ++ more). split.
      * rewrite Hfold. simpl. rewrite <- app_assoc. reflexivity.
      * simpl. constructor; [reflexivity | exact Hmore].
    + destruct (IH holdings) as (more & Hfold & Hmore).
      exists more. split; [exact Hfold | exact Hmore].
Qed.

(** X24. [getPortfolioHoldings] returns, for a query that succeeds, one
    holding for each row that scans, in the order of the rows, with the
    ticker, quantity, average cost, price and market value of its row, and
    nothing for a row that does not scan; its error is nil. The gain of a
    holding never divides by zero: with a positive average cost it is the
    relative price change in percent, positive exactly when the price is
    above the cost and never below -100 for a price that is not negative;
    with an average cost of zero or less it is 0. A failed query gives its
    error and no holding. *)
Theorem holdings_gain_percent (query : Scanned (list (Scanned HoldingRow))) :
  let out := getPortfolioHoldings query in
  (forall rows, query = Row rows ->
     snd out = None /\
     Forall2 (fun r h =>
                hTicker h = col_ticker r /\ Quantity h = col_quantity r /\
                AvgCost h = col_avg_cost r /\ CurrentPrice h = col_current_price r /\
                MarketValue h = col_market_value r /\
                (0 < col_avg_cost r ->
                   GainPercent h ==
                     (col_current_price r - col_avg_cost r) / col_avg_cost r * 100) /\
                (col_avg_cost r <= 0 -> GainPercent h == 0))
       (omap (fun row => match row with Row r => Some r | ScanErr _ => None end) rows)
       (fst out)) /\
  Forall (fun h =>
            (0 < AvgCost h ->
               GainPercent h == (CurrentPrice h - AvgCost h) / AvgCost h * 100 /\
               (0 < GainPercent h <-> AvgCost h < CurrentPrice h) /\
               (0 <= CurrentPrice h -> -100 <= GainPercent h)) /\
            (AvgCost h <= 0 -> GainPercent h == 0)) (fst out) /\
  (forall err, query = ScanErr err -> out = ([], Some err)).
Proof.
  cbv zeta. unfold getPortfolioHoldings.
  destruct query as [rows|err]; cbn [fst snd].
  - destruct (addHoldingRow_fold rows []) as (more & Hfold & Hmore).
    rewrite Hfold. cbn [app]. split; [|split].
    + intros rows' Heq. injection Heq as <-. split; [reflexivity|].
      eapply Forall2_impl; [exact Hmore|].
      intros r h Hh. pose proof (holding_gain r h Hh) as [Hpos Hnonpos].
      simpl in Hh. injection Hh as <-. simpl in *.
      repeat split; try reflexivity.
      * intros Hcost. apply Hpos. exact Hcost.
      * exact Hnonpos.
    + clear Hfold. induction Hmore as [|r h rs hs Hh _ IH]; constructor.
      * exact (holding_gain r h Hh).
      * exact IH.
    + intros err Heq. discriminate.
  - split; [|split].
    + intros rows Heq. discriminate.
    + constructor.
    + intros err' Heq. injection Heq as <-. reflexivity.
Qed.

(** ** generateBasicRecommendations *)

Section BasicFallback.

Variable d : DB.
Variable rejects : Recommendation -> option error.
Variable budget : float64.




End BasicFallback.

(** ** parseSentimentResult *)

Section ParseSentiment.

Variable TrimSpace : string -> string.
Variable jsonValid : string -> bool.
Variable jsonUnmarshal : string -> Scanned SentimentResult.




End ParseSentiment.


(** ** Markdown fences around the answer *)

Section Fences.

Local Opaque Ascii.ascii_dec.

Ltac char_case :=
  match goal with
  | |- context [Ascii.ascii_dec ?a ?c] => destruct (Ascii.ascii_dec a c) as [<-|?]
  | H : context [Ascii.ascii_dec ?a ?c] |- _ => destruct (Ascii.ascii_dec a c) as [<-|?]
  end.

Lemma substring_all (s : string) : String.substring 0 (String.length s) s = s.
Proof. induction s as [|c s IH]; simpl; [reflexivity | rewrite IH; reflexivity]. Qed.

Lemma length_append (a b : string) :
  String.length (String.append a b) = (String.length a + String.length b)%nat.
Proof. induction a as [|c a IH]; simpl; [reflexivity | rewrite IH; reflexivity]. Qed.

Lemma substring_append_left (a b : string) :
  String.substring 0 (String.length a) (String.append a b) = a.
Proof.
  induction a as [|c a IH]; simpl; [destruct b; reflexivity | rewrite IH; reflexivity].
Qed.

Lemma substring_append_right (a b : string) (n : nat) :
  String.substring (String.length a) n (String.append a b) = String.substring 0 n b.
Proof. induction a as [|c a IH]; simpl; [reflexivity | exact IH]. Qed.

Lemma prefix_append (p s : string) : String.prefix p (String.append p s) = true.
Proof.
  induction p as [|c p IH]; simpl; [destruct s; reflexivity|].
  destruct (Ascii.ascii_dec c c) as [_|Hne]; [exact IH | contradiction].
Qed.

Lemma TrimPrefix_append (p s : string) : TrimPrefix (String.append p s) p = s.
Proof.
  unfold TrimPrefix. rewrite prefix_append, length_append.
  replace (String.length p + String.length s - String.length p)%nat
    with (String.length s) by lia.
  rewrite substring_append_right. apply substring_all.
Qed.

Lemma TrimSuffix_append (a suffix : string) : TrimSuffix (String.append a suffix) suffix = a.
Proof.
  unfold TrimSuffix, HasSuffix. rewrite length_append.
  replace (String.length a + String.length suffix - String.length suffix)%nat
    with (String.length a) by lia.
  rewrite substring_append_right, substring_all, String.eqb_refl, substring_append_left.
  destruct (Nat.leb_spec (String.length suffix) (String.length a + String.length suffix));
    [reflexivity | lia].
Qed.

Lemma TrimPrefix_none (s p : string) : String.prefix p s = false -> TrimPrefix s p = s.
Proof. intros H. unfold TrimPrefix. rewrite H. reflexivity. Qed.

(** After the opening fence is gone, the second [TrimPrefix] and the
    [TrimSuffix] leave the body. *)
Lemma trim_closing_fence (body : string) :
  String.prefix "```" body = false ->
  TrimSuffix (TrimPrefix (String.append body "```") "```") "```" = body.
Proof.
  intros Hbody.
  destruct body as [|c1 [|c2 [|c3 rest]]]; try reflexivity.
  - unfold TrimPrefix. simpl. char_case; reflexivity.
  - unfold TrimPrefix. simpl. char_case; [|reflexivity]. char_case; reflexivity.
  - assert (Hpre : String.prefix "```"
                     (String.append (String c1 (String c2 (String c3 rest))) "```") = false).
    { simpl in *. repeat (char_case; [|reflexivity]). destruct rest; discriminate. }
    unfold TrimPrefix. rewrite Hpre. apply TrimSuffix_append.
Qed.

Lemma prefix_json_fence (s : string) :
  String.prefix "```" s = false -> String.prefix "```json" s = false.
Proof.
  destruct s as [|c1 [|c2 [|c3 rest]]]; simpl; try reflexivity;
    intros H; repeat (char_case; [|reflexivity]); try reflexivity;
    destruct rest; discriminate.
Qed.

Lemma prefix_json_plain (s : string) :
  String.prefix "json" s = false ->
  String.prefix "```json" (String.append "```" s) = false.
Proof.
  intros H. simpl.
  repeat (destruct (Ascii.ascii_dec _ _) as [_|Hne]; [|reflexivity]). exact H.
Qed.

Lemma prefix_json_body (body : string) :
  String.prefix "json" body = false ->
  String.prefix "json" (String.append body "```") = false.
Proof.
  destruct body as [|c1 [|c2 [|c3 [|c4 rest]]]]; simpl; intros H;
    repeat match goal with
           | |- context [Ascii.ascii_dec ?a ?c] =>
               destruct (Ascii.ascii_dec a c) as [Heq|?];
               [try discriminate Heq; try subst|try reflexivity]
           end;
    try reflexivity; try discriminate.
  all: repeat match goal with
              | H : context [Ascii.ascii_dec ?a ?a] |- _ =>
                  destruct (Ascii.ascii_dec a a) as [_|Hne]; [|contradiction]
              end.
  all: try discriminate; destruct rest; discriminate.
Qed.

Variable TrimSpace : string -> string.
Variable jsonValid : string -> bool.
Variable jsonUnmarshal : string -> Scanned SentimentResult.

(** X27. A Markdown fence around the answer is transparent: for a body
    that neither starts nor ends with three backquotes and that
    [TrimSpace] leaves as it is, the answer fenced with three backquotes and
    json, or with three backquotes alone (the body then not starting with
    json), gives the same result or error as the bare body. *)
Theorem fenced_answer_like_bare (body ticker : string) :
  String.prefix "```" body = false ->
  HasSuffix body "```" = false ->
  TrimSpace body = body ->
  let parse := parseSentimentResult TrimSpace jsonValid jsonUnmarshal in
  let fencedJson := String.append "```json" (String.append body "```") in
  let fenced := String.append "```" (String.append body "```") in
  (TrimSpace fencedJson = fencedJson -> parse fencedJson ticker = parse body ticker) /\
  (TrimSpace fenced = fenced -> String.prefix "json" body = false ->
     parse fenced ticker = parse body ticker).
Proof.
  intros Hstart Hend Hspace. cbv zeta.
  assert (Hbare : TrimSuffix (TrimPrefix (TrimPrefix body "```json") "```") "```" = body).
  { rewrite (TrimPrefix_none body "```json") by (apply prefix_json_fence; exact Hstart).
    rewrite (TrimPrefix_none body "```") by exact Hstart.
    unfold TrimSuffix. rewrite Hend. reflexivity. }
  split.
  - intros Hfenced. unfold parseSentimentResult.
    rewrite Hfenced, Hspace, Hbare.
    rewrite (TrimPrefix_append "```json"), trim_closing_fence by exact Hstart.
    reflexivity.
  - intros Hfenced Hjson. unfold parseSentimentResult.
    rewrite Hfenced, Hspace, Hbare.
    rewrite (TrimPrefix_none (String.append "```" (String.append body "```")) "```json").
    + rewrite (TrimPrefix_append "```"), TrimSuffix_append. reflexivity.
    + apply prefix_json_plain, prefix_json_body. exact Hjson.
Qed.

End Fences.

Lemma fenced_answer_like_bare_witness :
  let answer := {| srTicker := "SPY"; srSentiment := "bearish";
                   srConfidence := 0.6; srReasoning := "weak breadth" |} in
  let parse := parseSentimentResult (fun s => s) (fun _ => true) (fun _ => Row answer) in
  parse "```json{}```" "SPY" = parse "{}" "SPY".
Proof.
  intros answer parse.
  apply (fenced_answer_like_bare (fun s => s) (fun _ => true) (fun _ => Row answer)
           "{}" "SPY"); reflexivity.
Defined.

(** ** Instances on concrete databases *)

Lemma fetch_creator_accuracy_rates_witness :
  fst (fst (FetchCreatorAccuracy withHistory ["creator1"; "creator2"]%string []))
    !! "creator2"%string = Some 0.5.
Proof.
  destruct (fetch_creator_accuracy_rates withHistory ["creator1"; "creator2"]%string
              [("creator1"%string, 0.8)] [])
    as (_ & _ & Hdefault & _).
  - discriminate.
  - reflexivity.
  - repeat constructor. apply not_elem_of_nil.
  - apply Hdefault.
    + apply elem_of_cons. right. apply elem_of_cons. left. reflexivity.
    + simpl. intros Hin. apply elem_of_cons in Hin.
      destruct Hin as [Hin|Hin]; [discriminate | apply elem_of_nil in Hin; exact Hin].
Defined.

Lemma ticker_without_data_witness :
  (exists cols, technicalIndicators rsiMissing "SPY" = Row cols /\
                col_rsi_14 cols = Null /\ col_sma_50 cols = Value 450) /\
  Overall (fst (fst (getTickerConfidenceScore (defaultEngine rsiMissing) "SPY" []))) == 0.2.
Proof.
  split; [eexists; split; [reflexivity | split; reflexivity]|].
  apply (ticker_without_data (defaultEngine rsiMissing) "SPY" [] 1000 RegimeCalm).
  - reflexivity.
  - intros cols Hcols. injection Hcols as <-. reflexivity.
  - intros v Hv. injection Hv as <-. discriminate.
Defined.

Lemma null_rsi_no_alignment_witness :
  TechnicalAlignment
    (fst (fst (getTickerConfidenceScore (defaultEngine withHistory) "SPY" []))) == 0.
Proof.
  apply (null_rsi_no_alignment (defaultEngine withHistory) "SPY" []).
  intros cols Hcols. injection Hcols as <-. reflexivity.
Defined.

Lemma accuracy_default_half_witness :
  (let run := getTickerConfidenceScore (defaultEngine accuracyBroken) "SPY" [] in
   creatorsOf accuracyBroken "SPY" = ["creator1"; "creator2"]%string /\
   EvQuery (QCreatorAccuracy ["creator1"; "creator2"]%string) ∈ snd run /\
   creatorAccuracy accuracyBroken ["creator1"; "creator2"]%string =
     ScanErr (ErrDB "connection refused") /\
   snd (fst run) = None /\
   HistoricalAccuracy (fst (fst run)) == 0.5) /\
  (let run := getTickerConfidenceScore (defaultEngine accuracyUnknown) "SPY" [] in
   EvQuery (QCreatorAccuracy ["creator1"; "creator2"]%string) ∈ snd run /\
   snd (fst run) = None /\
   HistoricalAccuracy (fst (fst run)) == 0.5).
Proof.
  split; cbv zeta.
  - split; [vm_compute; reflexivity|].
    split; [vm_compute; repeat constructor|].
    split; [reflexivity|].
    apply (accuracy_default_half (defaultEngine accuracyBroken) "SPY" []).
    intros creators rows Hq. discriminate Hq.
  - split; [vm_compute; repeat constructor|].
    apply (accuracy_default_half (defaultEngine accuracyUnknown) "SPY" []).
    intros creators rows Hq. injection Hq as <-. reflexivity.
Defined.

Lemma engine_score_unit_witness :
  0 <= Overall
         (fst (fst (getTickerConfidenceScore (defaultEngine withHistory) "SPY" []))) <= 1.
Proof.
  apply (engine_score_unit (defaultEngine withHistory) "SPY" []).
  intros creators rows Hq. injection Hq as <-.
  constructor; [simpl; lra | constructor].
Defined.

(** A row whose scan fails after the RSI was read is not a row without
    RSI: the signals are derived from the RSI with every other value at
    zero. *)
Example scan_stops_after_rsi :
  let s := fst (fst (getTickerConfidenceScore (defaultEngine scanStopsAfterRsi) "SPY" [])) in
  signalsOf scanStopsAfterRsi "SPY" = ["bullish"%string] /\
  TechnicalAlignment s == 1 /\ Overall s == 0.5 /\
  Amount (calculateAllocation (defaultEngine scanStopsAfterRsi) "SPY" s 1000 RegimeCalm)
    == 200.
Proof. vm_compute. repeat split; reflexivity. Qed.

(** ** Instances on concrete tables *)

Lemma save_multiple_counts_witness :
  let out := SaveMultiple (recordInsert rejectQQQ) twoBars [] in
  length (snd out) = 2%nat /\
  fst (fst out) = 1%nat /\
  snd (fst out) = [Errorf "QQQ" (Errorf "save market data" (ErrDB "duplicate key"))].
Proof.
  cbv zeta.
  destruct (save_multiple_counts rejectQQQ twoBars []) as (Hsent & Hsaved & Herrors & _).
  split; [rewrite Hsent; vm_compute; reflexivity|].
  split; [rewrite Hsaved; vm_compute; reflexivity|].
  rewrite Herrors. vm_compute. reflexivity.
Defined.

Lemma holdings_gain_percent_witness :
  let out := getPortfolioHoldings (Row threeHoldingRows) in
  snd out = None /\ length (fst out) = 2%nat /\
  Forall (fun h => AvgCost h <= 0 -> GainPercent h == 0) (fst out).
Proof.
  cbv zeta.
  destruct (holdings_gain_percent (Row threeHoldingRows)) as (Hrows & Hgain & _).
  destruct (Hrows threeHoldingRows eq_refl) as [Herr Hfields].
  split; [exact Herr|]. split.
  - apply Forall2_length in Hfields. rewrite <- Hfields. reflexivity.
  - eapply Forall_impl; [exact Hgain|]. intros h [_ Hzero]. exact Hzero.
Defined.
